(** * The Fastpass control-protocol reliability layer

    A shallow embedding of [src/kernel-mod/fastpass_proto.c]: the outstanding
    window ("outwnd") with its doubled bitmap, the retransmission timer
    logic and its deferred task, the reset handshake, the run-length ACK
    processor, socket set-up and tear-down, and the construction and the
    parsing of packets, followed by the properties that the specification
    states about them and by further properties of the code.

    Conventions.
    - C unsigned integers are [Z] with the wrap-around written out
      ([to_u32], [add64], [sub64], ...).
    - A pointer to a packet descriptor is an [option]: [None] is [NULL].
    - [BUG_ON] aborts the kernel: functions that can reach one return a
      [result], whose [Bug] outcome is that abort.
    - The two [goto] loops of the file take a fuel argument; [OutOfFuel] is
      kept apart from [Bug] so that termination is a theorem about the
      model and not an artefact of it.
    - Calls that leave the module (the [fp->ops] callbacks and
      [fpproto_pktdesc_free]) are appended to the log [calls]; the callbacks
      are taken not to touch the session.
    - Services of the kernel ([time_after64] and its kin, [find_next_bit],
      [find_last_bit], the [hrtimer] calls) are modelled by what their
      documentation says they return; the clock is an argument.
    - A packet is the list of its bytes; a load past its end is an access
      outside the buffer and has the outcome [Bug]. *)

From Stdlib Require Import ZArith Lia Bool.
From stdpp Require Import base list.

Local Open Scope Z_scope.

(** ** Outcomes *)

Inductive result (A : Type) : Type :=
  | Ok (a : A)
  | Bug
  | OutOfFuel.

Arguments Ok {A} a.
Arguments Bug {A}.
Arguments OutOfFuel {A}.

#[global] Instance result_ret : MRet result := fun A a => Ok a.
#[global] Instance result_bind : MBind result := fun A B f m =>
  match m with
  | Ok a => f a
  | Bug => Bug
  | OutOfFuel => OutOfFuel
  end.

Definition bug_on (c : bool) : result unit := if c then Bug else Ok tt.

(** ** Machine arithmetic *)

Definition to_u64 (x : Z) : Z := x mod 2 ^ 64.
Definition to_u32 (x : Z) : Z := x mod 2 ^ 32.
Definition to_s64 (x : Z) : Z :=
  let y := x mod 2 ^ 64 in if y <? 2 ^ 63 then y else y - 2 ^ 64.
Definition to_s32 (x : Z) : Z :=
  let y := x mod 2 ^ 32 in if y <? 2 ^ 31 then y else y - 2 ^ 32.

Definition add64 (a b : Z) : Z := to_u64 (a + b).
Definition sub64 (a b : Z) : Z := to_u64 (a - b).
Definition neg64 (a : Z) : Z := to_u64 (- a).
Definition shl32 (a n : Z) : Z := to_u32 (Z.shiftl a n).

(** [linux/jiffies.h]: comparisons of 64-bit times that survive wrap-around,
    each the sign of a 64-bit difference. *)
Definition time_after64 (a b : Z) : bool := to_s64 (b - a) <? 0.
Definition time_before64 (a b : Z) : bool := time_after64 b a.
Definition time_after_eq64 (a b : Z) : bool := to_s64 (a - b) >=? 0.

(** ** Kernel bitmap searches

    [find_next_bit addr size offset] is the index of the first set bit at or
    after [offset] and below [size], or [size] when there is none;
    [find_last_bit addr size] is the index of the last set bit below [size],
    or [size] when there is none. *)

Fixpoint scan_up (mask : Z) (n : nat) (i size : Z) : Z :=
  match n with
  | O => size
  | S n' => if Z.testbit mask i then i else scan_up mask n' (i + 1) size
  end.

Definition find_next_bit (mask size offset : Z) : Z :=
  scan_up mask (Z.to_nat (size - offset)) offset size.

Fixpoint scan_down (mask : Z) (n : nat) (size : Z) : Z :=
  match n with
  | O => size
  | S n' =>
      if Z.testbit mask (Z.of_nat n') then Z.of_nat n'
      else scan_down mask n' size
  end.

Definition find_last_bit (mask size : Z) : Z :=
  scan_down mask (Z.to_nat size) size.

(** Number of set bits among the bits [0 .. n-1]. *)
Fixpoint popcount_below (mask : Z) (n : nat) : Z :=
  match n with
  | O => 0
  | S n' => popcount_below mask n' + (if Z.testbit mask (Z.of_nat n') then 1 else 0)
  end.

(** ** Data model *)

(** Modelled from the spec: the constant [FASTPASS_OUTWND_LEN] of the absent
    header [fastpass_proto.h]; the specification gives the window capacity
    of the source as 256. *)
Definition FASTPASS_OUTWND_LEN : Z := 256.

Record fpproto_pktdesc : Type := {
  seqno : Z;
  sent_timestamp : Z;
  send_reset : bool;
  reset_timestamp : Z;
  areq : list (Z * Z)
}.

(** The one-shot [hrtimer]: idle, queued to expire at an absolute time, or
    with its callback function executing right now. *)
Inductive hrtimer : Type :=
  | TimerInactive
  | TimerEnqueued (expires : Z)
  | TimerCallbackRunning.

(** [hrtimer_try_to_cancel]: 0 when the timer was not active, 1 when it was
    active and has been removed, -1 when its callback is executing and the
    timer cannot be stopped. *)
Definition hrtimer_try_to_cancel (t : hrtimer) : Z * hrtimer :=
  match t with
  | TimerInactive => (0, TimerInactive)
  | TimerEnqueued _ => (1, TimerInactive)
  | TimerCallbackRunning => (-1, TimerCallbackRunning)
  end.

(** [hrtimer_start (timer, ns_to_ktime t, HRTIMER_MODE_ABS)]. *)
Definition hrtimer_start (t : Z) : hrtimer := TimerEnqueued t.

(** Which callbacks of [fp->ops] are installed (non-NULL). *)
Record fpproto_ops : Type := {
  has_handle_reset : bool;
  has_handle_ack : bool;
  has_handle_neg_ack : bool
}.

(** Calls that leave the module. *)
Inductive upcall : Type :=
  | CallHandleReset
  | CallHandleAck (pd : option fpproto_pktdesc)
  | CallHandleNegAck (pd : option fpproto_pktdesc)
  | CallPktdescFree (pd : option fpproto_pktdesc).

(** The part of [struct fastpass_sock] that the functions below use.  The
    structure is declared in the absent header: [tx_num_unacked] is taken
    as a 32-bit and the counters as 64-bit unsigned integers.  [calls] is
    not a field of the structure: it is the log of the calls that leave
    the module. *)
Record fastpass_sock : Type := {
  next_seqno : Z;
  bin_mask : Z;
  bins : list (option fpproto_pktdesc);
  tx_num_unacked : Z;
  earliest_unacked : Z;
  last_reset_time : Z;
  in_sync : bool;
  send_timeout_us : Z;
  rst_win_ns : Z;
  retrans_timer : hrtimer;
  ops : fpproto_ops;
  stat_redundant_reset : Z;
  stat_reset_out_of_window : Z;
  stat_outdated_reset : Z;
  stat_too_early_ack : Z;
  stat_fall_off_outwnd : Z;
  calls : list upcall
}.

Definition set_next_seqno (fp : fastpass_sock) (v : Z) : fastpass_sock :=
  {| next_seqno := v; bin_mask := bin_mask fp; bins := bins fp;
     tx_num_unacked := tx_num_unacked fp; earliest_unacked := earliest_unacked fp;
     last_reset_time := last_reset_time fp; in_sync := in_sync fp;
     send_timeout_us := send_timeout_us fp; rst_win_ns := rst_win_ns fp;
     retrans_timer := retrans_timer fp; ops := ops fp;
     stat_redundant_reset := stat_redundant_reset fp;
     stat_reset_out_of_window := stat_reset_out_of_window fp;
     stat_outdated_reset := stat_outdated_reset fp;
     stat_too_early_ack := stat_too_early_ack fp;
     stat_fall_off_outwnd := stat_fall_off_outwnd fp; calls := calls fp |}.

Definition set_bin_mask (fp : fastpass_sock) (v : Z) : fastpass_sock :=
  {| next_seqno := next_seqno fp; bin_mask := v; bins := bins fp;
     tx_num_unacked := tx_num_unacked fp; earliest_unacked := earliest_unacked fp;
     last_reset_time := last_reset_time fp; in_sync := in_sync fp;
     send_timeout_us := send_timeout_us fp; rst_win_ns := rst_win_ns fp;
     retrans_timer := retrans_timer fp; ops := ops fp;
     stat_redundant_reset := stat_redundant_reset fp;
     stat_reset_out_of_window := stat_reset_out_of_window fp;
     stat_outdated_reset := stat_outdated_reset fp;
     stat_too_early_ack := stat_too_early_ack fp;
     stat_fall_off_outwnd := stat_fall_off_outwnd fp; calls := calls fp |}.

Definition set_bins (fp : fastpass_sock) (v : list (option fpproto_pktdesc)) : fastpass_sock :=
  {| next_seqno := next_seqno fp; bin_mask := bin_mask fp; bins := v;
     tx_num_unacked := tx_num_unacked fp; earliest_unacked := earliest_unacked fp;
     last_reset_time := last_reset_time fp; in_sync := in_sync fp;
     send_timeout_us := send_timeout_us fp; rst_win_ns := rst_win_ns fp;
     retrans_timer := retrans_timer fp; ops := ops fp;
     stat_redundant_reset := stat_redundant_reset fp;
     stat_reset_out_of_window := stat_reset_out_of_window fp;
     stat_outdated_reset := stat_outdated_reset fp;
     stat_too_early_ack := stat_too_early_ack fp;
     stat_fall_off_outwnd := stat_fall_off_outwnd fp; calls := calls fp |}.

Definition set_tx_num_unacked (fp : fastpass_sock) (v : Z) : fastpass_sock :=
  {| next_seqno := next_seqno fp; bin_mask := bin_mask fp; bins := bins fp;
     tx_num_unacked := v; earliest_unacked := earliest_unacked fp;
     last_reset_time := last_reset_time fp; in_sync := in_sync fp;
     send_timeout_us := send_timeout_us fp; rst_win_ns := rst_win_ns fp;
     retrans_timer := retrans_timer fp; ops := ops fp;
     stat_redundant_reset := stat_redundant_reset fp;
     stat_reset_out_of_window := stat_reset_out_of_window fp;
     stat_outdated_reset := stat_outdated_reset fp;
     stat_too_early_ack := stat_too_early_ack fp;
     stat_fall_off_outwnd := stat_fall_off_outwnd fp; calls := calls fp |}.

Definition set_earliest_unacked (fp : fastpass_sock) (v : Z) : fastpass_sock :=
  {| next_seqno := next_seqno fp; bin_mask := bin_mask fp; bins := bins fp;
     tx_num_unacked := tx_num_unacked fp; earliest_unacked := v;
     last_reset_time := last_reset_time fp; in_sync := in_sync fp;
     send_timeout_us := send_timeout_us fp; rst_win_ns := rst_win_ns fp;
     retrans_timer := retrans_timer fp; ops := ops fp;
     stat_redundant_reset := stat_redundant_reset fp;
     stat_reset_out_of_window := stat_reset_out_of_window fp;
     stat_outdated_reset := stat_outdated_reset fp;
     stat_too_early_ack := stat_too_early_ack fp;
     stat_fall_off_outwnd := stat_fall_off_outwnd fp; calls := calls fp |}.

Definition set_last_reset_time (fp : fastpass_sock) (v : Z) : fastpass_sock :=
  {| next_seqno := next_seqno fp; bin_mask := bin_mask fp; bins := bins fp;
     tx_num_unacked := tx_num_unacked fp; earliest_unacked := earliest_unacked fp;
     last_reset_time := v; in_sync := in_sync fp;
     send_timeout_us := send_timeout_us fp; rst_win_ns := rst_win_ns fp;
     retrans_timer := retrans_timer fp; ops := ops fp;
     stat_redundant_reset := stat_redundant_reset fp;
     stat_reset_out_of_window := stat_reset_out_of_window fp;
     stat_outdated_reset := stat_outdated_reset fp;
     stat_too_early_ack := stat_too_early_ack fp;
     stat_fall_off_outwnd := stat_fall_off_outwnd fp; calls := calls fp |}.

Definition set_in_sync (fp : fastpass_sock) (v : bool) : fastpass_sock :=
  {| next_seqno := next_seqno fp; bin_mask := bin_mask fp; bins := bins fp;
     tx_num_unacked := tx_num_unacked fp; earliest_unacked := earliest_unacked fp;
     last_reset_time := last_reset_time fp; in_sync := v;
     send_timeout_us := send_timeout_us fp; rst_win_ns := rst_win_ns fp;
     retrans_timer := retrans_timer fp; ops := ops fp;
     stat_redundant_reset := stat_redundant_reset fp;
     stat_reset_out_of_window := stat_reset_out_of_window fp;
     stat_outdated_reset := stat_outdated_reset fp;
     stat_too_early_ack := stat_too_early_ack fp;
     stat_fall_off_outwnd := stat_fall_off_outwnd fp; calls := calls fp |}.

Definition set_retrans_timer (fp : fastpass_sock) (v : hrtimer) : fastpass_sock :=
  {| next_seqno := next_seqno fp; bin_mask := bin_mask fp; bins := bins fp;
     tx_num_unacked := tx_num_unacked fp; earliest_unacked := earliest_unacked fp;
     last_reset_time := last_reset_time fp; in_sync := in_sync fp;
     send_timeout_us := send_timeout_us fp; rst_win_ns := rst_win_ns fp;
     retrans_timer := v; ops := ops fp;
     stat_redundant_reset := stat_redundant_reset fp;
     stat_reset_out_of_window := stat_reset_out_of_window fp;
     stat_outdated_reset := stat_outdated_reset fp;
     stat_too_early_ack := stat_too_early_ack fp;
     stat_fall_off_outwnd := stat_fall_off_outwnd fp; calls := calls fp |}.

Definition set_stat_redundant_reset (fp : fastpass_sock) (v : Z) : fastpass_sock :=
  {| next_seqno := next_seqno fp; bin_mask := bin_mask fp; bins := bins fp;
     tx_num_unacked := tx_num_unacked fp; earliest_unacked := earliest_unacked fp;
     last_reset_time := last_reset_time fp; in_sync := in_sync fp;
     send_timeout_us := send_timeout_us fp; rst_win_ns := rst_win_ns fp;
     retrans_timer := retrans_timer fp; ops := ops fp;
     stat_redundant_reset := v;
     stat_reset_out_of_window := stat_reset_out_of_window fp;
     stat_outdated_reset := stat_outdated_reset fp;
     stat_too_early_ack := stat_too_early_ack fp;
     stat_fall_off_outwnd := stat_fall_off_outwnd fp; calls := calls fp |}.

Definition set_stat_reset_out_of_window (fp : fastpass_sock) (v : Z) : fastpass_sock :=
  {| next_seqno := next_seqno fp; bin_mask := bin_mask fp; bins := bins fp;
     tx_num_unacked := tx_num_unacked fp; earliest_unacked := earliest_unacked fp;
     last_reset_time := last_reset_time fp; in_sync := in_sync fp;
     send_timeout_us := send_timeout_us fp; rst_win_ns := rst_win_ns fp;
     retrans_timer := retrans_timer fp; ops := ops fp;
     stat_redundant_reset := stat_redundant_reset fp;
     stat_reset_out_of_window := v;
     stat_outdated_reset := stat_outdated_reset fp;
     stat_too_early_ack := stat_too_early_ack fp;
     stat_fall_off_outwnd := stat_fall_off_outwnd fp; calls := calls fp |}.

Definition set_stat_outdated_reset (fp : fastpass_sock) (v : Z) : fastpass_sock :=
  {| next_seqno := next_seqno fp; bin_mask := bin_mask fp; bins := bins fp;
     tx_num_unacked := tx_num_unacked fp; earliest_unacked := earliest_unacked fp;
     last_reset_time := last_reset_time fp; in_sync := in_sync fp;
     send_timeout_us := send_timeout_us fp; rst_win_ns := rst_win_ns fp;
     retrans_timer := retrans_timer fp; ops := ops fp;
     stat_redundant_reset := stat_redundant_reset fp;
     stat_reset_out_of_window := stat_reset_out_of_window fp;
     stat_outdated_reset := v;
     stat_too_early_ack := stat_too_early_ack fp;
     stat_fall_off_outwnd := stat_fall_off_outwnd fp; calls := calls fp |}.

Definition set_stat_too_early_ack (fp : fastpass_sock) (v : Z) : fastpass_sock :=
  {| next_seqno := next_seqno fp; bin_mask := bin_mask fp; bins := bins fp;
     tx_num_unacked := tx_num_unacked fp; earliest_unacked := earliest_unacked fp;
     last_reset_time := last_reset_time fp; in_sync := in_sync fp;
     send_timeout_us := send_timeout_us fp; rst_win_ns := rst_win_ns fp;
     retrans_timer := retrans_timer fp; ops := ops fp;
     stat_redundant_reset := stat_redundant_reset fp;
     stat_reset_out_of_window := stat_reset_out_of_window fp;
     stat_outdated_reset := stat_outdated_reset fp;
     stat_too_early_ack := v;
     stat_fall_off_outwnd := stat_fall_off_outwnd fp; calls := calls fp |}.

Definition set_stat_fall_off_outwnd (fp : fastpass_sock) (v : Z) : fastpass_sock :=
  {| next_seqno := next_seqno fp; bin_mask := bin_mask fp; bins := bins fp;
     tx_num_unacked := tx_num_unacked fp; earliest_unacked := earliest_unacked fp;
     last_reset_time := last_reset_time fp; in_sync := in_sync fp;
     send_timeout_us := send_timeout_us fp; rst_win_ns := rst_win_ns fp;
     retrans_timer := retrans_timer fp; ops := ops fp;
     stat_redundant_reset := stat_redundant_reset fp;
     stat_reset_out_of_window := stat_reset_out_of_window fp;
     stat_outdated_reset := stat_outdated_reset fp;
     stat_too_early_ack := stat_too_early_ack fp;
     stat_fall_off_outwnd := v; calls := calls fp |}.

Definition emit (fp : fastpass_sock) (c : upcall) : fastpass_sock :=
  {| next_seqno := next_seqno fp; bin_mask := bin_mask fp; bins := bins fp;
     tx_num_unacked := tx_num_unacked fp; earliest_unacked := earliest_unacked fp;
     last_reset_time := last_reset_time fp; in_sync := in_sync fp;
     send_timeout_us := send_timeout_us fp; rst_win_ns := rst_win_ns fp;
     retrans_timer := retrans_timer fp; ops := ops fp;
     stat_redundant_reset := stat_redundant_reset fp;
     stat_reset_out_of_window := stat_reset_out_of_window fp;
     stat_outdated_reset := stat_outdated_reset fp;
     stat_too_early_ack := stat_too_early_ack fp;
     stat_fall_off_outwnd := stat_fall_off_outwnd fp; calls := calls fp ++ [c] |}.

(** ** The outstanding window *)

Definition outwnd_pos (tslot : Z) : Z :=
  Z.land (to_u32 (neg64 tslot)) (FASTPASS_OUTWND_LEN - 1).

(** [fp->bins[i]]. *)
Definition bin_at (fp : fastpass_sock) (i : Z) : option fpproto_pktdesc :=
  default None (bins fp !! Z.to_nat i).

Definition outwnd_is_unacked (fp : fastpass_sock) (seqno : Z) : bool :=
  Z.testbit (bin_mask fp) (outwnd_pos seqno).

Definition outwnd_add (fp : fastpass_sock) (pd : option fpproto_pktdesc)
  : result fastpass_sock :=
  let circular_index := outwnd_pos (next_seqno fp) in
  bug_on (outwnd_is_unacked fp (sub64 (next_seqno fp) FASTPASS_OUTWND_LEN));;
  bug_on (negb (bool_decide (is_Some pd)));;
  let fp := set_bin_mask fp (Z.setbit (bin_mask fp) circular_index) in
  let fp := set_bin_mask fp
              (Z.setbit (bin_mask fp) (circular_index + FASTPASS_OUTWND_LEN)) in
  let fp := set_bins fp (<[Z.to_nat circular_index := pd]> (bins fp)) in
  let fp := set_tx_num_unacked fp (to_u32 (tx_num_unacked fp + 1)) in
  Ok (set_next_seqno fp (add64 (next_seqno fp) 1)).

Definition outwnd_pop (fp : fastpass_sock) (seqno : Z)
  : result (option fpproto_pktdesc * fastpass_sock) :=
  let circular_index := outwnd_pos seqno in
  let res := bin_at fp circular_index in
  bug_on (negb (outwnd_is_unacked fp seqno));;
  let fp := set_bin_mask fp (Z.clearbit (bin_mask fp) circular_index) in
  let fp := set_bin_mask fp
              (Z.clearbit (bin_mask fp) (circular_index + FASTPASS_OUTWND_LEN)) in
  let fp := set_bins fp (<[Z.to_nat circular_index := None]> (bins fp)) in
  let fp := set_tx_num_unacked fp (to_u32 (tx_num_unacked fp - 1)) in
  Ok (res, fp).

Definition outwnd_at_or_before (fp : fastpass_sock) (seqno : Z) : result Z :=
  bug_on (time_after_eq64 seqno (next_seqno fp));;
  if time_before64 seqno (sub64 (next_seqno fp) FASTPASS_OUTWND_LEN)
  then Ok (-1)
  else
    let head_index := outwnd_pos (sub64 (next_seqno fp) 1) in
    let seqno_index :=
      to_u32 (head_index + outwnd_pos (sub64 seqno (sub64 (next_seqno fp) 1))) in
    let found_offset :=
      to_u32 (find_next_bit (bin_mask fp)
                (to_u32 (head_index + FASTPASS_OUTWND_LEN)) seqno_index) in
    bug_on (negb (found_offset =? to_u32 (head_index + FASTPASS_OUTWND_LEN))
            && negb (outwnd_is_unacked fp
                       (sub64 seqno (to_u32 (found_offset - seqno_index)))));;
    Ok (if found_offset =? to_u32 (head_index + FASTPASS_OUTWND_LEN)
        then -1
        else to_s32 (found_offset - seqno_index)).

Definition outwnd_earliest_unacked_hint (fp : fastpass_sock) (hint : Z)
  : result Z :=
  let hint_pos := outwnd_pos hint in
  let found_offset :=
    to_u32 (find_last_bit (bin_mask fp)
              (to_u32 (hint_pos + FASTPASS_OUTWND_LEN + 1))) in
  let earliest :=
    add64 hint (to_u32 (hint_pos + FASTPASS_OUTWND_LEN - found_offset)) in
  (* the right operand of && is evaluated only when the left one holds *)
  (if negb (earliest =? sub64 (next_seqno fp) FASTPASS_OUTWND_LEN)
   then gap ← outwnd_at_or_before fp (sub64 earliest 1);
        bug_on (negb (gap =? -1))
   else Ok tt);;
  Ok earliest.

Definition outwnd_earliest_unacked (fp : fastpass_sock) : result Z :=
  outwnd_earliest_unacked_hint fp (sub64 (next_seqno fp) FASTPASS_OUTWND_LEN).

Definition fpproto_pktdesc_free (fp : fastpass_sock) (pd : option fpproto_pktdesc)
  : fastpass_sock :=
  emit fp (CallPktdescFree pd).

(** [outwnd_reset]: the loop at [clear_next_unacked]; every arrival at the
    label takes one unit of fuel. *)
Fixpoint clear_next_unacked (fuel : nat) (fp : fastpass_sock) (tslot : Z)
  : result fastpass_sock :=
  match fuel with
  | O => OutOfFuel
  | S fuel' =>
      gap ← outwnd_at_or_before fp tslot;
      if gap >=? 0 then
        let tslot := sub64 tslot gap in
        '(pd, fp) ← outwnd_pop fp tslot;
        clear_next_unacked fuel' (fpproto_pktdesc_free fp pd) tslot
      else Ok fp
  end.

Definition outwnd_reset (fuel : nat) (fp : fastpass_sock) : result fastpass_sock :=
  clear_next_unacked fuel fp (sub64 (next_seqno fp) 1).

Definition outwnd_empty (fp : fastpass_sock) : bool :=
  tx_num_unacked fp =? 0.

(** Dereferences [fp->bins[outwnd_pos(seqno)]]: a NULL slot is a kernel
    oops, modelled as [Bug]. *)
Definition outwnd_timestamp (fp : fastpass_sock) (seqno : Z) : result Z :=
  match bin_at fp (outwnd_pos seqno) with
  | Some pd => Ok (sent_timestamp pd)
  | None => Bug
  end.

(** ** Acknowledgements and the retransmission timer *)

Definition do_ack_seqno (fp : fastpass_sock) (seqno : Z) : result fastpass_sock :=
  bug_on (time_after_eq64 seqno (next_seqno fp));;
  bug_on (time_before64 seqno (sub64 (next_seqno fp) FASTPASS_OUTWND_LEN));;
  bug_on (negb (outwnd_is_unacked fp seqno));;
  '(pd, fp) ← outwnd_pop fp seqno;
  if has_handle_ack (ops fp)
  then Ok (emit fp (CallHandleAck pd))
  else Ok (fpproto_pktdesc_free fp pd).

Definition do_neg_ack_seqno (fp : fastpass_sock) (seq : Z) : result fastpass_sock :=
  '(pd, fp) ← outwnd_pop fp seq;
  if has_handle_neg_ack (ops fp)
  then Ok (emit fp (CallHandleNegAck pd))
  else Ok (fpproto_pktdesc_free fp pd).

Definition cancel_and_reset_retrans_timer (fp : fastpass_sock)
  : result fastpass_sock :=
  let '(ret, timer) := hrtimer_try_to_cancel (retrans_timer fp) in
  let fp := set_retrans_timer fp timer in
  if negb (ret =? 0) then Ok fp
  else if outwnd_empty fp then Ok fp
  else
    seqno ← outwnd_earliest_unacked fp;
    stamp ← outwnd_timestamp fp seqno;
    let timeout := add64 stamp (send_timeout_us fp) in
    let fp := set_earliest_unacked fp seqno in
    Ok (set_retrans_timer fp (hrtimer_start timeout)).

(** ** Protocol reset *)

Definition tstamp_in_window (tstamp win_middle win_size : Z) : bool :=
  (tstamp >=? sub64 win_middle (win_size / 2))
  && (tstamp <? add64 win_middle (add64 win_size 1 / 2)).

(** The 56-bit wire timestamp extended to 64 bits around [now]. *)
Definition reset_full_tstamp (now partial_tstamp : Z) : Z :=
  let full_tstamp := sub64 now (Z.shiftl 1 55) in
  add64 full_tstamp (Z.land (sub64 partial_tstamp full_tstamp) (Z.shiftl 1 56 - 1)).

Section Reset.

(** [jhash_1word] of [linux/jhash.h]; no property below depends on the
    values it takes. *)
Variable jhash_1word : Z -> Z -> Z.

Definition do_proto_reset (fuel : nat) (fp : fastpass_sock) (reset_time : Z)
  : result fastpass_sock :=
  let time_hash := to_u32 (jhash_1word (to_u32 reset_time) (Z.shiftr reset_time 32)) in
  fp ← outwnd_reset fuel fp;
  let fp := set_last_reset_time fp reset_time in
  Ok (set_next_seqno fp
        (add64 (add64 reset_time time_hash) (to_u64 (Z.shiftl time_hash 32)))).

(** [now] is the reading of [fp_get_time_ns ()] taken on entry. *)
Definition fpproto_handle_reset (fuel : nat) (now : Z) (fp : fastpass_sock)
    (partial_tstamp : Z) : result fastpass_sock :=
  let full_tstamp := reset_full_tstamp now partial_tstamp in
  if full_tstamp =? last_reset_time fp then
    if negb (in_sync fp) then Ok (set_in_sync fp true)
    else Ok (set_stat_redundant_reset fp (add64 (stat_redundant_reset fp) 1))
  else if negb (tstamp_in_window full_tstamp now (rst_win_ns fp)) then
    Ok (set_stat_reset_out_of_window fp (add64 (stat_reset_out_of_window fp) 1))
  else if tstamp_in_window (last_reset_time fp) now (rst_win_ns fp)
          && (full_tstamp <? last_reset_time fp) then
    Ok (set_stat_outdated_reset fp (add64 (stat_outdated_reset fp) 1))
  else
    fp ← do_proto_reset fuel fp full_tstamp;
    let fp := set_in_sync fp true in
    if has_handle_reset (ops fp) then Ok (emit fp CallHandleReset) else Ok fp.

End Reset.

(** ** The ACK processor *)

Inductive ack_label : Type := do_next_positive | do_next_unacked.

(** The locals of [fpproto_handle_ack] that live across its labels. *)
Record ack_locals : Type := {
  cur_seqno : Z;
  end_seqno : Z;
  ack_runlen : Z;
  n_acked : Z
}.

(** Control from a label of [fpproto_handle_ack] up to the label [done];
    every arrival at a label takes one unit of fuel. *)
Fixpoint ack_goto (fuel : nat) (l : ack_label) (fp : fastpass_sock)
    (v : ack_locals) : result (fastpass_sock * ack_locals) :=
  match fuel with
  | O => OutOfFuel
  | S fuel' =>
      match l with
      | do_next_positive =>
          ack_goto fuel' do_next_unacked fp
            {| cur_seqno := end_seqno v;
               end_seqno := sub64 (end_seqno v) (Z.shiftr (ack_runlen v) 28);
               ack_runlen := shl32 (ack_runlen v) 4;
               n_acked := n_acked v |}
      | do_next_unacked =>
          next_unacked ← outwnd_at_or_before fp (cur_seqno v);
          if next_unacked =? -1 then Ok (fp, v)
          else
            let cur := sub64 (cur_seqno v) next_unacked in
            if time_after64 cur (end_seqno v) then
              fp ← do_ack_seqno fp cur;
              ack_goto fuel' do_next_unacked fp
                {| cur_seqno := cur; end_seqno := end_seqno v;
                   ack_runlen := ack_runlen v; n_acked := n_acked v + 1 |}
            else if negb (ack_runlen v =? 0) then
              ack_goto fuel' do_next_positive fp
                {| cur_seqno := cur;
                   end_seqno := sub64 (end_seqno v) (Z.shiftr (ack_runlen v) 28);
                   ack_runlen := shl32 (ack_runlen v) 4;
                   n_acked := n_acked v |}
            else
              Ok (fp, {| cur_seqno := cur; end_seqno := end_seqno v;
                         ack_runlen := ack_runlen v; n_acked := n_acked v |})
      end
  end.

(** The full seqno that [fpproto_handle_ack] derives from the 16 bits on the
    wire. *)
Definition ack_full_seqno (fp : fastpass_sock) (ack_seq : Z) : Z :=
  let cur_seqno := sub64 (next_seqno fp) (Z.shiftl 1 16) in
  add64 cur_seqno (Z.land (sub64 ack_seq cur_seqno) 65535).

Definition fpproto_handle_ack (fuel : nat) (fp : fastpass_sock)
    (ack_seq ack_runlen : Z) : result fastpass_sock :=
  let cur_seqno := ack_full_seqno fp ack_seq in
  if time_before64 cur_seqno (sub64 (next_seqno fp) FASTPASS_OUTWND_LEN) then
    Ok (set_stat_too_early_ack fp (add64 (stat_too_early_ack fp) 1))
  else
    '(fp, acked) ←
      (if outwnd_is_unacked fp cur_seqno
       then fp ← do_ack_seqno fp cur_seqno; Ok (fp, 1)
       else Ok (fp, 0));
    '(fp, v) ← ack_goto fuel do_next_positive fp
                 {| cur_seqno := cur_seqno; end_seqno := sub64 cur_seqno 1;
                    ack_runlen := shl32 ack_runlen 4; n_acked := acked |};
    if n_acked v >? 0 then cancel_and_reset_retrans_timer fp else Ok fp.

(** ** Sending *)

Definition fpproto_prepare_to_send (fp : fastpass_sock) : result fastpass_sock :=
  let window_edge := sub64 (next_seqno fp) FASTPASS_OUTWND_LEN in
  if outwnd_is_unacked fp window_edge then
    let fp := set_stat_fall_off_outwnd fp (add64 (stat_fall_off_outwnd fp) 1) in
    fp ← do_neg_ack_seqno fp window_edge;
    cancel_and_reset_retrans_timer fp
  else Ok fp.

Definition fpproto_commit_packet (fp : fastpass_sock) (pd : fpproto_pktdesc)
    (timestamp : Z) : result fastpass_sock :=
  let pd := {| seqno := next_seqno fp; sent_timestamp := timestamp;
               send_reset := negb (in_sync fp);
               reset_timestamp := last_reset_time fp; areq := areq pd |} in
  fp ← outwnd_add fp (Some pd);
  if tx_num_unacked fp =? 1 then
    let timeout := add64 (sent_timestamp pd) (send_timeout_us fp) in
    let fp := set_earliest_unacked fp (seqno pd) in
    Ok (set_retrans_timer fp (hrtimer_start timeout))
  else Ok fp.

(** ** The deferred task of the retransmission timer *)

(** The [while] loop of [retrans_tasklet], entered with [seqno]; every test
    of the loop condition takes one unit of fuel.  [now] is the reading of
    [fp_get_time_ns ()] taken on entry of the task. *)
Fixpoint retrans_expire (fuel : nat) (now : Z) (fp : fastpass_sock) (seqno : Z)
  : result fastpass_sock :=
  match fuel with
  | O => OutOfFuel
  | S fuel' =>
      if outwnd_empty fp then Ok fp
      else
        seqno ← outwnd_earliest_unacked_hint fp seqno;
        stamp ← outwnd_timestamp fp seqno;
        let timeout := add64 stamp (send_timeout_us fp) in
        if time_after64 timeout now then
          (* set_next_timer *)
          let fp := set_earliest_unacked fp seqno in
          Ok (set_retrans_timer fp (hrtimer_start timeout))
        else
          fp ← do_neg_ack_seqno fp seqno;
          retrans_expire fuel' now fp seqno
  end.

(** [qdisc_locked] says whether [fpproto_lock_qdisc] returned a qdisc: it
    returns [NULL] when none is attached or when the qdisc is being
    destroyed. *)
Definition retrans_tasklet (fuel : nat) (now : Z) (qdisc_locked : bool)
    (fp : fastpass_sock) : result fastpass_sock :=
  if negb qdisc_locked then Ok fp
  else retrans_expire fuel now fp (earliest_unacked fp).

(** ** Socket set-up and tear-down *)

Section Socket.

Variable jhash_1word : Z -> Z -> Z.

(** The part of [fpproto_sk_init] that touches the session, built without
    [FASTPASS_PERFORM_RUNTIME_TESTS]: the bitmap is cleared, the timer
    initialised, and the reset time chosen from the clock reading [now]. *)
Definition fpproto_sk_init (fuel : nat) (now : Z) (fp : fastpass_sock)
  : result fastpass_sock :=
  let fp := set_bin_mask fp 0 in
  let fp := set_retrans_timer fp TimerInactive in
  fp ← do_proto_reset jhash_1word fuel fp now;
  Ok (set_in_sync fp false).

End Socket.

(** [hrtimer_cancel] waits for a running callback and leaves the timer
    inactive. *)
Definition fpproto_destroy_sock (fuel : nat) (fp : fastpass_sock)
  : result fastpass_sock :=
  fp ← outwnd_reset fuel fp;
  Ok (set_retrans_timer fp TimerInactive).

(** ** The wire codec *)

(** Modelled from the spec: the payload type codes of the absent header
    [fastpass_proto.h], which the specification gives in its table of
    payloads: RESET 0, ALLOC 1, ACK 2, AREQ 4, and 0 for the RESET that is
    sent ([FASTPASS_PTYPE_RSTREQ]). *)
Definition FASTPASS_PTYPE_RSTREQ : Z := 0.
Definition FASTPASS_PTYPE_RESET : Z := 0.
Definition FASTPASS_PTYPE_ALLOC : Z := 1.
Definition FASTPASS_PTYPE_ACK : Z := 2.
Definition FASTPASS_PTYPE_AREQ : Z := 4.

(** Bytes are integers 0..255; packets are lists of bytes. *)
Definition to_u8 (x : Z) : Z := x mod 2 ^ 8.
Definition to_u16 (x : Z) : Z := x mod 2 ^ 16.

(** [htons] and [htonl] followed by the store: the bytes in network order. *)
Definition put_be16 (x : Z) : list Z :=
  [to_u8 (Z.shiftr x 8); to_u8 x].
Definition put_be32 (x : Z) : list Z :=
  [to_u8 (Z.shiftr x 24); to_u8 (Z.shiftr x 16); to_u8 (Z.shiftr x 8); to_u8 x].

(** A load of the [unsigned char] at [data + i]; a load past the end of the
    packet is an access outside the buffer, modelled as [Bug]. *)
Definition load_u8 (data : list Z) (i : nat) : result Z :=
  match data !! i with
  | Some b => Ok (to_u8 b)
  | None => Bug
  end.

(** The load of a 16-bit or 32-bit word at [data], followed by [ntohs] or
    [ntohl]. *)
Definition load_be16 (data : list Z) : result Z :=
  b0 ← load_u8 data 0;
  b1 ← load_u8 data 1;
  Ok (Z.lor (Z.shiftl b0 8) b1).

Definition load_be32 (data : list Z) : result Z :=
  b0 ← load_u8 data 0;
  b1 ← load_u8 data 1;
  b2 ← load_u8 data 2;
  b3 ← load_u8 data 3;
  Ok (Z.lor (Z.lor (Z.lor (Z.shiftl b0 24) (Z.shiftl b1 16)) (Z.shiftl b2 8)) b3).

(** The counters of the receive and transmit paths, fields of
    [struct fastpass_sock] in the source. *)
Record io_stats : Type := {
  stat_rx_pkts : Z;
  stat_rx_too_short : Z;
  stat_rx_incomplete_reset : Z;
  stat_rx_incomplete_alloc : Z;
  stat_rx_incomplete_ack : Z;
  stat_rx_unknown_payload : Z;
  stat_xmit_errors : Z;
  stat_skb_alloc_error : Z
}.

(** One call of [fp->ops->handle_alloc]. *)
Record alloc_call : Type := {
  alloc_base_tslot : Z;
  alloc_dst : list Z;
  alloc_tslots : list Z
}.

(** The session as the receive path sees it: the session proper, the
    counters, and the log of the calls of [handle_alloc]. *)
Record rx_state : Type := {
  rx_fp : fastpass_sock;
  rx_stats : io_stats;
  rx_allocs : list alloc_call
}.

Definition rx_with_fp (st : rx_state) (fp : fastpass_sock) : rx_state :=
  {| rx_fp := fp; rx_stats := rx_stats st; rx_allocs := rx_allocs st |}.

Definition rx_with_stats (st : rx_state) (s : io_stats) : rx_state :=
  {| rx_fp := rx_fp st; rx_stats := s; rx_allocs := rx_allocs st |}.

Definition count_rx_pkts (s : io_stats) : io_stats :=
  {| stat_rx_pkts := add64 (stat_rx_pkts s) 1;
     stat_rx_too_short := stat_rx_too_short s;
     stat_rx_incomplete_reset := stat_rx_incomplete_reset s;
     stat_rx_incomplete_alloc := stat_rx_incomplete_alloc s;
     stat_rx_incomplete_ack := stat_rx_incomplete_ack s;
     stat_rx_unknown_payload := stat_rx_unknown_payload s;
     stat_xmit_errors := stat_xmit_errors s;
     stat_skb_alloc_error := stat_skb_alloc_error s |}.

Definition count_rx_too_short (s : io_stats) : io_stats :=
  {| stat_rx_pkts := stat_rx_pkts s;
     stat_rx_too_short := add64 (stat_rx_too_short s) 1;
     stat_rx_incomplete_reset := stat_rx_incomplete_reset s;
     stat_rx_incomplete_alloc := stat_rx_incomplete_alloc s;
     stat_rx_incomplete_ack := stat_rx_incomplete_ack s;
     stat_rx_unknown_payload := stat_rx_unknown_payload s;
     stat_xmit_errors := stat_xmit_errors s;
     stat_skb_alloc_error := stat_skb_alloc_error s |}.

Definition count_rx_incomplete_reset (s : io_stats) : io_stats :=
  {| stat_rx_pkts := stat_rx_pkts s;
     stat_rx_too_short := stat_rx_too_short s;
     stat_rx_incomplete_reset := add64 (stat_rx_incomplete_reset s) 1;
     stat_rx_incomplete_alloc := stat_rx_incomplete_alloc s;
     stat_rx_incomplete_ack := stat_rx_incomplete_ack s;
     stat_rx_unknown_payload := stat_rx_unknown_payload s;
     stat_xmit_errors := stat_xmit_errors s;
     stat_skb_alloc_error := stat_skb_alloc_error s |}.

Definition count_rx_incomplete_alloc (s : io_stats) : io_stats :=
  {| stat_rx_pkts := stat_rx_pkts s;
     stat_rx_too_short := stat_rx_too_short s;
     stat_rx_incomplete_reset := stat_rx_incomplete_reset s;
     stat_rx_incomplete_alloc := add64 (stat_rx_incomplete_alloc s) 1;
     stat_rx_incomplete_ack := stat_rx_incomplete_ack s;
     stat_rx_unknown_payload := stat_rx_unknown_payload s;
     stat_xmit_errors := stat_xmit_errors s;
     stat_skb_alloc_error := stat_skb_alloc_error s |}.

Definition count_rx_incomplete_ack (s : io_stats) : io_stats :=
  {| stat_rx_pkts := stat_rx_pkts s;
     stat_rx_too_short := stat_rx_too_short s;
     stat_rx_incomplete_reset := stat_rx_incomplete_reset s;
     stat_rx_incomplete_alloc := stat_rx_incomplete_alloc s;
     stat_rx_incomplete_ack := add64 (stat_rx_incomplete_ack s) 1;
     stat_rx_unknown_payload := stat_rx_unknown_payload s;
     stat_xmit_errors := stat_xmit_errors s;
     stat_skb_alloc_error := stat_skb_alloc_error s |}.

Definition count_rx_unknown_payload (s : io_stats) : io_stats :=
  {| stat_rx_pkts := stat_rx_pkts s;
     stat_rx_too_short := stat_rx_too_short s;
     stat_rx_incomplete_reset := stat_rx_incomplete_reset s;
     stat_rx_incomplete_alloc := stat_rx_incomplete_alloc s;
     stat_rx_incomplete_ack := stat_rx_incomplete_ack s;
     stat_rx_unknown_payload := add64 (stat_rx_unknown_payload s) 1;
     stat_xmit_errors := stat_xmit_errors s;
     stat_skb_alloc_error := stat_skb_alloc_error s |}.

Definition count_xmit_errors (s : io_stats) : io_stats :=
  {| stat_rx_pkts := stat_rx_pkts s;
     stat_rx_too_short := stat_rx_too_short s;
     stat_rx_incomplete_reset := stat_rx_incomplete_reset s;
     stat_rx_incomplete_alloc := stat_rx_incomplete_alloc s;
     stat_rx_incomplete_ack := stat_rx_incomplete_ack s;
     stat_rx_unknown_payload := stat_rx_unknown_payload s;
     stat_xmit_errors := add64 (stat_xmit_errors s) 1;
     stat_skb_alloc_error := stat_skb_alloc_error s |}.

Definition count_skb_alloc_error (s : io_stats) : io_stats :=
  {| stat_rx_pkts := stat_rx_pkts s;
     stat_rx_too_short := stat_rx_too_short s;
     stat_rx_incomplete_reset := stat_rx_incomplete_reset s;
     stat_rx_incomplete_alloc := stat_rx_incomplete_alloc s;
     stat_rx_incomplete_ack := stat_rx_incomplete_ack s;
     stat_rx_unknown_payload := stat_rx_unknown_payload s;
     stat_xmit_errors := stat_xmit_errors s;
     stat_skb_alloc_error := add64 (stat_skb_alloc_error s) 1 |}.

(** The timestamp that [fpproto_rcv] reads from a RESET payload: the low 24
    bits of the first word and the second word. *)
Definition rcv_reset_tstamp (data : list Z) : result Z :=
  hi ← load_be32 data;
  lo ← load_be32 (drop 4 data);
  Ok (Z.lor (to_u64 (Z.shiftl (Z.land hi (Z.shiftl 1 24 - 1)) 32)) lo).

(** The destinations of an ALLOC payload: [n] 16-bit words. *)
Fixpoint rcv_alloc_dst (n : nat) (data : list Z) : result (list Z) :=
  match n with
  | O => Ok []
  | S n' =>
      d ← load_be16 data;
      ds ← rcv_alloc_dst n' (drop 2 data);
      Ok (d :: ds)
  end.

Section Receive.

Variable jhash_1word : Z -> Z -> Z.

(** The readings of [fp_get_time_ns ()] by [fpproto_handle_reset], indexed
    by the fuel left at the payload. *)
Variable clock : nat -> Z.

(** Whether [fp->ops->handle_alloc] is installed. *)
Variable has_handle_alloc : bool.

(** The test [data < data_end] after a payload. *)
Definition more_payloads (data : list Z) : bool := (0 <? length data)%nat.

(** [fpproto_rcv] from the label [handle_payload] on, [data] being the bytes
    from the pointer [data] up to [data_end]; every arrival at the label
    takes one unit of [fuel], and [inner] is the fuel of the handlers. *)
Fixpoint handle_payload (fuel inner : nat) (st : rx_state) (data : list Z)
  : result rx_state :=
  match fuel with
  | O => OutOfFuel
  | S fuel' =>
      b ← load_u8 data 0;
      let payload_type := Z.shiftr b 4 in
      if payload_type =? FASTPASS_PTYPE_RESET then
        if (length data <? 8)%nat then
          Ok (rx_with_stats st (count_rx_incomplete_reset (rx_stats st)))
        else
          rst_tstamp ← rcv_reset_tstamp data;
          fp ← fpproto_handle_reset jhash_1word inner (clock fuel') (rx_fp st)
                 rst_tstamp;
          let st := rx_with_fp st fp in
          let data := drop 8 data in
          if more_payloads data then handle_payload fuel' inner st data
          else Ok st
      else if payload_type =? FASTPASS_PTYPE_ALLOC then
        if (length data <? 2)%nat then
          Ok (rx_with_stats st (count_rx_incomplete_alloc (rx_stats st)))
        else
          payload_type ← load_be16 data;
          let alloc_n_dst := Z.land (Z.shiftr payload_type 8) 15 in
          let alloc_n_tslots := 2 * Z.land payload_type 63 in
          let data := drop 2 data in
          if (Z.of_nat (length data) <? 2 + 2 * alloc_n_dst + alloc_n_tslots) then
            Ok (rx_with_stats st (count_rx_incomplete_alloc (rx_stats st)))
          else
            base ← load_be16 data;
            let base_tslot := to_u32 (Z.shiftl base 4) in
            let data := drop 2 data in
            dst ← rcv_alloc_dst (Z.to_nat alloc_n_dst) data;
            let data := drop (Z.to_nat (2 * alloc_n_dst)) data in
            let st :=
              if has_handle_alloc then
                {| rx_fp := rx_fp st; rx_stats := rx_stats st;
                   rx_allocs := rx_allocs st ++
                     [{| alloc_base_tslot := base_tslot; alloc_dst := dst;
                         alloc_tslots := take (Z.to_nat alloc_n_tslots) data |}] |}
              else st in
            let data := drop (Z.to_nat alloc_n_tslots) data in
            if more_payloads data then handle_payload fuel' inner st data
            else Ok st
      else if payload_type =? FASTPASS_PTYPE_ACK then
        if (length data <? 6)%nat then
          Ok (rx_with_stats st (count_rx_incomplete_ack (rx_stats st)))
        else
          ack_runlen ← load_be32 data;
          ack_seq ← load_be16 (drop 4 data);
          fp ← fpproto_handle_ack inner (rx_fp st) ack_seq ack_runlen;
          let st := rx_with_fp st fp in
          let data := drop 6 data in
          if more_payloads data then handle_payload fuel' inner st data
          else Ok st
      else
        Ok (rx_with_stats st (count_rx_unknown_payload (rx_stats st)))
  end.

(** [sk_found] says whether the socket lookup found the socket, and
    [qdisc_locked] whether [fpproto_lock_qdisc] returned a qdisc. *)
Definition fpproto_rcv (fuel inner : nat) (sk_found qdisc_locked : bool)
    (st : rx_state) (skb : list Z) : result rx_state :=
  if negb sk_found then Ok st
  else if negb qdisc_locked then Ok st
  else
    let st := rx_with_stats st (count_rx_pkts (rx_stats st)) in
    if (length skb <? 5)%nat then
      Ok (rx_with_stats st (count_rx_too_short (rx_stats st)))
    else handle_payload fuel inner st (drop 4 skb).

End Receive.

(** The bytes that [fpproto_send_packet] writes before the checksum is
    filled in: the header, the RESET payload when [send_reset] is set, and
    the A-REQ payload.  [n_areq] is the length of [areq]. *)
Definition send_areq_bytes (areq : list (Z * Z)) : list Z :=
  flat_map (fun a => put_be16 (to_u16 (fst a)) ++ put_be16 (to_u16 (snd a))) areq.

Definition send_packet_bytes (pd : fpproto_pktdesc) : list Z :=
  put_be16 (to_u16 (seqno pd))
  ++ put_be16 0
  ++ (if send_reset pd
      then put_be32 (to_u32 (Z.lor (Z.shiftl FASTPASS_PTYPE_RSTREQ 28)
                                   (Z.land (Z.shiftr (reset_timestamp pd) 32)
                                           16777215)))
           ++ put_be32 (to_u32 (reset_timestamp pd))
      else [])
  ++ put_be16 (to_u16 (Z.lor (Z.shiftl FASTPASS_PTYPE_AREQ 12)
                             (Z.land (Z.of_nat (length (areq pd))) 63)))
  ++ send_areq_bytes (areq pd).

(** [fpproto_send_packet]: [skb_alloc_ok] says whether
    [sock_alloc_send_skb] returned a buffer, [xmit_err] is what
    [net_xmit_eval (ip_queue_xmit ...)] returns, and [egress_checksum]
    gives the two bytes that [fpproto_egress_checksum] leaves in the
    checksum field of the header.  The result is the counters and the
    packet handed to the transport, if any. *)
Definition fpproto_send_packet (skb_alloc_ok : bool) (xmit_err : Z)
    (egress_checksum : Z -> list Z -> list Z)
    (s : io_stats) (pd : fpproto_pktdesc) : io_stats * option (list Z) :=
  if negb skb_alloc_ok then (count_skb_alloc_error s, None)
  else
    let data := send_packet_bytes pd in
    let skb := take 2 data ++ take 2 (egress_checksum (seqno pd) data ++ [0; 0])
               ++ drop 4 data in
    (if negb (xmit_err =? 0) then count_xmit_errors s else s, Some skb).

(** ** Concrete sessions used in the examples *)

Definition all_ops : fpproto_ops :=
  {| has_handle_reset := true; has_handle_ack := true; has_handle_neg_ack := true |}.

(** A session just after [fpproto_sk_init] chose [base] as first seqno. *)
Definition fresh_sock (base : Z) : fastpass_sock :=
  {| next_seqno := base; bin_mask := 0;
     bins := replicate (Z.to_nat FASTPASS_OUTWND_LEN) None;
     tx_num_unacked := 0; earliest_unacked := 0; last_reset_time := 0;
     in_sync := false; send_timeout_us := 1000; rst_win_ns := 1000000000;
     retrans_timer := TimerInactive; ops := all_ops;
     stat_redundant_reset := 0; stat_reset_out_of_window := 0;
     stat_outdated_reset := 0; stat_too_early_ack := 0;
     stat_fall_off_outwnd := 0; calls := [] |}.

Definition blank_pktdesc : fpproto_pktdesc :=
  {| seqno := 0; sent_timestamp := 0; send_reset := false;
     reset_timestamp := 0; areq := [] |}.

(** [n] commits in a row, the first at time [t], one time unit apart. *)
Fixpoint commit_many (n : nat) (t : Z) (fp : fastpass_sock) : result fastpass_sock :=
  match n with
  | O => Ok fp
  | S n' => fp ← fpproto_commit_packet fp blank_pktdesc t; commit_many n' (t + 1) fp
  end.

(** Seqnos 100..115 committed at times 0..15: [next_seqno] is 116. *)
Definition sock_100_115 : fastpass_sock :=
  Eval vm_compute in
    match commit_many 16 0 (fresh_sock 100) with
    | Ok fp => fp
    | _ => fresh_sock 100
    end.

(** One descriptor added to an empty window. *)
Definition sock_one_packet : fastpass_sock :=
  Eval vm_compute in
    match outwnd_add (fresh_sock 100) (Some blank_pktdesc) with
    | Ok fp => fp
    | _ => fresh_sock 100
    end.

(** A window filled by 256 commits: the next send pushes seqno 100 out. *)
Definition sock_full : fastpass_sock :=
  Eval vm_compute in
    match commit_many 256 0 (fresh_sock 100) with
    | Ok fp => fp
    | _ => fresh_sock 100
    end.

(** The seqnos handed to [handle_ack], in the order of the calls. *)
Definition acked_seqnos (cs : list upcall) : list Z :=
  omap (fun c => match c with
                 | CallHandleAck (Some pd) => Some (seqno pd)
                 | _ => None
                 end) cs.

Definition calls_of (r : result fastpass_sock) : list upcall :=
  match r with Ok fp => calls fp | _ => [] end.

(** ** The runtime test of the source

    [outwnd_test], which the source keeps under
    [FASTPASS_PERFORM_RUNTIME_TESTS]: each [BUG_ON] of the test is a
    [bug_on] here. *)

(** The descriptor that the test passes as the pointer [0xFF00 + i]. *)
Definition tagged (i : Z) : fpproto_pktdesc :=
  {| seqno := 0xFF00 + i; sent_timestamp := 0; send_reset := false;
     reset_timestamp := 0; areq := [] |}.

Definition is_tagged (pd : option fpproto_pktdesc) (i : Z) : bool :=
  match pd with
  | Some d => seqno d =? 0xFF00 + i
  | None => false
  end.

(** A counted [for] loop over consecutive values. *)
Fixpoint for_each (n : nat) (i : Z)
    (body : Z -> fastpass_sock -> result fastpass_sock) (fp : fastpass_sock)
  : result fastpass_sock :=
  match n with
  | O => Ok fp
  | S n' => fp ← body i fp; for_each n' (i + 1) body fp
  end.

(** The loop that empties the window at the end of the test. *)
Fixpoint test_cleanup (fuel : nat) (base : Z) (fp : fastpass_sock) (tslot : Z)
  : result fastpass_sock :=
  match fuel with
  | O => OutOfFuel
  | S fuel' =>
      gap ← outwnd_at_or_before fp tslot;
      if gap >=? 0 then
        let tslot := sub64 tslot gap in
        '(pd, fp) ← outwnd_pop fp tslot;
        bug_on (negb (is_tagged pd (tslot - base)));;
        test_cleanup fuel' base fp tslot
      else Ok fp
  end.

Definition expect_earliest (fp : fastpass_sock) (s : Z) : result unit :=
  e ← outwnd_earliest_unacked fp; bug_on (negb (e =? s)).

Definition expect_at_or_before (fp : fastpass_sock) (s r : Z) : result unit :=
  g ← outwnd_at_or_before fp s; bug_on (negb (g =? r)).

Definition outwnd_test (fp : fastpass_sock) : result fastpass_sock :=
  let BASE := 10007 in
  let fp := set_next_seqno fp BASE in
  fp ← for_each 256 (BASE - FASTPASS_OUTWND_LEN) (fun tslot fp =>
          expect_at_or_before fp tslot (-1);;
          bug_on (outwnd_is_unacked fp tslot);;
          Ok fp) fp;
  fp ← for_each 256 0 (fun i fp => outwnd_add fp (Some (tagged i))) fp;
  fp ← for_each 256 BASE (fun tslot fp =>
          bug_on (negb (outwnd_is_unacked fp tslot));;
          expect_at_or_before fp tslot 0;;
          Ok fp) fp;
  expect_earliest fp BASE;;
  '(pd, fp) ← outwnd_pop fp BASE;
  bug_on (negb (is_tagged pd 0));;
  expect_earliest fp (BASE + 1);;
  expect_at_or_before fp BASE (-1);;
  expect_at_or_before fp (BASE + 1) 0;;
  '(pd, fp) ← outwnd_pop fp (BASE + 2);
  bug_on (negb (is_tagged pd 2));;
  expect_earliest fp (BASE + 1);;
  expect_at_or_before fp (BASE + 2) 1;;
  fp ← for_each 149 (BASE + 3) (fun tslot fp =>
          '(pd, fp) ← outwnd_pop fp tslot;
          bug_on (negb (is_tagged pd (tslot - BASE)));;
          bug_on (outwnd_is_unacked fp tslot);;
          expect_at_or_before fp tslot (tslot - BASE - 1);;
          expect_at_or_before fp (tslot + 1) 0;;
          expect_earliest fp (BASE + 1);;
          Ok fp) fp;
  fp ← for_each 104 (BASE + 152) (fun tslot fp =>
          bug_on (negb (outwnd_is_unacked fp tslot));;
          expect_at_or_before fp tslot 0;;
          Ok fp) fp;
  '(pd, fp) ← outwnd_pop fp (BASE + 1);
  bug_on (negb (is_tagged pd 1));;
  expect_earliest fp (BASE + 152);;
  fp ← test_cleanup 300 BASE fp (sub64 (next_seqno fp) 1);
  bug_on (negb (forallb (fun pd => negb (bool_decide (is_Some pd))) (bins fp)));;
  Ok fp.

(** ** Vocabulary of the properties *)

(** The distance of a seqno behind the newest one: [next_seqno - 1 - s]
    modulo 2^64.  Among seqnos of the window, a larger distance is an
    older (smaller) seqno. *)
Definition behind (fp : fastpass_sock) (s : Z) : Z :=
  to_u64 (next_seqno fp - 1 - s).

(** [next_seqno - 256 <= s < next_seqno], modulo 2^64. *)
Definition in_outwnd (fp : fastpass_sock) (s : Z) : Prop :=
  behind fp s < FASTPASS_OUTWND_LEN.

(** The window invariants of the specification, with the size of the
    array of slots. *)
Record outwnd_inv (fp : fastpass_sock) : Prop := {
  inv_bins_length : length (bins fp) = Z.to_nat FASTPASS_OUTWND_LEN;
  inv_occupied : forall i, 0 <= i < FASTPASS_OUTWND_LEN ->
    is_Some (bin_at fp i) <-> Z.testbit (bin_mask fp) i = true;
  inv_mirror : forall i, 0 <= i < FASTPASS_OUTWND_LEN ->
    Z.testbit (bin_mask fp) (i + FASTPASS_OUTWND_LEN) = Z.testbit (bin_mask fp) i;
  inv_count :
    tx_num_unacked fp = popcount_below (bin_mask fp) (Z.to_nat FASTPASS_OUTWND_LEN)
}.

(** The same invariants as a check that can be run on a concrete session. *)
Definition outwnd_inv_b (fp : fastpass_sock) : bool :=
  (length (bins fp) =? Z.to_nat FASTPASS_OUTWND_LEN)%nat
  && forallb (fun i =>
       eqb (bool_decide (is_Some (bin_at fp i))) (Z.testbit (bin_mask fp) i)
       && eqb (Z.testbit (bin_mask fp) (i + FASTPASS_OUTWND_LEN))
              (Z.testbit (bin_mask fp) i))
       (seqZ 0 FASTPASS_OUTWND_LEN)
  && (tx_num_unacked fp =? popcount_below (bin_mask fp) (Z.to_nat FASTPASS_OUTWND_LEN)).

(** States reached from an empty window by adds and by pops of seqnos of
    the window, whatever happens to the rest of the session in between. *)
Inductive reachable : fastpass_sock -> Prop :=
  | reach_empty fp :
      bin_mask fp = 0 ->
      bins fp = replicate (Z.to_nat FASTPASS_OUTWND_LEN) None ->
      tx_num_unacked fp = 0 ->
      reachable fp
  | reach_add fp pd fp' :
      reachable fp -> outwnd_add fp (Some pd) = Ok fp' -> reachable fp'
  | reach_pop fp s pd fp' :
      reachable fp -> in_outwnd fp s -> outwnd_pop fp s = Ok (pd, fp') ->
      reachable fp'
  | reach_other fp fp' :
      (* the session changes outside the window *)
      reachable fp ->
      next_seqno fp' = next_seqno fp -> bin_mask fp' = bin_mask fp ->
      bins fp' = bins fp -> tx_num_unacked fp' = tx_num_unacked fp ->
      reachable fp'.

(** Everything in the session apart from the window itself and the log. *)
Definition same_session (fp fp' : fastpass_sock) : Prop :=
  next_seqno fp' = next_seqno fp
  /\ earliest_unacked fp' = earliest_unacked fp
  /\ last_reset_time fp' = last_reset_time fp
  /\ in_sync fp' = in_sync fp
  /\ send_timeout_us fp' = send_timeout_us fp
  /\ rst_win_ns fp' = rst_win_ns fp
  /\ retrans_timer fp' = retrans_timer fp
  /\ ops fp' = ops fp
  /\ stat_redundant_reset fp' = stat_redundant_reset fp
  /\ stat_reset_out_of_window fp' = stat_reset_out_of_window fp
  /\ stat_outdated_reset fp' = stat_outdated_reset fp
  /\ stat_too_early_ack fp' = stat_too_early_ack fp
  /\ stat_fall_off_outwnd fp' = stat_fall_off_outwnd fp.

(** The call by which [do_ack_seqno] hands over the descriptor of [s]. *)
Definition ack_call (fp : fastpass_sock) (s : Z) : upcall :=
  if has_handle_ack (ops fp)
  then CallHandleAck (bin_at fp (outwnd_pos s))
  else CallPktdescFree (bin_at fp (outwnd_pos s)).

(** The call by which [do_neg_ack_seqno] hands over the descriptor of [s]. *)
Definition neg_ack_call (fp : fastpass_sock) (s : Z) : upcall :=
  if has_handle_neg_ack (ops fp)
  then CallHandleNegAck (bin_at fp (outwnd_pos s))
  else CallPktdescFree (bin_at fp (outwnd_pos s)).

(** What [cancel_and_reset_retrans_timer] does once the cancel attempt has
    returned 0 on a window that is not empty. *)
Definition rearmed (fp : fastpass_sock) (e stamp : Z) : fastpass_sock :=
  set_retrans_timer (set_earliest_unacked (set_retrans_timer fp TimerInactive) e)
    (TimerEnqueued (add64 stamp (send_timeout_us fp))).

(** [r] is what is left of the 32-bit field [R] after [i] shifts by one
    nibble. *)
Definition runlen_at (R i r : Z) : Prop :=
  0 <= i <= 8 /\ r = to_u32 (R * 16 ^ i).

(** Whether the distance [k] lies in the run [kc <= k < ke] now being
    acknowledged or in a later positive run of the remaining field [r];
    [n] bounds the number of later runs. *)
Fixpoint cov (n : nat) (kc ke r k : Z) : bool :=
  ((kc <=? k) && (k <? ke))
  || match n with
     | O => false
     | S n' =>
         if r =? 0 then false
         else
           let e := ke + Z.shiftr r 28 in
           let r1 := shl32 r 4 in
           cov n' e (e + Z.shiftr r1 28) (shl32 r1 4) k
     end.

(** Whether an ACK payload with run-length field [R] acknowledges the seqno
    [d] below the one it carries: the carried seqno itself, then the runs
    that the loop takes from the field after its first nibble. *)
Definition ack_selects (R d : Z) : bool :=
  (d =? 0)
  || cov 3 1 (1 + Z.shiftr (shl32 R 4) 28) (shl32 (shl32 R 4) 4) d.

(** The outcome of a stretch of the loop that was to acknowledge the
    occupied seqnos whose distance satisfies [c]: [l] lists the seqnos
    acknowledged, in order. *)
Definition ack_post (c : Z -> bool) (fp : fastpass_sock) (acked0 : Z)
    (fp' : fastpass_sock) (v' : ack_locals) : Prop :=
  exists l : list Z,
    outwnd_inv fp'
    /\ same_session fp fp'
    /\ calls fp' = calls fp ++ map (ack_call fp) l
    /\ n_acked v' = acked0 + Z.of_nat (length l)
    /\ (forall s, In s l <->
          0 <= s < 2 ^ 64 /\ in_outwnd fp s /\ outwnd_is_unacked fp s = true
          /\ c (behind fp s) = true)
    /\ (forall t, in_outwnd fp t ->
          outwnd_is_unacked fp' t
          = outwnd_is_unacked fp t && negb (c (behind fp t))).

(** The loop entered at [do_next_unacked] with the run between the
    distances of [cur_seqno] and [end_seqno] open returns, given fuel for
    one arrival per outstanding descriptor and two per nibble left. *)
Definition unacked_ok (fuel : nat) : Prop :=
  forall n fp v R i,
    outwnd_inv fp -> runlen_at R i (ack_runlen v) ->
    behind fp (cur_seqno v) <= behind fp (end_seqno v) <= 256 + 15 * i ->
    8 - i <= 2 * Z.of_nat n ->
    tx_num_unacked fp + 2 * (8 - i) + 1 <= Z.of_nat fuel ->
    exists fp' v',
      ack_goto fuel do_next_unacked fp v = Ok (fp', v')
      /\ ack_post (cov n (behind fp (cur_seqno v)) (behind fp (end_seqno v))
                     (ack_runlen v))
           fp (n_acked v) fp' v'.

(** The same for an entry at [do_next_positive], which opens the run that
    the top nibble of the field measures from [end_seqno]. *)
Definition positive_ok (fuel : nat) : Prop :=
  forall n fp v R i,
    outwnd_inv fp -> runlen_at R i (ack_runlen v) ->
    behind fp (end_seqno v) <= 256 + 15 * i ->
    8 - Z.min 8 (i + 1) <= 2 * Z.of_nat n ->
    tx_num_unacked fp + 2 * (8 - Z.min 8 (i + 1)) + 2 <= Z.of_nat fuel ->
    exists fp' v',
      ack_goto fuel do_next_positive fp v = Ok (fp', v')
      /\ ack_post (cov n (behind fp (end_seqno v))
                     (behind fp (end_seqno v) + Z.shiftr (ack_runlen v) 28)
                     (shl32 (ack_runlen v) 4))
           fp (n_acked v) fp' v'.

(** ** Vocabulary of the further properties *)

(** The seqnos of [l] go from the newest to the oldest. *)
Fixpoint newest_first (fp : fastpass_sock) (l : list Z) : Prop :=
  match l with
  | [] => True
  | a :: l' => Forall (fun b => behind fp a < behind fp b) l' /\ newest_first fp l'
  end.

(** The seqnos of [l] go from the oldest to the newest. *)
Fixpoint oldest_first (fp : fastpass_sock) (l : list Z) : Prop :=
  match l with
  | [] => True
  | a :: l' => Forall (fun b => behind fp b < behind fp a) l' /\ oldest_first fp l'
  end.

(** The release of the descriptor of [s] by [fpproto_pktdesc_free]. *)
Definition free_call (fp : fastpass_sock) (s : Z) : upcall :=
  CallPktdescFree (bin_at fp (outwnd_pos s)).

(** [s] is an outstanding seqno of the window, as a 64-bit value. *)
Definition outstanding (fp : fastpass_sock) (s : Z) : Prop :=
  0 <= s < 2 ^ 64 /\ in_outwnd fp s /\ outwnd_is_unacked fp s = true.

(** The retransmission deadline of the descriptor of [s] has passed at
    [now]: [sent_timestamp + send_timeout_us] is not after [now]. *)
Definition expired (fp : fastpass_sock) (now s : Z) : bool :=
  match bin_at fp (outwnd_pos s) with
  | Some pd =>
      negb (time_after64 (add64 (sent_timestamp pd) (send_timeout_us fp)) now)
  | None => false
  end.

(** The first seqno of a session whose reset time is [reset_time], as
    [do_proto_reset] derives it with the hash [jhash_1word]. *)
Definition reset_seqno (jhash_1word : Z -> Z -> Z) (reset_time : Z) : Z :=
  let time_hash :=
    to_u32 (jhash_1word (to_u32 reset_time) (Z.shiftr reset_time 32)) in
  add64 (add64 reset_time time_hash) (to_u64 (Z.shiftl time_hash 32)).

(** The window part of two sessions is the same. *)
Definition same_window (fp fp' : fastpass_sock) : Prop :=
  next_seqno fp' = next_seqno fp /\ bin_mask fp' = bin_mask fp
  /\ bins fp' = bins fp /\ tx_num_unacked fp' = tx_num_unacked fp
  /\ calls fp' = calls fp.

(** What [fpproto_rcv] may hand to [handle_alloc]: at most 15 destinations
    (the array [alloc_dst] has 16 entries), at most 126 bytes of timeslots,
    and a base timeslot of 20 bits. *)
Definition alloc_ok (c : alloc_call) : Prop :=
  (length (alloc_dst c) <= 15)%nat
  /\ (length (alloc_tslots c) <= 126)%nat
  /\ 0 <= alloc_base_tslot c < 2 ^ 20.

(** A receive state around the session [sock_100_115], with all counters
    at zero. *)
Definition blank_stats : io_stats :=
  {| stat_rx_pkts := 0; stat_rx_too_short := 0; stat_rx_incomplete_reset := 0;
     stat_rx_incomplete_alloc := 0; stat_rx_incomplete_ack := 0;
     stat_rx_unknown_payload := 0; stat_xmit_errors := 0;
     stat_skb_alloc_error := 0 |}.

Definition rx_100_115 : rx_state :=
  {| rx_fp := sock_100_115; rx_stats := blank_stats; rx_allocs := [] |}.

(** A packet with a zero header, an ACK payload for seqno 115 and a
    truncated ALLOC payload. *)
Definition ack_then_garbage : list Z :=
  [0; 0; 0; 0; 0x23; 0x48; 0; 0; 0; 115; 0x1F; 0xFF; 1].

(** What a sender does for each packet: [fpproto_prepare_to_send], then
    [fpproto_commit_packet] with the send time. *)
Definition send_one (fp : fastpass_sock) (pd : fpproto_pktdesc) (ts : Z)
  : result fastpass_sock :=
  fp ← fpproto_prepare_to_send fp;
  fpproto_commit_packet fp pd ts.

Fixpoint send_all (l : list (fpproto_pktdesc * Z)) (fp : fastpass_sock)
  : result fastpass_sock :=
  match l with
  | [] => Ok fp
  | (pd, ts) :: l' => fp ← send_one fp pd ts; send_all l' fp
  end.

(** The seqnos handed to [handle_neg_ack], in the order of the calls. *)
Definition nacked_seqnos (cs : list upcall) : list Z :=
  omap (fun c => match c with
                 | CallHandleNegAck (Some pd) => Some (seqno pd)
                 | _ => None
                 end) cs.

(** [k] consecutive seqnos from [s] on. *)
Fixpoint seqnos_from (s : Z) (k : nat) : list Z :=
  match k with
  | O => []
  | S k' => s :: seqnos_from (add64 s 1) k'
  end.

(** The window holds exactly the [m] newest seqnos, each with a descriptor
    that carries its seqno. *)
Definition newest_outstanding (fp : fastpass_sock) (m : Z) : Prop :=
  outwnd_inv fp
  /\ 0 <= next_seqno fp < 2 ^ 64
  /\ tx_num_unacked fp = m
  /\ 0 <= m <= FASTPASS_OUTWND_LEN
  /\ (forall t, in_outwnd fp t -> outwnd_is_unacked fp t = (behind fp t <? m))
  /\ (forall t, behind fp t < m ->
        exists d, bin_at fp (outwnd_pos t) = Some d /\ seqno d = to_u64 t).

(** * Proofs *)

(** ** Arithmetic *)

Ltac unfold_arith :=
  unfold add64, sub64, neg64, to_u64, to_u32, to_s64, to_s32,
    time_before64, time_after_eq64, time_after64, FASTPASS_OUTWND_LEN in *.

(** Goals about [mod] and [/] by constants. *)
Ltac mod_lia := Z.to_euclidean_division_equations; lia.

(** Steps through the binds of [result] once their left operand is known. *)
Ltac simpl_result := cbn [mbind result_bind bug_on mret result_ret negb andb orb].
Ltac simpl_result_in H :=
  cbn [mbind result_bind bug_on mret result_ret negb andb orb] in H.

Lemma outwnd_pos_mod (t : Z) : outwnd_pos t = (- t) mod 256.
Proof.
  unfold outwnd_pos, FASTPASS_OUTWND_LEN.
  change (256 - 1) with (Z.ones 8). rewrite Z.land_ones by lia.
  unfold_arith. change (2 ^ 8) with 256. mod_lia.
Qed.

Lemma outwnd_pos_range (t : Z) : 0 <= outwnd_pos t < 256.
Proof. rewrite outwnd_pos_mod. apply Z.mod_pos_bound. lia. Qed.

Lemma time_after64_spec (a b : Z) :
  time_after64 a b = (2 ^ 63 <=? (b - a) mod 2 ^ 64).
Proof.
  unfold time_after64, to_s64.
  destruct (Z.ltb_spec ((b - a) mod 2 ^ 64) (2 ^ 63)),
           (Z.leb_spec (2 ^ 63) ((b - a) mod 2 ^ 64)),
           (Z.ltb_spec ((b - a) mod 2 ^ 64) 0),
           (Z.ltb_spec ((b - a) mod 2 ^ 64 - 2 ^ 64) 0);
    try reflexivity; mod_lia.
Qed.

Lemma time_before64_spec (a b : Z) :
  time_before64 a b = (2 ^ 63 <=? (a - b) mod 2 ^ 64).
Proof. apply time_after64_spec. Qed.

Lemma time_after_eq64_spec (a b : Z) :
  time_after_eq64 a b = ((a - b) mod 2 ^ 64 <? 2 ^ 63).
Proof.
  unfold time_after_eq64, to_s64. rewrite Z.geb_leb.
  destruct (Z.ltb_spec ((a - b) mod 2 ^ 64) (2 ^ 63)),
           (Z.leb_spec 0 ((a - b) mod 2 ^ 64)),
           (Z.leb_spec 0 ((a - b) mod 2 ^ 64 - 2 ^ 64));
    try reflexivity; mod_lia.
Qed.

Lemma behind_range fp s : 0 <= behind fp s < 2 ^ 64.
Proof. apply Z.mod_pos_bound. lia. Qed.

Lemma before_next_behind fp s :
  time_after_eq64 s (next_seqno fp) = (2 ^ 63 <=? behind fp s).
Proof.
  rewrite time_after_eq64_spec. unfold behind, to_u64.
  destruct (Z.ltb_spec ((s - next_seqno fp) mod 2 ^ 64) (2 ^ 63)),
           (Z.leb_spec (2 ^ 63) ((next_seqno fp - 1 - s) mod 2 ^ 64));
    try reflexivity; mod_lia.
Qed.

Lemma before_edge_behind fp s :
  behind fp s < 2 ^ 63 ->
  time_before64 s (sub64 (next_seqno fp) FASTPASS_OUTWND_LEN)
  = (256 <=? behind fp s).
Proof.
  rewrite time_before64_spec. unfold behind, sub64, to_u64, FASTPASS_OUTWND_LEN.
  intros H.
  destruct (Z.leb_spec (2 ^ 63) ((s - (next_seqno fp - 256) mod 2 ^ 64) mod 2 ^ 64)),
           (Z.leb_spec 256 ((next_seqno fp - 1 - s) mod 2 ^ 64));
    try reflexivity; mod_lia.
Qed.

Lemma outwnd_pos_behind fp s :
  outwnd_pos s
  = (outwnd_pos (sub64 (next_seqno fp) 1) + behind fp s) mod 256.
Proof. rewrite !outwnd_pos_mod. unfold behind, sub64, to_u64. mod_lia. Qed.

Lemma behind_sub64 fp s g :
  0 <= g -> behind fp s + g < 2 ^ 64 ->
  behind fp (sub64 s g) = behind fp s + g.
Proof. unfold behind, sub64, to_u64. intros. mod_lia. Qed.

Lemma behind_newest fp : behind fp (sub64 (next_seqno fp) 1) = 0.
Proof. unfold behind, sub64, to_u64. mod_lia. Qed.

Lemma behind_edge fp :
  behind fp (sub64 (next_seqno fp) FASTPASS_OUTWND_LEN) = 255.
Proof. unfold behind, sub64, to_u64, FASTPASS_OUTWND_LEN. mod_lia. Qed.

(** Two seqnos at the same distance agree modulo 2^64, which is all the
    window operations look at. *)
Lemma behind_inj fp s t : behind fp s = behind fp t -> to_u64 s = to_u64 t.
Proof. unfold behind, to_u64. intros. mod_lia. Qed.

Lemma outwnd_pos_to_u64 s : outwnd_pos (to_u64 s) = outwnd_pos s.
Proof. rewrite !outwnd_pos_mod. unfold to_u64. mod_lia. Qed.

(** ** Bitmap searches *)

Lemma scan_up_spec (m : Z) (n : nat) (i size : Z) :
  (scan_up m n i size = size
   /\ forall j, i <= j < i + Z.of_nat n -> Z.testbit m j = false)
  \/ (i <= scan_up m n i size < i + Z.of_nat n
      /\ Z.testbit m (scan_up m n i size) = true
      /\ forall j, i <= j < scan_up m n i size -> Z.testbit m j = false).
Proof.
  revert i. induction n as [|n IH]; intros i; simpl scan_up.
  - left. split; [reflexivity | intros; lia].
  - destruct (Z.testbit m i) eqn:Hi.
    + right. repeat split; [lia | lia | assumption | intros; lia].
    + destruct (IH (i + 1)) as [[-> Hnone] | (Hr & Hset & Hlow)].
      * left. split; [reflexivity|]. intros j Hj.
        destruct (Z.eq_dec j i) as [->|]; [assumption | apply Hnone; lia].
      * right. repeat split; [lia | lia | assumption |]. intros j Hj.
        destruct (Z.eq_dec j i) as [->|]; [assumption | apply Hlow; lia].
Qed.

Lemma find_next_bit_spec (m size offset : Z) :
  offset <= size ->
  (find_next_bit m size offset = size
   /\ forall j, offset <= j < size -> Z.testbit m j = false)
  \/ (offset <= find_next_bit m size offset < size
      /\ Z.testbit m (find_next_bit m size offset) = true
      /\ forall j, offset <= j < find_next_bit m size offset ->
                   Z.testbit m j = false).
Proof.
  intros Hle. unfold find_next_bit.
  destruct (scan_up_spec m (Z.to_nat (size - offset)) offset size)
    as [[E Hnone] | (Hr & Hset & Hlow)].
  - left. split; [assumption|]. intros j Hj. apply Hnone. lia.
  - right. repeat split; [lia | lia | assumption | assumption].
Qed.

Lemma scan_down_spec (m : Z) (n : nat) (size : Z) :
  (scan_down m n size = size
   /\ forall j, 0 <= j < Z.of_nat n -> Z.testbit m j = false)
  \/ (0 <= scan_down m n size < Z.of_nat n
      /\ Z.testbit m (scan_down m n size) = true
      /\ forall j, scan_down m n size < j < Z.of_nat n -> Z.testbit m j = false).
Proof.
  induction n as [|n IH]; simpl scan_down.
  - left. split; [reflexivity | intros; lia].
  - destruct (Z.testbit m (Z.of_nat n)) eqn:Hn.
    + right. repeat split; [lia | lia | assumption | intros; lia].
    + destruct IH as [[-> Hnone] | (Hr & Hset & Hhigh)].
      * left. split; [reflexivity|]. intros j Hj.
        destruct (Z.eq_dec j (Z.of_nat n)) as [->|]; [assumption | apply Hnone; lia].
      * right. repeat split; [lia | lia | assumption |]. intros j Hj.
        destruct (Z.eq_dec j (Z.of_nat n)) as [->|]; [assumption | apply Hhigh; lia].
Qed.

Lemma find_last_bit_spec (m size : Z) :
  0 <= size ->
  (find_last_bit m size = size
   /\ forall j, 0 <= j < size -> Z.testbit m j = false)
  \/ (0 <= find_last_bit m size < size
      /\ Z.testbit m (find_last_bit m size) = true
      /\ forall j, find_last_bit m size < j < size -> Z.testbit m j = false).
Proof.
  intros Hle. unfold find_last_bit.
  destruct (scan_down_spec m (Z.to_nat size) size)
    as [[E Hnone] | (Hr & Hset & Hhigh)].
  - left. split; [assumption|]. intros j Hj. apply Hnone. lia.
  - right. repeat split; [lia | lia | assumption |].
    intros j Hj. apply Hhigh. lia.
Qed.

(** ** Population count *)

Lemma popcount_below_bounds (m : Z) (n : nat) :
  0 <= popcount_below m n <= Z.of_nat n.
Proof.
  induction n as [|n IH]; simpl popcount_below; [lia|].
  destruct (Z.testbit m (Z.of_nat n)); lia.
Qed.

Lemma popcount_below_ext (m m' : Z) (n : nat) :
  (forall j, 0 <= j < Z.of_nat n -> Z.testbit m' j = Z.testbit m j) ->
  popcount_below m' n = popcount_below m n.
Proof.
  induction n as [|n IH]; intros H; simpl popcount_below; [reflexivity|].
  rewrite IH by (intros; apply H; lia). rewrite H by lia. reflexivity.
Qed.

Lemma popcount_below_flip (m m' : Z) (n : nat) (i : Z) :
  0 <= i < Z.of_nat n ->
  Z.testbit m i = false -> Z.testbit m' i = true ->
  (forall j, 0 <= j < Z.of_nat n -> j <> i -> Z.testbit m' j = Z.testbit m j) ->
  popcount_below m' n = popcount_below m n + 1.
Proof.
  induction n as [|n IH]; intros Hi Hm Hm' Hoth; [lia|].
  simpl popcount_below.
  destruct (Z.eq_dec i (Z.of_nat n)) as [->|Hne].
  - rewrite Hm, Hm'.
    rewrite (popcount_below_ext m m') by (intros; apply Hoth; lia). lia.
  - rewrite IH by (try lia; try assumption; intros; apply Hoth; lia).
    rewrite Hoth by lia. lia.
Qed.

Lemma popcount_below_zero (m : Z) (n : nat) :
  popcount_below m n = 0 ->
  forall j, 0 <= j < Z.of_nat n -> Z.testbit m j = false.
Proof.
  induction n as [|n IH]; intros H j Hj; [lia|].
  simpl popcount_below in H.
  pose proof (popcount_below_bounds m n).
  destruct (Z.testbit m (Z.of_nat n)) eqn:E; [lia|].
  destruct (Z.eq_dec j (Z.of_nat n)) as [->|]; [assumption|].
  apply IH; lia.
Qed.

Lemma popcount_below_pos (m : Z) (n : nat) (i : Z) :
  0 <= i < Z.of_nat n -> Z.testbit m i = true -> 0 < popcount_below m n.
Proof.
  intros Hi Hset.
  destruct (Z.eq_dec (popcount_below m n) 0) as [E|E].
  - rewrite (popcount_below_zero m n E i Hi) in Hset. discriminate.
  - pose proof (popcount_below_bounds m n). lia.
Qed.

(** ** The window invariants *)

Lemma outwnd_inv_b_sound fp : outwnd_inv_b fp = true -> outwnd_inv fp.
Proof.
  unfold outwnd_inv_b. rewrite !andb_true_iff.
  intros [[Hlen Hall] Hcnt].
  rewrite forallb_forall in Hall.
  assert (Hi : forall i, 0 <= i < FASTPASS_OUTWND_LEN ->
    bool_decide (is_Some (bin_at fp i)) = Z.testbit (bin_mask fp) i
    /\ Z.testbit (bin_mask fp) (i + FASTPASS_OUTWND_LEN) = Z.testbit (bin_mask fp) i).
  { intros i Hi. specialize (Hall i).
    rewrite andb_true_iff, !eqb_true_iff in Hall. apply Hall.
    apply list_elem_of_In, elem_of_seqZ. lia. }
  split.
  - apply Nat.eqb_eq. assumption.
  - intros i Hr. destruct (Hi i Hr) as [<- _].
    symmetry. apply bool_decide_eq_true.
  - intros i Hr. apply (Hi i Hr).
  - apply Z.eqb_eq. assumption.
Qed.

(** Without wrap-around, [in_outwnd] and [behind] are the plain readings. *)
Lemma in_outwnd_plain fp s :
  FASTPASS_OUTWND_LEN <= next_seqno fp < 2 ^ 64 -> 0 <= s < 2 ^ 64 ->
  (in_outwnd fp s <-> next_seqno fp - FASTPASS_OUTWND_LEN <= s < next_seqno fp).
Proof.
  unfold in_outwnd, behind, to_u64, FASTPASS_OUTWND_LEN. intros. split; intros; mod_lia.
Qed.

Lemma behind_plain fp s :
  0 <= s < next_seqno fp -> next_seqno fp <= 2 ^ 64 ->
  behind fp s = next_seqno fp - 1 - s.
Proof. unfold behind, to_u64. intros. mod_lia. Qed.

Section Window.

Variable fp : fastpass_sock.
Hypothesis Hinv : outwnd_inv fp.

Lemma mask_bit_mirror i :
  0 <= i < 512 ->
  Z.testbit (bin_mask fp) i = Z.testbit (bin_mask fp) (i mod 256).
Proof using Hinv.
  intros Hi. destruct (Z.lt_ge_cases i 256).
  - rewrite Z.mod_small by lia. reflexivity.
  - replace i with ((i - 256) + FASTPASS_OUTWND_LEN) at 1
      by (unfold FASTPASS_OUTWND_LEN; lia).
    rewrite (inv_mirror _ Hinv) by (unfold FASTPASS_OUTWND_LEN; lia).
    f_equal. mod_lia.
Qed.

Lemma is_unacked_behind s :
  behind fp s < 256 ->
  outwnd_is_unacked fp s
  = Z.testbit (bin_mask fp)
      (outwnd_pos (sub64 (next_seqno fp) 1) + behind fp s).
Proof using Hinv.
  intros Hk. unfold outwnd_is_unacked.
  pose proof (behind_range fp s). pose proof (outwnd_pos_range (sub64 (next_seqno fp) 1)).
  rewrite (mask_bit_mirror (outwnd_pos (sub64 (next_seqno fp) 1) + behind fp s))
    by lia.
  rewrite (outwnd_pos_behind fp s). reflexivity.
Qed.

End Window.

Lemma to_u32_small x : 0 <= x < 2 ^ 32 -> to_u32 x = x.
Proof. intros. apply Z.mod_small. assumption. Qed.

Lemma to_s32_small x : 0 <= x < 2 ^ 31 -> to_s32 x = x.
Proof.
  intros. unfold to_s32. rewrite Z.mod_small by lia.
  destruct (Z.ltb_spec x (2 ^ 31)); lia.
Qed.

Lemma to_u64_small x : 0 <= x < 2 ^ 64 -> to_u64 x = x.
Proof. intros. apply Z.mod_small. assumption. Qed.

Lemma bind_Ok {A B} (a : A) (f : A -> result B) : (Ok a ≫= f) = f a.
Proof. reflexivity. Qed.

(** ** [outwnd_at_or_before] *)

Lemma outwnd_at_or_before_far fp s :
  256 <= behind fp s < 2 ^ 63 -> outwnd_at_or_before fp s = Ok (-1).
Proof.
  intros Hk. unfold outwnd_at_or_before.
  rewrite before_next_behind, before_edge_behind by lia.
  destruct (Z.leb_spec (2 ^ 63) (behind fp s)); [lia|].
  destruct (Z.leb_spec 256 (behind fp s)); [|lia].
  reflexivity.
Qed.

Lemma outwnd_at_or_before_spec fp s :
  outwnd_inv fp -> in_outwnd fp s ->
  (outwnd_at_or_before fp s = Ok (-1)
   /\ forall t, behind fp s <= behind fp t < 256 -> outwnd_is_unacked fp t = false)
  \/ (exists g, 0 <= g /\ behind fp s + g < 256
        /\ outwnd_at_or_before fp s = Ok g
        /\ outwnd_is_unacked fp (sub64 s g) = true
        /\ forall t, behind fp s <= behind fp t < behind fp s + g ->
                     outwnd_is_unacked fp t = false).
Proof.
  intros Hinv Hin. unfold in_outwnd, FASTPASS_OUTWND_LEN in Hin.
  pose proof (behind_range fp s) as Hk.
  pose proof (outwnd_pos_range (sub64 (next_seqno fp) 1)) as Hhead.
  unfold outwnd_at_or_before.
  rewrite before_next_behind, before_edge_behind by lia.
  destruct (Z.leb_spec (2 ^ 63) (behind fp s)); [lia|].
  destruct (Z.leb_spec 256 (behind fp s)); [lia|].
  simpl_result.
  set (head := outwnd_pos (sub64 (next_seqno fp) 1)) in *.
  assert (Hidx : outwnd_pos (sub64 s (sub64 (next_seqno fp) 1)) = behind fp s).
  { rewrite outwnd_pos_mod. unfold behind, sub64, to_u64 in *. mod_lia. }
  rewrite Hidx.
  unfold FASTPASS_OUTWND_LEN.
  rewrite (to_u32_small (head + behind fp s)) by lia.
  rewrite (to_u32_small (head + 256)) by lia.
  destruct (find_next_bit_spec (bin_mask fp) (head + 256) (head + behind fp s))
    as [[E Hnone] | (Hr & Hset & Hlow)]; [lia | |].
  - left. rewrite E. rewrite (to_u32_small (head + 256)) by lia.
    rewrite Z.eqb_refl. simpl_result. split; [reflexivity|].
    intros t Ht. rewrite (is_unacked_behind fp Hinv) by lia.
    apply Hnone. fold head. lia.
  - right.
    set (f := find_next_bit (bin_mask fp) (head + 256) (head + behind fp s)) in *.
    exists (f - (head + behind fp s)).
    rewrite (to_u32_small f) by lia.
    rewrite (to_u32_small (f - (head + behind fp s))) by lia.
    assert (Hocc : outwnd_is_unacked fp (sub64 s (f - (head + behind fp s))) = true).
    { rewrite (is_unacked_behind fp Hinv); rewrite behind_sub64 by lia.
      - fold head. rewrite <- Hset. f_equal. lia.
      - lia. }
    rewrite Hocc.
    destruct (Z.eqb_spec f (head + 256)); [lia|]. simpl_result.
    rewrite to_s32_small by lia.
    split; [lia|]. split; [lia|]. split; [reflexivity|]. split; [reflexivity|].
    intros t Ht. rewrite (is_unacked_behind fp Hinv) by lia.
    apply Hlow. fold head. lia.
Qed.

(** ** [outwnd_add] and [outwnd_pop] keep the invariants *)

Lemma bin_at_insert fp (i j : Z) (x : option fpproto_pktdesc) :
  0 <= i -> 0 <= j -> (Z.to_nat i < length (bins fp))%nat ->
  default None (<[Z.to_nat i := x]> (bins fp) !! Z.to_nat j)
  = if i =? j then x else bin_at fp j.
Proof.
  intros Hi Hj Hlen. destruct (Z.eqb_spec i j) as [->|Hne].
  - rewrite list_lookup_insert_eq by assumption. reflexivity.
  - rewrite list_lookup_insert_ne by lia. reflexivity.
Qed.

Lemma inv_count_pos fp i :
  outwnd_inv fp -> 0 <= i < 256 -> Z.testbit (bin_mask fp) i = true ->
  0 < tx_num_unacked fp <= 256.
Proof.
  intros Hinv Hi Hset. rewrite (inv_count _ Hinv).
  pose proof (popcount_below_bounds (bin_mask fp) (Z.to_nat FASTPASS_OUTWND_LEN)).
  assert (0 < popcount_below (bin_mask fp) (Z.to_nat FASTPASS_OUTWND_LEN)).
  { apply (popcount_below_pos _ _ i); [unfold FASTPASS_OUTWND_LEN; lia | assumption]. }
  unfold FASTPASS_OUTWND_LEN in *. lia.
Qed.

Lemma outwnd_pop_spec fp s :
  outwnd_inv fp -> outwnd_is_unacked fp s = true ->
  exists fp',
    outwnd_pop fp s = Ok (bin_at fp (outwnd_pos s), fp')
    /\ outwnd_inv fp'
    /\ same_session fp fp'
    /\ calls fp' = calls fp
    /\ is_Some (bin_at fp (outwnd_pos s))
    /\ tx_num_unacked fp' = tx_num_unacked fp - 1
    /\ (forall i, 0 <= i ->
          bin_at fp' i = if outwnd_pos s =? i then None else bin_at fp i)
    /\ (forall t, outwnd_is_unacked fp' t
                  = outwnd_is_unacked fp t && negb (outwnd_pos s =? outwnd_pos t)).
Proof.
  intros Hinv Hocc. unfold outwnd_pop. rewrite Hocc. simpl_result.
  unfold outwnd_is_unacked in *.
  pose proof (outwnd_pos_range s) as Hci.
  set (ci := outwnd_pos s) in *.
  pose proof (inv_count_pos fp ci Hinv Hci Hocc) as Htx.
  destruct Hinv as [Hlen Hslot Hmirror Hcount].
  unfold FASTPASS_OUTWND_LEN in *.
  assert (Hbit : forall j, 0 <= j < 256 ->
    Z.testbit (Z.clearbit (Z.clearbit (bin_mask fp) ci) (ci + 256)) j
    = Z.testbit (bin_mask fp) j && negb (ci =? j)).
  { intros j Hj. rewrite !Z.clearbit_eqb.
    destruct (Z.eqb_spec (ci + 256) j); [lia|]. rewrite andb_true_r. reflexivity. }
  assert (Hbin : forall i, 0 <= i ->
    default None (<[Z.to_nat ci := None]> (bins fp) !! Z.to_nat i)
    = if ci =? i then None else bin_at fp i).
  { intros i Hi. apply bin_at_insert; try lia. }
  eexists. split; [reflexivity|]. cbn.
  split; [|split; [|split; [|split; [|split; [|split]]]]].
  - split; cbn; unfold FASTPASS_OUTWND_LEN.
    + rewrite length_insert. assumption.
    + intros i Hi. unfold bin_at at 1. cbn.
      rewrite (Hbin i), (Hbit i) by lia.
      destruct (Z.eqb_spec ci i) as [->|Hne]; cbn.
      * rewrite andb_false_r. split; [intros [? E]; discriminate | discriminate].
      * rewrite andb_true_r. apply Hslot. lia.
    + intros i Hi. rewrite (Hbit i) by lia.
      rewrite !Z.clearbit_eqb.
      replace (ci + 256 =? i + 256) with (ci =? i)
        by (destruct (Z.eqb_spec ci i), (Z.eqb_spec (ci + 256) (i + 256)); lia).
      destruct (Z.eqb_spec ci (i + 256)); [lia|]. rewrite andb_true_r.
      rewrite Hmirror by lia. reflexivity.
    + rewrite to_u32_small by lia.
      rewrite Hcount.
      rewrite (popcount_below_flip
                 (Z.clearbit (Z.clearbit (bin_mask fp) ci) (ci + 256))
                 (bin_mask fp) (Z.to_nat 256) ci).
      * lia.
      * lia.
      * rewrite Hbit by lia. rewrite Z.eqb_refl. apply andb_false_r.
      * assumption.
      * intros j Hj Hne. rewrite Hbit by lia.
        destruct (Z.eqb_spec ci j); [lia|]. rewrite andb_true_r. reflexivity.
  - repeat split.
  - reflexivity.
  - apply Hslot; [lia | assumption].
  - apply to_u32_small. lia.
  - intros i Hi. unfold bin_at at 1. cbn. apply Hbin; assumption.
  - intros t. pose proof (outwnd_pos_range t). apply Hbit. assumption.
Qed.

Lemma outwnd_pos_edge n : outwnd_pos (sub64 n FASTPASS_OUTWND_LEN) = outwnd_pos n.
Proof. rewrite !outwnd_pos_mod. unfold sub64, to_u64, FASTPASS_OUTWND_LEN. mod_lia. Qed.

Lemma outwnd_add_spec fp pd :
  outwnd_inv fp ->
  outwnd_is_unacked fp (sub64 (next_seqno fp) FASTPASS_OUTWND_LEN) = false ->
  exists fp',
    outwnd_add fp (Some pd) = Ok fp'
    /\ outwnd_inv fp'
    /\ next_seqno fp' = add64 (next_seqno fp) 1
    /\ tx_num_unacked fp' = tx_num_unacked fp + 1
    /\ calls fp' = calls fp
    /\ retrans_timer fp' = retrans_timer fp
    /\ (forall i, 0 <= i ->
          bin_at fp' i = if outwnd_pos (next_seqno fp) =? i then Some pd
                         else bin_at fp i)
    /\ (forall t, outwnd_is_unacked fp' t
                  = (outwnd_pos (next_seqno fp) =? outwnd_pos t)
                    || outwnd_is_unacked fp t).
Proof.
  intros Hinv Hfree. unfold outwnd_add. rewrite Hfree. simpl_result.
  unfold outwnd_is_unacked in *. rewrite outwnd_pos_edge in Hfree.
  pose proof (outwnd_pos_range (next_seqno fp)) as Hci.
  set (ci := outwnd_pos (next_seqno fp)) in *.
  pose proof (popcount_below_bounds (bin_mask fp) (Z.to_nat 256)) as Hpc.
  destruct Hinv as [Hlen Hslot Hmirror Hcount].
  unfold FASTPASS_OUTWND_LEN in *.
  assert (Hbit : forall j, 0 <= j < 256 ->
    Z.testbit (Z.setbit (Z.setbit (bin_mask fp) ci) (ci + 256)) j
    = (ci =? j) || Z.testbit (bin_mask fp) j).
  { intros j Hj. rewrite !Z.setbit_eqb by lia.
    destruct (Z.eqb_spec (ci + 256) j); [lia|]. reflexivity. }
  assert (Hbin : forall i, 0 <= i ->
    default None (<[Z.to_nat ci := Some pd]> (bins fp) !! Z.to_nat i)
    = if ci =? i then Some pd else bin_at fp i).
  { intros i Hi. apply bin_at_insert; try lia. }
  eexists. split; [reflexivity|]. cbn.
  split; [|split; [|split; [|split; [|split; [|split]]]]].
  - split; cbn; unfold FASTPASS_OUTWND_LEN.
    + rewrite length_insert. assumption.
    + intros i Hi. unfold bin_at at 1. cbn.
      rewrite (Hbin i), (Hbit i) by lia.
      destruct (Z.eqb_spec ci i) as [->|Hne]; cbn.
      * split; [reflexivity | eexists; reflexivity].
      * apply Hslot. lia.
    + intros i Hi. rewrite (Hbit i) by lia.
      rewrite !Z.setbit_eqb by lia.
      replace (ci + 256 =? i + 256) with (ci =? i)
        by (destruct (Z.eqb_spec ci i), (Z.eqb_spec (ci + 256) (i + 256)); lia).
      destruct (Z.eqb_spec ci (i + 256)); [lia|].
      rewrite Hmirror by lia. reflexivity.
    + rewrite to_u32_small by lia.
      rewrite Hcount.
      symmetry. apply (popcount_below_flip _ _ _ ci).
      * lia.
      * assumption.
      * rewrite Hbit by lia. rewrite Z.eqb_refl. reflexivity.
      * intros j Hj Hne. rewrite Hbit by lia.
        destruct (Z.eqb_spec ci j); [lia|]. reflexivity.
  - reflexivity.
  - apply to_u32_small. lia.
  - reflexivity.
  - reflexivity.
  - intros i Hi. unfold bin_at at 1. cbn. apply Hbin; assumption.
  - intros t. pose proof (outwnd_pos_range t). apply Hbit. assumption.
Qed.

(** ** Frame lemmas *)

Lemma same_session_refl fp : same_session fp fp.
Proof. repeat split. Qed.

Lemma same_session_trans fp1 fp2 fp3 :
  same_session fp1 fp2 -> same_session fp2 fp3 -> same_session fp1 fp3.
Proof. unfold same_session. intuition congruence. Qed.

Lemma same_session_emit fp c : same_session fp (emit fp c).
Proof. repeat split. Qed.

Lemma outwnd_inv_window fp fp' :
  bin_mask fp' = bin_mask fp -> bins fp' = bins fp ->
  tx_num_unacked fp' = tx_num_unacked fp ->
  outwnd_inv fp -> outwnd_inv fp'.
Proof.
  intros Hm Hb Ht [Hlen Hslot Hmirror Hcount].
  split; unfold bin_at; rewrite ?Hm, ?Hb, ?Ht; assumption.
Qed.

Lemma outwnd_inv_emit fp c : outwnd_inv fp -> outwnd_inv (emit fp c).
Proof. apply outwnd_inv_window; reflexivity. Qed.

Lemma behind_same fp fp' s :
  next_seqno fp' = next_seqno fp -> behind fp' s = behind fp s.
Proof. unfold behind. intros ->. reflexivity. Qed.

Lemma is_unacked_same fp fp' s :
  bin_mask fp' = bin_mask fp -> outwnd_is_unacked fp' s = outwnd_is_unacked fp s.
Proof. unfold outwnd_is_unacked. intros ->. reflexivity. Qed.

(** Every bit of the lower half belongs to exactly one seqno of the window. *)
Lemma window_covers_mask fp i :
  0 <= i < 256 ->
  exists t, behind fp t < 256 /\ outwnd_pos t = i.
Proof.
  intros Hi.
  pose proof (outwnd_pos_range (sub64 (next_seqno fp) 1)) as Hhead.
  set (head := outwnd_pos (sub64 (next_seqno fp) 1)) in *.
  exists (sub64 (next_seqno fp) (1 + (i - head) mod 256)).
  assert (Hb : behind fp (sub64 (next_seqno fp) (1 + (i - head) mod 256))
               = (i - head) mod 256).
  { unfold behind, sub64, to_u64. mod_lia. }
  split.
  - rewrite Hb. mod_lia.
  - rewrite (outwnd_pos_behind fp), Hb. fold head. mod_lia.
Qed.

Lemma popcount_below_clear (m : Z) (n : nat) :
  (forall j, 0 <= j < Z.of_nat n -> Z.testbit m j = false) ->
  popcount_below m n = 0.
Proof.
  induction n as [|n IH]; intros H; simpl popcount_below; [reflexivity|].
  rewrite IH by (intros; apply H; lia). rewrite H by lia. reflexivity.
Qed.

Lemma outwnd_empty_when_all_free fp :
  outwnd_inv fp ->
  (forall t, in_outwnd fp t -> outwnd_is_unacked fp t = false) ->
  tx_num_unacked fp = 0.
Proof.
  intros Hinv Hfree. rewrite (inv_count _ Hinv).
  apply popcount_below_clear. intros j Hj.
  unfold FASTPASS_OUTWND_LEN in Hj.
  destruct (window_covers_mask fp j) as (t & Ht & <-); [lia|].
  apply Hfree. assumption.
Qed.

(** ** [outwnd_reset] *)

Lemma clear_next_unacked_spec (fuel : nat) :
  forall fp tslot,
    outwnd_inv fp -> in_outwnd fp tslot ->
    (forall t, behind fp t < behind fp tslot -> outwnd_is_unacked fp t = false) ->
    tx_num_unacked fp < Z.of_nat fuel ->
    exists fp',
      clear_next_unacked fuel fp tslot = Ok fp'
      /\ outwnd_inv fp'
      /\ same_session fp fp'
      /\ (forall t, in_outwnd fp t -> outwnd_is_unacked fp' t = false).
Proof.
  induction fuel as [|fuel IH]; intros fp tslot Hinv Hin Hnewer Hfuel.
  - pose proof (popcount_below_bounds (bin_mask fp) (Z.to_nat FASTPASS_OUTWND_LEN)).
    rewrite (inv_count _ Hinv) in Hfuel. lia.
  - unfold in_outwnd, FASTPASS_OUTWND_LEN in *.
    pose proof (behind_range fp tslot) as Hk.
    cbn [clear_next_unacked].
    destruct (outwnd_at_or_before_spec fp tslot Hinv Hin)
      as [[E Hnone] | (g & Hg & Hkg & E & Hocc & Hgap)]; rewrite E; simpl_result.
    + exists fp. split; [reflexivity|]. split; [assumption|].
      split; [apply same_session_refl|].
      intros t Ht. pose proof (behind_range fp t).
      destruct (Z.lt_ge_cases (behind fp t) (behind fp tslot)).
      * apply Hnewer. assumption.
      * apply Hnone. lia.
    + destruct (Z.geb_spec g 0); [|lia].
      destruct (outwnd_pop_spec fp (sub64 tslot g) Hinv Hocc)
        as (fp1 & Epop & Hinv1 & Hsame1 & Hcalls1 & Hsome & Htx1 & Hbins1 & Hbits1).
      rewrite Epop. simpl_result.
      assert (Hnext : next_seqno fp1 = next_seqno fp) by apply Hsame1.
      set (fp2 := fpproto_pktdesc_free fp1 (bin_at fp (outwnd_pos (sub64 tslot g)))).
      assert (Hnext2 : next_seqno fp2 = next_seqno fp) by exact Hnext.
      destruct (IH fp2 (sub64 tslot g)) as (fp' & Eloop & Hinv' & Hsame' & Hfree').
      * apply outwnd_inv_emit. assumption.
      * unfold in_outwnd, FASTPASS_OUTWND_LEN.
        rewrite (behind_same fp fp2) by exact Hnext2.
        rewrite behind_sub64 by lia. lia.
      * intros t. rewrite !(behind_same fp fp2) by exact Hnext2.
        rewrite behind_sub64 by lia. intros Ht.
        rewrite (is_unacked_same fp1 fp2) by reflexivity.
        rewrite Hbits1. pose proof (behind_range fp t).
        destruct (Z.lt_ge_cases (behind fp t) (behind fp tslot)).
        -- rewrite Hnewer by assumption. reflexivity.
        -- rewrite Hgap by lia. reflexivity.
      * cbn. lia.
      * exists fp'. split; [exact Eloop|]. split; [assumption|]. split.
        -- eapply same_session_trans; [exact Hsame1|].
           eapply same_session_trans; [apply same_session_emit | exact Hsame'].
        -- intros t Ht. apply Hfree'.
           unfold in_outwnd. rewrite (behind_same fp fp2) by exact Hnext2. assumption.
Qed.

Lemma outwnd_reset_spec fuel fp :
  outwnd_inv fp -> (256 < fuel)%nat ->
  exists fp',
    outwnd_reset fuel fp = Ok fp'
    /\ outwnd_inv fp'
    /\ same_session fp fp'
    /\ tx_num_unacked fp' = 0
    /\ (forall t, outwnd_is_unacked fp' t = false).
Proof.
  intros Hinv Hfuel. unfold outwnd_reset.
  pose proof (popcount_below_bounds (bin_mask fp) (Z.to_nat FASTPASS_OUTWND_LEN)) as Hpc.
  destruct (clear_next_unacked_spec fuel fp (sub64 (next_seqno fp) 1))
    as (fp' & E & Hinv' & Hsame & Hfree).
  - assumption.
  - unfold in_outwnd. rewrite behind_newest. unfold FASTPASS_OUTWND_LEN. lia.
  - intros t. rewrite behind_newest. pose proof (behind_range fp t). lia.
  - rewrite (inv_count _ Hinv). unfold FASTPASS_OUTWND_LEN in *. lia.
  - assert (Hnext : next_seqno fp' = next_seqno fp) by apply Hsame.
    assert (Hall : forall t, in_outwnd fp' t -> outwnd_is_unacked fp' t = false).
    { intros t Ht. apply Hfree. unfold in_outwnd in *.
      rewrite <- (behind_same fp fp') by exact Hnext. assumption. }
    exists fp'. split; [exact E|]. split; [assumption|]. split; [assumption|].
    split.
    + apply outwnd_empty_when_all_free; assumption.
    + intros t. pose proof (outwnd_pos_range t) as Hp.
      destruct (window_covers_mask fp' (outwnd_pos t) Hp) as (t' & Ht' & Epos).
      unfold outwnd_is_unacked. rewrite <- Epos. apply Hall. exact Ht'.
Qed.

(** ** [outwnd_earliest_unacked_hint] *)

Lemma behind_add64 fp s d :
  0 <= d <= behind fp s -> behind fp (add64 s d) = behind fp s - d.
Proof. unfold behind, add64, to_u64. intros. mod_lia. Qed.

Lemma is_unacked_hint_index fp hint t :
  outwnd_inv fp -> behind fp hint < 256 -> behind fp t <= behind fp hint ->
  outwnd_is_unacked fp t
  = Z.testbit (bin_mask fp)
      (outwnd_pos hint + 256 - (behind fp hint - behind fp t)).
Proof.
  intros Hinv Hh Ht.
  pose proof (behind_range fp t). pose proof (outwnd_pos_range hint).
  unfold outwnd_is_unacked.
  rewrite (mask_bit_mirror fp Hinv
             (outwnd_pos hint + 256 - (behind fp hint - behind fp t))) by lia.
  f_equal. rewrite (outwnd_pos_behind fp t), (outwnd_pos_behind fp hint).
  mod_lia.
Qed.

Lemma outwnd_earliest_unacked_hint_spec fp hint occ :
  outwnd_inv fp -> in_outwnd fp hint ->
  behind fp occ <= behind fp hint -> outwnd_is_unacked fp occ = true ->
  exists e,
    behind fp occ <= behind fp e <= behind fp hint
    /\ outwnd_is_unacked fp e = true
    /\ (forall t, behind fp e < behind fp t <= behind fp hint ->
                  outwnd_is_unacked fp t = false)
    /\ ((forall t, behind fp hint < behind fp t < 256 ->
                   outwnd_is_unacked fp t = false) ->
        outwnd_earliest_unacked_hint fp hint = Ok e)
    /\ ((exists t, behind fp hint < behind fp t < 256
                   /\ outwnd_is_unacked fp t = true) ->
        outwnd_earliest_unacked_hint fp hint = Bug).
Proof.
  intros Hinv Hin Hocc_le Hocc. unfold in_outwnd, FASTPASS_OUTWND_LEN in Hin.
  pose proof (behind_range fp hint) as Hkh. pose proof (behind_range fp occ) as Hko.
  pose proof (outwnd_pos_range hint) as Hp.
  pose proof (behind_edge fp) as Hedge.
  unfold outwnd_earliest_unacked_hint. cbv zeta. unfold FASTPASS_OUTWND_LEN in *.
  set (p := outwnd_pos hint) in *.
  rewrite (to_u32_small (p + 256 + 1)) by lia.
  rewrite (is_unacked_hint_index fp hint occ Hinv) in Hocc by lia. fold p in Hocc.
  destruct (find_last_bit_spec (bin_mask fp) (p + 256 + 1))
    as [[_ Hnone] | (Hf & Hset & Hhigh)]; [lia | |].
  { rewrite Hnone in Hocc by lia. discriminate. }
  set (f := find_last_bit (bin_mask fp) (p + 256 + 1)) in *.
  assert (Hf_lo : p + 256 - (behind fp hint - behind fp occ) <= f).
  { destruct (Z.le_gt_cases (p + 256 - (behind fp hint - behind fp occ)) f);
      [assumption|]. rewrite Hhigh in Hocc by lia. discriminate. }
  rewrite (to_u32_small f) by lia.
  rewrite (to_u32_small (p + 256 - f)) by lia.
  set (e := add64 hint (p + 256 - f)).
  assert (Hbe : behind fp e = behind fp hint - (p + 256 - f)).
  { apply behind_add64. lia. }
  assert (He_occ : outwnd_is_unacked fp e = true).
  { rewrite (is_unacked_hint_index fp hint e Hinv) by lia. fold p.
    rewrite Hbe. rewrite <- Hset. f_equal. lia. }
  assert (Hbetween : forall t, behind fp e < behind fp t <= behind fp hint ->
                               outwnd_is_unacked fp t = false).
  { intros t Ht. rewrite (is_unacked_hint_index fp hint t Hinv) by lia. fold p.
    apply Hhigh. lia. }
  exists e. split; [lia|]. split; [assumption|]. split; [assumption|].
  destruct (Z.eqb_spec e (sub64 (next_seqno fp) 256)) as [Eedge|Nedge];
    simpl_result.
  - assert (behind fp e = 255) by (rewrite Eedge; exact Hedge).
    split; [reflexivity|]. intros (t & Ht & _). lia.
  - assert (Hne : behind fp e <> 255).
    { intros E255. apply Nedge. subst e.
      clear -E255. unfold behind, add64, sub64, to_u64 in *. mod_lia. }
    assert (Hb1 : behind fp (sub64 e 1) = behind fp e + 1)
      by (apply behind_sub64; lia).
    destruct (outwnd_at_or_before_spec fp (sub64 e 1) Hinv)
      as [[E Hnone] | (g & Hg & Hkg & E & Hocc' & Hgap)].
    + unfold in_outwnd, FASTPASS_OUTWND_LEN. lia.
    + rewrite E. simpl_result. split; [reflexivity|].
      intros (t & Ht & Htocc). rewrite Hnone in Htocc by lia. discriminate.
    + rewrite E. simpl_result.
      destruct (Z.eqb_spec g (-1)); [lia|]. simpl_result. split.
      * intros Hold. exfalso.
        assert (Hbg : behind fp (sub64 (sub64 e 1) g) = behind fp e + 1 + g).
        { rewrite behind_sub64 by lia. lia. }
        destruct (Z.le_gt_cases (behind fp (sub64 (sub64 e 1) g)) (behind fp hint)).
        -- rewrite Hbetween in Hocc' by lia. discriminate.
        -- rewrite Hold in Hocc' by lia. discriminate.
      * reflexivity.
Qed.

Lemma popcount_below_exists (m : Z) (n : nat) :
  0 < popcount_below m n ->
  exists i, 0 <= i < Z.of_nat n /\ Z.testbit m i = true.
Proof.
  induction n as [|n IH]; simpl popcount_below; [lia|].
  destruct (Z.testbit m (Z.of_nat n)) eqn:E; intros H.
  - exists (Z.of_nat n). split; [lia | assumption].
  - destruct IH as (i & Hi & Hset); [lia|]. exists i. split; [lia | assumption].
Qed.

Lemma outwnd_nonempty_occupied fp :
  outwnd_inv fp -> tx_num_unacked fp <> 0 ->
  exists t, in_outwnd fp t /\ outwnd_is_unacked fp t = true.
Proof.
  intros Hinv Hne.
  pose proof (popcount_below_bounds (bin_mask fp) (Z.to_nat FASTPASS_OUTWND_LEN)).
  destruct (popcount_below_exists (bin_mask fp) (Z.to_nat FASTPASS_OUTWND_LEN))
    as (i & Hi & Hset).
  - rewrite <- (inv_count _ Hinv) in *. lia.
  - unfold FASTPASS_OUTWND_LEN in Hi.
    destruct (window_covers_mask fp i) as (t & Ht & Epos); [lia|].
    exists t. split; [exact Ht|]. unfold outwnd_is_unacked. rewrite Epos. exact Hset.
Qed.

Lemma outwnd_earliest_unacked_spec fp :
  outwnd_inv fp -> tx_num_unacked fp <> 0 ->
  exists e,
    outwnd_earliest_unacked fp = Ok e
    /\ in_outwnd fp e
    /\ outwnd_is_unacked fp e = true
    /\ (forall t, in_outwnd fp t -> behind fp e < behind fp t ->
                  outwnd_is_unacked fp t = false).
Proof.
  intros Hinv Hne.
  destruct (outwnd_nonempty_occupied fp Hinv Hne) as (occ & Hocc_in & Hocc).
  pose proof (behind_edge fp) as Hedge.
  unfold in_outwnd, FASTPASS_OUTWND_LEN in *.
  destruct (outwnd_earliest_unacked_hint_spec fp (sub64 (next_seqno fp) 256) occ)
    as (e & He & He_occ & Hbetween & Hok & _); try assumption.
  - unfold in_outwnd, FASTPASS_OUTWND_LEN. lia.
  - lia.
  - exists e. split.
    + apply Hok. intros t Ht. lia.
    + split; [lia|]. split; [assumption|].
      intros t Ht Hlt. apply Hbetween. lia.
Qed.

(** ** Single acknowledgements *)

Lemma outwnd_pos_same_slot fp s t :
  behind fp s < 256 -> behind fp t < 256 ->
  (outwnd_pos s =? outwnd_pos t) = (behind fp s =? behind fp t).
Proof.
  intros Hs Ht. pose proof (behind_range fp s). pose proof (behind_range fp t).
  pose proof (outwnd_pos_range (sub64 (next_seqno fp) 1)).
  rewrite (outwnd_pos_behind fp s), (outwnd_pos_behind fp t).
  destruct (Z.eqb_spec (behind fp s) (behind fp t)) as [->|Hne].
  - apply Z.eqb_refl.
  - apply Z.eqb_neq. mod_lia.
Qed.

Lemma do_ack_seqno_spec fp s :
  outwnd_inv fp -> in_outwnd fp s -> outwnd_is_unacked fp s = true ->
  exists fp',
    do_ack_seqno fp s = Ok fp'
    /\ outwnd_inv fp'
    /\ same_session fp fp'
    /\ calls fp' = calls fp ++ [ack_call fp s]
    /\ is_Some (bin_at fp (outwnd_pos s))
    /\ tx_num_unacked fp' = tx_num_unacked fp - 1
    /\ (forall i, 0 <= i ->
          bin_at fp' i = if outwnd_pos s =? i then None else bin_at fp i)
    /\ (forall t, outwnd_is_unacked fp' t
                  = outwnd_is_unacked fp t && negb (outwnd_pos s =? outwnd_pos t)).
Proof.
  intros Hinv Hin Hocc. unfold in_outwnd, FASTPASS_OUTWND_LEN in Hin.
  pose proof (behind_range fp s).
  unfold do_ack_seqno.
  rewrite before_next_behind, before_edge_behind by lia.
  destruct (Z.leb_spec (2 ^ 63) (behind fp s)); [lia|].
  destruct (Z.leb_spec 256 (behind fp s)); [lia|].
  rewrite Hocc. simpl_result.
  destruct (outwnd_pop_spec fp s Hinv Hocc)
    as (fp1 & Epop & Hinv1 & Hsame1 & Hcalls1 & Hsome & Htx1 & Hbins1 & Hbits1).
  rewrite Epop. simpl_result.
  assert (Hops : ops fp1 = ops fp) by apply Hsame1.
  unfold ack_call. rewrite Hops.
  destruct (has_handle_ack (ops fp)); eexists; (split; [reflexivity|]);
    (split; [apply outwnd_inv_emit; assumption|]);
    (split; [eapply same_session_trans; [exact Hsame1 | apply same_session_emit]|]);
    cbn; rewrite Hcalls1; repeat (split; [first [reflexivity | assumption]|]);
    assumption.
Qed.

Lemma do_neg_ack_seqno_spec fp s :
  outwnd_inv fp -> outwnd_is_unacked fp s = true ->
  exists fp',
    do_neg_ack_seqno fp s = Ok fp'
    /\ outwnd_inv fp'
    /\ same_session fp fp'
    /\ calls fp' = calls fp ++ [neg_ack_call fp s]
    /\ is_Some (bin_at fp (outwnd_pos s))
    /\ tx_num_unacked fp' = tx_num_unacked fp - 1
    /\ (forall i, 0 <= i ->
          bin_at fp' i = if outwnd_pos s =? i then None else bin_at fp i)
    /\ (forall t, outwnd_is_unacked fp' t
                  = outwnd_is_unacked fp t && negb (outwnd_pos s =? outwnd_pos t)).
Proof.
  intros Hinv Hocc. unfold do_neg_ack_seqno.
  destruct (outwnd_pop_spec fp s Hinv Hocc)
    as (fp1 & Epop & Hinv1 & Hsame1 & Hcalls1 & Hsome & Htx1 & Hbins1 & Hbits1).
  rewrite Epop. simpl_result.
  assert (Hops : ops fp1 = ops fp) by apply Hsame1.
  unfold neg_ack_call. rewrite Hops.
  destruct (has_handle_neg_ack (ops fp)); eexists; (split; [reflexivity|]);
    (split; [apply outwnd_inv_emit; assumption|]);
    (split; [eapply same_session_trans; [exact Hsame1 | apply same_session_emit]|]);
    cbn; rewrite Hcalls1; repeat (split; [first [reflexivity | assumption]|]);
    assumption.
Qed.

(** ** [cancel_and_reset_retrans_timer] *)

Lemma cancel_and_reset_inactive fp :
  outwnd_inv fp -> retrans_timer fp = TimerInactive -> tx_num_unacked fp <> 0 ->
  exists e pd,
    outwnd_earliest_unacked fp = Ok e
    /\ bin_at fp (outwnd_pos e) = Some pd
    /\ cancel_and_reset_retrans_timer fp = Ok (rearmed fp e (sent_timestamp pd)).
Proof.
  intros Hinv Htimer Hne.
  destruct (outwnd_earliest_unacked_spec fp Hinv Hne) as (e & Ee & Hin & Hocc & Hmin).
  assert (Hsome : is_Some (bin_at fp (outwnd_pos e))).
  { apply (inv_occupied _ Hinv); [apply outwnd_pos_range | exact Hocc]. }
  destruct Hsome as [pd Hpd]. exists e, pd. split; [exact Ee|]. split; [exact Hpd|].
  unfold cancel_and_reset_retrans_timer. rewrite Htimer. cbn.
  unfold outwnd_empty. cbn. destruct (Z.eqb_spec (tx_num_unacked fp) 0); [lia|].
  change (outwnd_earliest_unacked (set_retrans_timer fp TimerInactive))
    with (outwnd_earliest_unacked fp).
  rewrite Ee. simpl_result.
  unfold outwnd_timestamp.
  change (bin_at (set_retrans_timer fp TimerInactive) (outwnd_pos e))
    with (bin_at fp (outwnd_pos e)).
  rewrite Hpd. reflexivity.
Qed.

Lemma cancel_and_reset_ok fp :
  outwnd_inv fp ->
  exists fp',
    cancel_and_reset_retrans_timer fp = Ok fp'
    /\ outwnd_inv fp'
    /\ bin_mask fp' = bin_mask fp /\ bins fp' = bins fp
    /\ tx_num_unacked fp' = tx_num_unacked fp
    /\ next_seqno fp' = next_seqno fp
    /\ calls fp' = calls fp.
Proof.
  intros Hinv.
  destruct (retrans_timer fp) eqn:Htimer.
  - destruct (Z.eq_dec (tx_num_unacked fp) 0) as [E0|Hne].
    + unfold cancel_and_reset_retrans_timer. rewrite Htimer. cbn.
      unfold outwnd_empty. cbn. rewrite E0. cbn.
      eexists. split; [reflexivity|].
      split; [revert Hinv; apply outwnd_inv_window; reflexivity|].
      cbn. repeat split; assumption.
    + destruct (cancel_and_reset_inactive fp Hinv Htimer Hne) as (e & pd & _ & _ & E).
      rewrite E. eexists. split; [reflexivity|].
      split; [revert Hinv; apply outwnd_inv_window; reflexivity|].
      repeat split.
  - unfold cancel_and_reset_retrans_timer. rewrite Htimer. cbn.
    eexists. split; [reflexivity|].
    split; [revert Hinv; apply outwnd_inv_window; reflexivity|].
    repeat split.
  - unfold cancel_and_reset_retrans_timer. rewrite Htimer. cbn.
    eexists. split; [reflexivity|].
    split; [revert Hinv; apply outwnd_inv_window; reflexivity|].
    repeat split.
Qed.

(** ** The run-length field *)

Lemma time_after64_behind fp a b :
  behind fp a < 2 ^ 62 -> behind fp b < 2 ^ 62 ->
  time_after64 a b = (behind fp a <? behind fp b).
Proof.
  intros Ha Hb. rewrite time_after64_spec.
  pose proof (behind_range fp a). pose proof (behind_range fp b).
  unfold behind, to_u64 in *.
  destruct (Z.leb_spec (2 ^ 63) ((b - a) mod 2 ^ 64)),
           (Z.ltb_spec ((next_seqno fp - 1 - a) mod 2 ^ 64)
                       ((next_seqno fp - 1 - b) mod 2 ^ 64));
    try reflexivity; mod_lia.
Qed.

Lemma runlen_at_range R i r : runlen_at R i r -> 0 <= r < 2 ^ 32.
Proof. intros [_ ->]. apply Z.mod_pos_bound. lia. Qed.

Lemma runlen_at_end R r : runlen_at R 8 r -> r = 0.
Proof.
  intros [_ ->]. unfold to_u32. change (16 ^ 8) with (2 ^ 32).
  apply Z.mod_mul. lia.
Qed.

Lemma shl32_nibble r : shl32 r 4 = to_u32 (r * 16).
Proof. unfold shl32. rewrite Z.shiftl_mul_pow2 by lia. reflexivity. Qed.

Lemma runlen_at_shl R i r :
  runlen_at R i r -> runlen_at R (Z.min 8 (i + 1)) (shl32 r 4).
Proof.
  intros [Hi ->]. split; [lia|]. rewrite shl32_nibble. unfold to_u32.
  rewrite Z.mul_mod_idemp_l by lia.
  destruct (Z.eq_dec i 8) as [->|Hne].
  - change (Z.min 8 (8 + 1)) with 8. change (16 ^ 8) with (2 ^ 32).
    rewrite <- Z.mul_assoc, (Z.mul_comm (2 ^ 32)), Z.mul_assoc.
    rewrite !Z.mod_mul by lia. reflexivity.
  - rewrite Z.min_r by lia. rewrite Z.pow_add_r by lia.
    rewrite Z.mul_assoc. reflexivity.
Qed.

Lemma nibble_range r : 0 <= r < 2 ^ 32 -> 0 <= Z.shiftr r 28 < 16.
Proof. intros H. rewrite Z.shiftr_div_pow2 by lia. mod_lia. Qed.

Lemma cov_step n kc ke r k :
  cov (S n) kc ke r k
  = ((kc <=? k) && (k <? ke))
    || (if r =? 0 then false
        else cov n (ke + Z.shiftr r 28)
               (ke + Z.shiftr r 28 + Z.shiftr (shl32 r 4) 28)
               (shl32 (shl32 r 4) 4) k).
Proof. reflexivity. Qed.

Lemma cov_done n kc ke k : cov n kc ke 0 k = (kc <=? k) && (k <? ke).
Proof. destruct n; cbn; apply orb_false_r. Qed.

Lemma cov_below n : forall kc ke r k,
  0 <= r < 2 ^ 32 -> kc <= ke -> k < kc -> cov n kc ke r k = false.
Proof.
  induction n as [|n IH]; intros kc ke r k Hr Hle Hk; cbn [cov];
    (destruct (Z.leb_spec kc k); [lia|]); cbn [andb orb]; [reflexivity|].
  destruct (r =? 0); [reflexivity|].
  pose proof (nibble_range r Hr).
  assert (0 <= shl32 r 4 < 2 ^ 32) by (apply Z.mod_pos_bound; lia).
  pose proof (nibble_range (shl32 r 4)).
  apply IH; [apply Z.mod_pos_bound; lia | lia | lia].
Qed.

Lemma cov_shrink n kc k1 ke r k :
  kc <= k1 -> k < kc \/ k1 <= k -> cov n k1 ke r k = cov n kc ke r k.
Proof.
  intros Hle Hk. destruct n; cbn [cov]; f_equal;
    destruct (Z.leb_spec k1 k), (Z.leb_spec kc k); try reflexivity; lia.
Qed.

Lemma cov_open n kc ke r k : kc <= k < ke -> cov n kc ke r k = true.
Proof.
  intros Hk. destruct n; cbn [cov];
    destruct (Z.leb_spec kc k), (Z.ltb_spec k ke); try lia; reflexivity.
Qed.

(** ** The loop of [fpproto_handle_ack] *)

Lemma ack_post_ext (c1 c2 : Z -> bool) fp acked0 fp' v' :
  (forall t, in_outwnd fp t -> outwnd_is_unacked fp t = true ->
             c1 (behind fp t) = c2 (behind fp t)) ->
  ack_post c1 fp acked0 fp' v' -> ack_post c2 fp acked0 fp' v'.
Proof.
  intros Hext (l & Hinv & Hsame & Hcalls & Hn & Hin & Hbits).
  exists l. repeat (split; [assumption|]). split.
  - intros s. rewrite Hin. split; intros (Hr & Hw & Hocc & Hc);
      (repeat (split; [assumption|])); [rewrite <- Hext | rewrite Hext]; assumption.
  - intros t Ht. rewrite Hbits by assumption.
    destruct (outwnd_is_unacked fp t) eqn:E; [|reflexivity].
    rewrite Hext by assumption. reflexivity.
Qed.

Lemma ack_post_nil (c : Z -> bool) fp acked0 v' :
  outwnd_inv fp ->
  (forall t, in_outwnd fp t -> outwnd_is_unacked fp t = true ->
             c (behind fp t) = false) ->
  n_acked v' = acked0 ->
  ack_post c fp acked0 fp v'.
Proof.
  intros Hinv Hnone Hn. exists []. split; [assumption|].
  split; [apply same_session_refl|]. split; [cbn; rewrite app_nil_r; reflexivity|].
  split; [cbn; lia|]. split.
  - intros s. split; [intros []|]. intros (_ & Hw & Hocc & Hc).
    rewrite Hnone in Hc by assumption. discriminate.
  - intros t Ht. destruct (outwnd_is_unacked fp t) eqn:E; [|reflexivity].
    rewrite Hnone by assumption. reflexivity.
Qed.

(** One acknowledgement, of [s1], followed by a stretch that satisfies
    [ack_post] for [c1] from the state [fp1] reached by it. *)
Lemma ack_post_cons (c c1 : Z -> bool) fp fp1 acked0 s1 fp' v' :
  outwnd_inv fp -> in_outwnd fp s1 -> 0 <= s1 < 2 ^ 64 ->
  outwnd_is_unacked fp s1 = true ->
  c (behind fp s1) = true ->
  (forall t, in_outwnd fp t -> outwnd_is_unacked fp t = true ->
             behind fp t <> behind fp s1 -> c1 (behind fp t) = c (behind fp t)) ->
  same_session fp fp1 ->
  calls fp1 = calls fp ++ [ack_call fp s1] ->
  (forall i, 0 <= i ->
     bin_at fp1 i = if outwnd_pos s1 =? i then None else bin_at fp i) ->
  (forall t, outwnd_is_unacked fp1 t
             = outwnd_is_unacked fp t && negb (outwnd_pos s1 =? outwnd_pos t)) ->
  ack_post c1 fp1 (acked0 + 1) fp' v' ->
  ack_post c fp acked0 fp' v'.
Proof.
  intros Hinv Hw1 Hr1 Hocc1 Hc1 Hagree Hsame1 Hcalls1 Hbins1 Hbits1
         (l & Hinv' & Hsame' & Hcalls' & Hn' & Hin' & Hbits').
  assert (Hnext : next_seqno fp1 = next_seqno fp) by apply Hsame1.
  assert (Hops : ops fp1 = ops fp) by apply Hsame1.
  assert (Hslot : forall t, in_outwnd fp t ->
            (outwnd_pos s1 =? outwnd_pos t) = (behind fp s1 =? behind fp t)).
  { intros t Ht. apply outwnd_pos_same_slot; assumption. }
  assert (Hwin : forall t, in_outwnd fp1 t <-> in_outwnd fp t).
  { intros t. unfold in_outwnd. rewrite (behind_same fp fp1) by exact Hnext. tauto. }
  exists (s1 :: l). split; [assumption|].
  split; [eapply same_session_trans; eassumption|]. split.
  - rewrite Hcalls', Hcalls1, <- app_assoc. cbn [map app]. do 2 f_equal.
    apply map_ext_in. intros s Hs. apply Hin' in Hs.
    destruct Hs as (_ & Hw & Hocc & _).
    rewrite Hbits1 in Hocc. apply andb_true_iff in Hocc. destruct Hocc as [_ Hne].
    unfold ack_call. rewrite Hops, Hbins1 by apply outwnd_pos_range.
    destruct (outwnd_pos s1 =? outwnd_pos s); [discriminate | reflexivity].
  - split; [cbn [length]; lia|]. split.
    + intros s. cbn [In]. rewrite Hin', Hwin.
      rewrite (behind_same fp fp1) by exact Hnext.
      rewrite Hbits1. split.
      * intros [<- | (Hr & Hw & Hocc & Hc)].
        -- repeat (split; [assumption|]). assumption.
        -- apply andb_true_iff in Hocc. destruct Hocc as [Hocc Hne].
           repeat (split; [assumption|]).
           rewrite Hslot in Hne by assumption.
           destruct (Z.eqb_spec (behind fp s1) (behind fp s)); [discriminate|].
           rewrite <- Hagree by (try assumption; congruence). assumption.
      * intros (Hr & Hw & Hocc & Hc).
        destruct (Z.eq_dec (behind fp s1) (behind fp s)) as [E|Hne].
        -- left. apply behind_inj in E. rewrite !to_u64_small in E by assumption.
           exact E.
        -- right. repeat (split; [assumption|]). split.
           ++ rewrite Hocc, Hslot by assumption.
              destruct (Z.eqb_spec (behind fp s1) (behind fp s)); [lia | reflexivity].
           ++ rewrite Hagree by (try assumption; congruence). assumption.
    + intros t Ht. rewrite Hbits' by (apply Hwin; exact Ht).
      rewrite (behind_same fp fp1) by exact Hnext.
      rewrite Hbits1, Hslot by assumption.
      destruct (outwnd_is_unacked fp t) eqn:Hocc; [|reflexivity].
      destruct (Z.eqb_spec (behind fp s1) (behind fp t)) as [E|Hne]; cbn [negb andb].
      * rewrite <- E, Hc1. reflexivity.
      * rewrite Hagree by (try assumption; congruence). reflexivity.
Qed.

Lemma tx_num_unacked_bounds fp :
  outwnd_inv fp -> 0 <= tx_num_unacked fp <= 256.
Proof.
  intros Hinv. rewrite (inv_count _ Hinv).
  pose proof (popcount_below_bounds (bin_mask fp) (Z.to_nat FASTPASS_OUTWND_LEN)).
  unfold FASTPASS_OUTWND_LEN in *. lia.
Qed.

Lemma positive_step fuel : unacked_ok fuel -> positive_ok (S fuel).
Proof.
  intros IH n fp v R i Hinv Hrun Hke Hn Hfuel.
  pose proof (proj1 Hrun) as Hi.
  pose proof (runlen_at_range _ _ _ Hrun) as Hr.
  pose proof (nibble_range _ Hr) as Hnib.
  pose proof (behind_range fp (end_seqno v)) as Hbe.
  assert (Hnib8 : i = 8 -> Z.shiftr (ack_runlen v) 28 = 0).
  { intros ->. rewrite (runlen_at_end _ _ Hrun). reflexivity. }
  cbn [ack_goto].
  destruct (IH n fp
              {| cur_seqno := end_seqno v;
                 end_seqno := sub64 (end_seqno v) (Z.shiftr (ack_runlen v) 28);
                 ack_runlen := shl32 (ack_runlen v) 4;
                 n_acked := n_acked v |} R (Z.min 8 (i + 1)))
    as (fp' & v' & E & Hpost); cbn [cur_seqno end_seqno ack_runlen n_acked].
  - assumption.
  - apply runlen_at_shl. assumption.
  - rewrite behind_sub64 by lia. lia.
  - assumption.
  - lia.
  - exists fp', v'. split; [exact E|].
    cbn [cur_seqno end_seqno ack_runlen n_acked] in Hpost.
    rewrite behind_sub64 in Hpost by lia. exact Hpost.
Qed.

Lemma sub64_range a b : 0 <= sub64 a b < 2 ^ 64.
Proof. apply Z.mod_pos_bound. lia. Qed.

Lemma unacked_step fuel : unacked_ok fuel -> positive_ok fuel -> unacked_ok (S fuel).
Proof.
  intros IHu IHp n fp v R i Hinv Hrun [Hcur Hend] Hn Hfuel.
  pose proof (proj1 Hrun) as Hi.
  pose proof (runlen_at_range _ _ _ Hrun) as Hr.
  pose proof (nibble_range _ Hr) as Hnib.
  pose proof (behind_range fp (cur_seqno v)) as Hbc.
  pose proof (behind_range fp (end_seqno v)) as Hbe.
  pose proof (tx_num_unacked_bounds fp Hinv) as Htx.
  cbn [ack_goto].
  destruct (Z.lt_ge_cases (behind fp (cur_seqno v)) 256) as [Hwin|Hfar].
  2: { rewrite outwnd_at_or_before_far by lia. simpl_result.
       exists fp, v. split; [reflexivity|].
       apply ack_post_nil; [assumption | | reflexivity].
       intros t Ht _. apply cov_below; [assumption | lia |].
       unfold in_outwnd, FASTPASS_OUTWND_LEN in Ht. lia. }
  destruct (outwnd_at_or_before_spec fp (cur_seqno v) Hinv Hwin)
    as [[E Hnone] | (g & Hg & Hkg & E & Hocc & Hgap)]; rewrite E; simpl_result.
  - cbn [Z.eqb Pos.eqb]. exists fp, v. split; [reflexivity|].
    apply ack_post_nil; [assumption | | reflexivity].
    intros t Ht Htocc. unfold in_outwnd, FASTPASS_OUTWND_LEN in Ht.
    destruct (Z.lt_ge_cases (behind fp t) (behind fp (cur_seqno v))).
    + apply cov_below; [assumption | lia | assumption].
    + rewrite Hnone in Htocc by lia. discriminate.
  - destruct (Z.eqb_spec g (-1)); [lia|].
    set (s1 := sub64 (cur_seqno v) g) in *.
    assert (Hb1 : behind fp s1 = behind fp (cur_seqno v) + g)
      by (apply behind_sub64; lia).
    rewrite (time_after64_behind fp) by lia. rewrite Hb1.
    destruct (Z.ltb_spec (behind fp (cur_seqno v) + g) (behind fp (end_seqno v)))
      as [Hrun_in|Hrun_out].
    + (* acknowledge s1 and look for the next one *)
      destruct (do_ack_seqno_spec fp s1 Hinv)
        as (fp1 & Eack & Hinv1 & Hsame1 & Hcalls1 & _ & Htx1 & Hbins1 & Hbits1);
        [unfold in_outwnd, FASTPASS_OUTWND_LEN; lia | assumption |].
      rewrite Eack. simpl_result.
      assert (Hnext : next_seqno fp1 = next_seqno fp) by apply Hsame1.
      destruct (IHu n fp1
                  {| cur_seqno := s1; end_seqno := end_seqno v;
                     ack_runlen := ack_runlen v; n_acked := n_acked v + 1 |} R i)
        as (fp' & v' & Eloop & Hpost); cbn [cur_seqno end_seqno ack_runlen n_acked].
      * assumption.
      * assumption.
      * rewrite !(behind_same fp fp1) by exact Hnext. lia.
      * assumption.
      * lia.
      * exists fp', v'. split; [exact Eloop|].
        cbn [cur_seqno end_seqno ack_runlen n_acked] in Hpost.
        rewrite !(behind_same fp fp1) in Hpost by exact Hnext.
        revert Hpost.
        apply (ack_post_cons _ _ fp fp1 _ s1); try assumption.
        -- unfold in_outwnd, FASTPASS_OUTWND_LEN. lia.
        -- apply sub64_range.
        -- apply cov_open. lia.
        -- intros t Ht Htocc Hne. apply cov_shrink; [lia|].
           destruct (Z.lt_ge_cases (behind fp t) (behind fp (cur_seqno v)));
             [left; assumption|].
           destruct (Z.lt_ge_cases (behind fp t) (behind fp s1)); [|right; assumption].
           rewrite Hgap in Htocc by lia. discriminate.
    + (* the run is over *)
      assert (Hfree : forall t, in_outwnd fp t -> outwnd_is_unacked fp t = true ->
                (behind fp (cur_seqno v) <=? behind fp t)
                && (behind fp t <? behind fp (end_seqno v)) = false).
      { intros t Ht Htocc.
        destruct (Z.leb_spec (behind fp (cur_seqno v)) (behind fp t)),
                 (Z.ltb_spec (behind fp t) (behind fp (end_seqno v)));
          try reflexivity.
        rewrite Hgap in Htocc by lia. discriminate. }
      destruct (Z.eqb_spec (ack_runlen v) 0) as [E0|Hr0]; cbn [negb].
      * eexists fp, _. split; [reflexivity|].
        apply ack_post_nil; [assumption | | reflexivity].
        intros t Ht Htocc. rewrite E0, cov_done. apply Hfree; assumption.
      * assert (Hi8 : i < 8).
        { destruct (Z.eq_dec i 8) as [->|]; [|lia].
          elim Hr0. eapply runlen_at_end. eassumption. }
        destruct n as [|n']; [lia|].
        destruct (IHp n' fp
                    {| cur_seqno := s1;
                       end_seqno := sub64 (end_seqno v) (Z.shiftr (ack_runlen v) 28);
                       ack_runlen := shl32 (ack_runlen v) 4;
                       n_acked := n_acked v |} R (i + 1))
          as (fp' & v' & Eloop & Hpost); cbn [cur_seqno end_seqno ack_runlen n_acked].
        -- assumption.
        -- pose proof (runlen_at_shl _ _ _ Hrun) as Hs.
           rewrite Z.min_r in Hs by lia. exact Hs.
        -- rewrite behind_sub64 by lia. lia.
        -- lia.
        -- lia.
        -- exists fp', v'. split; [exact Eloop|].
           cbn [cur_seqno end_seqno ack_runlen n_acked] in Hpost.
           rewrite behind_sub64 in Hpost by lia.
           revert Hpost. apply ack_post_ext. intros t Ht Htocc.
           cbn [cov]. rewrite (Hfree t Ht Htocc). cbn [orb].
           destruct (Z.eqb_spec (ack_runlen v) 0); [contradiction | reflexivity].
Qed.

Lemma ack_goto_ok fuel : unacked_ok fuel /\ positive_ok fuel.
Proof.
  induction fuel as [|fuel [IHu IHp]].
  - split.
    + intros n fp v R i Hinv Hrun _ _ Hfuel.
      pose proof (tx_num_unacked_bounds fp Hinv). pose proof (proj1 Hrun). lia.
    + intros n fp v R i Hinv Hrun _ _ Hfuel.
      pose proof (tx_num_unacked_bounds fp Hinv). pose proof (proj1 Hrun). lia.
  - split; [apply unacked_step; assumption | apply positive_step; assumption].
Qed.

(** ** [fpproto_handle_ack] *)

Lemma ack_full_seqno_behind fp ack_seq :
  behind fp (ack_full_seqno fp ack_seq) = (next_seqno fp - 1 - ack_seq) mod 2 ^ 16.
Proof.
  unfold ack_full_seqno, behind, add64, sub64, to_u64.
  change (Z.shiftl 1 16) with 65536.
  change 65535 with (Z.ones 16). rewrite Z.land_ones by lia.
  change (2 ^ 16) with 65536. mod_lia.
Qed.

Lemma ack_full_seqno_range fp ack_seq :
  0 <= ack_full_seqno fp ack_seq < 2 ^ 64.
Proof. apply Z.mod_pos_bound. lia. Qed.

Lemma ack_too_early_test fp ack_seq :
  time_before64 (ack_full_seqno fp ack_seq)
    (sub64 (next_seqno fp) FASTPASS_OUTWND_LEN)
  = (256 <=? behind fp (ack_full_seqno fp ack_seq)).
Proof.
  apply before_edge_behind. rewrite ack_full_seqno_behind.
  pose proof (Z.mod_pos_bound (next_seqno fp - 1 - ack_seq) (2 ^ 16)). lia.
Qed.

Lemma cov_shift n z : forall kc ke r k,
  cov n (kc + z) (ke + z) r (k + z) = cov n kc ke r k.
Proof.
  induction n as [|n IH]; intros kc ke r k; cbn [cov].
  - f_equal. destruct (Z.leb_spec (kc + z) (k + z)), (Z.leb_spec kc k),
      (Z.ltb_spec (k + z) (ke + z)), (Z.ltb_spec k ke); try reflexivity; lia.
  - f_equal.
    + destruct (Z.leb_spec (kc + z) (k + z)), (Z.leb_spec kc k),
        (Z.ltb_spec (k + z) (ke + z)), (Z.ltb_spec k ke); try reflexivity; lia.
    + destruct (r =? 0); [reflexivity|].
      cbv zeta. rewrite <- (IH (ke + Z.shiftr r 28)). f_equal; lia.
Qed.

Lemma fpproto_handle_ack_early fuel fp ack_seq ack_runlen :
  ~ in_outwnd fp (ack_full_seqno fp ack_seq) ->
  fpproto_handle_ack fuel fp ack_seq ack_runlen
  = Ok (set_stat_too_early_ack fp (add64 (stat_too_early_ack fp) 1)).
Proof.
  intros Hout. unfold fpproto_handle_ack. rewrite ack_too_early_test.
  unfold in_outwnd, FASTPASS_OUTWND_LEN in Hout.
  destruct (Z.leb_spec 256 (behind fp (ack_full_seqno fp ack_seq))); [reflexivity | lia].
Qed.

Lemma fpproto_handle_ack_spec fuel fp ack_seq R :
  outwnd_inv fp -> in_outwnd fp (ack_full_seqno fp ack_seq) ->
  tx_num_unacked fp + 14 <= Z.of_nat fuel ->
  exists fp' l,
    fpproto_handle_ack fuel fp ack_seq R = Ok fp'
    /\ outwnd_inv fp'
    /\ next_seqno fp' = next_seqno fp
    /\ calls fp' = calls fp ++ map (ack_call fp) l
    /\ (forall s, In s l <->
          0 <= s < 2 ^ 64 /\ in_outwnd fp s /\ outwnd_is_unacked fp s = true
          /\ ack_selects R (behind fp s - behind fp (ack_full_seqno fp ack_seq))
             = true)
    /\ (forall t, in_outwnd fp t ->
          outwnd_is_unacked fp' t
          = outwnd_is_unacked fp t
            && negb (ack_selects R
                       (behind fp t - behind fp (ack_full_seqno fp ack_seq)))).
Proof.
  intros Hinv Hin Hfuel.
  pose proof (ack_full_seqno_range fp ack_seq) as Hcr.
  unfold fpproto_handle_ack. rewrite ack_too_early_test.
  set (c := ack_full_seqno fp ack_seq) in *.
  pose proof (behind_range fp c) as Hbc.
  unfold in_outwnd, FASTPASS_OUTWND_LEN in Hin.
  destruct (Z.leb_spec 256 (behind fp c)); [lia|].
  assert (Hrun : runlen_at R 1 (shl32 R 4)).
  { split; [lia|]. rewrite shl32_nibble. reflexivity. }
  assert (Hsel : forall k, k <> behind fp c ->
            cov 3 (behind fp c + 1)
              (behind fp c + 1 + Z.shiftr (shl32 R 4) 28)
              (shl32 (shl32 R 4) 4) k
            = ack_selects R (k - behind fp c)).
  { intros k Hk. unfold ack_selects.
    destruct (Z.eqb_spec (k - behind fp c) 0); [lia|]. cbn [orb].
    rewrite <- (cov_shift 3 (behind fp c) 1 _ _ (k - behind fp c)).
    f_equal; lia. }
  assert (Hfinish : forall fp2 v2,
    ack_post (fun k => ack_selects R (k - behind fp c)) fp 0 fp2 v2 ->
    exists fp' l,
      (if n_acked v2 >? 0 then cancel_and_reset_retrans_timer fp2 else Ok fp2) = Ok fp'
      /\ outwnd_inv fp'
      /\ next_seqno fp' = next_seqno fp
      /\ calls fp' = calls fp ++ map (ack_call fp) l
      /\ (forall s, In s l <->
            0 <= s < 2 ^ 64 /\ in_outwnd fp s /\ outwnd_is_unacked fp s = true
            /\ ack_selects R (behind fp s - behind fp c) = true)
      /\ (forall t, in_outwnd fp t ->
            outwnd_is_unacked fp' t
            = outwnd_is_unacked fp t
              && negb (ack_selects R (behind fp t - behind fp c)))).
  { intros fp2 v2 (l & Hinv2 & Hsame2 & Hcalls2 & Hn2 & Hin2 & Hbits2).
    assert (Hnext2 : next_seqno fp2 = next_seqno fp) by apply Hsame2.
    destruct (n_acked v2 >? 0).
    - destruct (cancel_and_reset_ok fp2 Hinv2)
        as (fp3 & E3 & Hinv3 & Hmask3 & _ & _ & Hnext3 & Hcalls3).
      exists fp3, l. split; [exact E3|]. split; [assumption|].
      split; [congruence|]. split; [congruence|]. split; [exact Hin2|].
      intros t Ht. rewrite (is_unacked_same fp2 fp3) by exact Hmask3.
      apply Hbits2. exact Ht.
    - exists fp2, l. repeat (split; [first [reflexivity | assumption]|]).
      assumption. }
  destruct (outwnd_is_unacked fp c) eqn:Hocc; simpl_result.
  - destruct (do_ack_seqno_spec fp c Hinv)
      as (fp1 & Eack & Hinv1 & Hsame1 & Hcalls1 & _ & Htx1 & Hbins1 & Hbits1);
      [unfold in_outwnd, FASTPASS_OUTWND_LEN; lia | assumption |].
    rewrite Eack. simpl_result.
    assert (Hnext : next_seqno fp1 = next_seqno fp) by apply Hsame1.
    destruct (proj2 (ack_goto_ok fuel) 3%nat fp1
                {| cur_seqno := c; end_seqno := sub64 c 1;
                   ack_runlen := shl32 R 4; n_acked := 1 |} R 1)
      as (fp2 & v2 & Eloop & Hpost); cbn [cur_seqno end_seqno ack_runlen n_acked].
    + assumption.
    + assumption.
    + rewrite (behind_same fp fp1) by exact Hnext. rewrite behind_sub64 by lia. lia.
    + lia.
    + change (Z.min 8 (1 + 1)) with 2. lia.
    + rewrite Eloop. simpl_result.
      cbn [cur_seqno end_seqno ack_runlen n_acked] in Hpost.
      rewrite (behind_same fp fp1) in Hpost by exact Hnext.
      rewrite behind_sub64 in Hpost by lia.
      apply Hfinish.
      apply (ack_post_cons (fun k => ack_selects R (k - behind fp c))
               (cov 3 (behind fp c + 1)
                  (behind fp c + 1 + Z.shiftr (shl32 R 4) 28)
                  (shl32 (shl32 R 4) 4))
               fp fp1 0 c fp2 v2); try assumption.
      * rewrite Z.sub_diag. reflexivity.
      * intros t Ht Htocc Hne. apply Hsel. assumption.
  - destruct (proj2 (ack_goto_ok fuel) 3%nat fp
                {| cur_seqno := c; end_seqno := sub64 c 1;
                   ack_runlen := shl32 R 4; n_acked := 0 |} R 1)
      as (fp2 & v2 & Eloop & Hpost); cbn [cur_seqno end_seqno ack_runlen n_acked].
    + assumption.
    + assumption.
    + rewrite behind_sub64 by lia. lia.
    + lia.
    + change (Z.min 8 (1 + 1)) with 2. lia.
    + rewrite Eloop. simpl_result.
      cbn [cur_seqno end_seqno ack_runlen n_acked] in Hpost.
      rewrite behind_sub64 in Hpost by lia.
      apply Hfinish. revert Hpost. apply ack_post_ext.
      intros t Ht Htocc. apply Hsel. intros E.
      assert (Epos : outwnd_pos c = outwnd_pos t).
      { apply Z.eqb_eq. rewrite (outwnd_pos_same_slot fp) by (try assumption; lia).
        apply Z.eqb_eq. congruence. }
      unfold outwnd_is_unacked in *. rewrite Epos in Hocc. congruence.
Qed.

(** More fuel never changes an outcome that was reached. *)
Lemma ack_goto_mono (fuel : nat) :
  forall fuel' l fp v x,
    ack_goto fuel l fp v = Ok x -> (fuel <= fuel')%nat ->
    ack_goto fuel' l fp v = Ok x.
Proof.
  induction fuel as [|fuel IH]; intros fuel' l fp v x H Hle; [discriminate|].
  destruct fuel' as [|fuel']; [lia|].
  cbn [ack_goto] in *. destruct l.
  - apply IH; [assumption | lia].
  - destruct (outwnd_at_or_before fp (cur_seqno v)) as [g| |];
      simpl_result; simpl_result_in H; try discriminate.
    destruct (g =? -1); [assumption|].
    destruct (time_after64 (sub64 (cur_seqno v) g) (end_seqno v)).
    + destruct (do_ack_seqno fp (sub64 (cur_seqno v) g)) as [fp1| |];
        simpl_result; simpl_result_in H; try discriminate.
      apply IH; [assumption | lia].
    + destruct (negb (ack_runlen v =? 0)); [|assumption].
      apply IH; [assumption | lia].
Qed.

Lemma fpproto_handle_ack_mono fuel fuel' fp ack_seq R fp' :
  fpproto_handle_ack fuel fp ack_seq R = Ok fp' -> (fuel <= fuel')%nat ->
  fpproto_handle_ack fuel' fp ack_seq R = Ok fp'.
Proof.
  unfold fpproto_handle_ack. intros H Hle.
  destruct (time_before64 _ _); [assumption|].
  destruct (if outwnd_is_unacked fp (ack_full_seqno fp ack_seq)
            then do_ack_seqno fp (ack_full_seqno fp ack_seq) ≫= λ fp0, Ok (fp0, 1)
            else Ok (fp, 0)) as [[fp1 acked]| |];
    simpl_result; simpl_result_in H; try discriminate.
  destruct (ack_goto fuel do_next_positive fp1 _) as [[fp2 v2]| |] eqn:E;
    simpl_result_in H; try discriminate.
  rewrite (ack_goto_mono fuel fuel' _ _ _ _ E Hle). exact H.
Qed.

(** The top nibble of the run-length field is shifted out unread. *)
Lemma shl32_top_nibble R n0 : shl32 (R + n0 * 2 ^ 28) 4 = shl32 R 4.
Proof. rewrite !shl32_nibble. unfold to_u32. mod_lia. Qed.

(** The first two nibbles that the loop reads are bits 24..27 and 20..23
    of the field. *)
Lemma first_nibble_read R :
  0 <= R < 2 ^ 32 -> Z.shiftr (shl32 R 4) 28 = Z.land (Z.shiftr R 24) 15.
Proof.
  intros HR. rewrite shl32_nibble. unfold to_u32.
  change 15 with (Z.ones 4). rewrite Z.land_ones by lia.
  rewrite !Z.shiftr_div_pow2 by lia. mod_lia.
Qed.

Lemma second_nibble_read R :
  0 <= R < 2 ^ 32 ->
  Z.shiftr (shl32 (shl32 R 4) 4) 28 = Z.land (Z.shiftr R 20) 15.
Proof.
  intros HR. rewrite !shl32_nibble. unfold to_u32.
  change 15 with (Z.ones 4). rewrite Z.land_ones by lia.
  rewrite !Z.shiftr_div_pow2 by lia. mod_lia.
Qed.

(** ** Sessions of the examples *)

Lemma sock_100_115_committed :
  commit_many 16 0 (fresh_sock 100) = Ok sock_100_115.
Proof. vm_compute. reflexivity. Qed.

Lemma sock_100_115_inv : outwnd_inv sock_100_115.
Proof. apply outwnd_inv_b_sound. vm_compute. reflexivity. Qed.

(** The runtime test of the source runs through on the model. *)
Lemma outwnd_test_passes : exists fp', outwnd_test (fresh_sock 0) = Ok fp'.
Proof. vm_compute. eexists. reflexivity. Qed.

(** * Properties stated by the specification *)

(** ** Reconstruction of the acknowledged seqno *)

(** C3. The seqno that [fpproto_handle_ack] derives from the 16 bits on the
    wire, [next_seqno - 2^16 + ((ack_seq - (next_seqno - 2^16)) mod 2^16)]
    in 64-bit arithmetic, is congruent to [ack_seq] modulo 2^16 and lies
    among the 2^16 seqnos just below [next_seqno], and it is the only such
    seqno.  When it is older than [next_seqno - 256], the function adds one
    to the too-early-ACK counter and returns: nothing is delivered, and the
    window, [next_seqno] and the timer are as before. *)
Theorem ack_seqno_reconstruction (fp : fastpass_sock) (ack_seq : Z) :
  let c := ack_full_seqno fp ack_seq in
  c = to_u64 (next_seqno fp - 2 ^ 16
              + (ack_seq - (next_seqno fp - 2 ^ 16)) mod 2 ^ 16)
  /\ (0 <= c < 2 ^ 64
      /\ c mod 2 ^ 16 = ack_seq mod 2 ^ 16
      /\ 1 <= to_u64 (next_seqno fp - c) <= 2 ^ 16)
  /\ (forall x, 0 <= x < 2 ^ 64 -> x mod 2 ^ 16 = ack_seq mod 2 ^ 16 ->
                1 <= to_u64 (next_seqno fp - x) <= 2 ^ 16 -> x = c)
  /\ (time_before64 c (sub64 (next_seqno fp) FASTPASS_OUTWND_LEN) = true ->
      forall fuel ack_runlen,
      exists fp',
        fpproto_handle_ack fuel fp ack_seq ack_runlen = Ok fp'
        /\ fp' = set_stat_too_early_ack fp (add64 (stat_too_early_ack fp) 1)
        /\ calls fp' = calls fp
        /\ bin_mask fp' = bin_mask fp /\ bins fp' = bins fp
        /\ tx_num_unacked fp' = tx_num_unacked fp
        /\ next_seqno fp' = next_seqno fp
        /\ retrans_timer fp' = retrans_timer fp
        /\ earliest_unacked fp' = earliest_unacked fp).
Proof.
  cbv zeta.
  assert (Hc : ack_full_seqno fp ack_seq
               = to_u64 (next_seqno fp - 2 ^ 16
                         + (ack_seq - (next_seqno fp - 2 ^ 16)) mod 2 ^ 16)).
  { unfold ack_full_seqno, add64, sub64, to_u64.
    change (Z.shiftl 1 16) with (2 ^ 16).
    change 65535 with (Z.ones 16). rewrite Z.land_ones by lia.
    change (2 ^ 16) with 65536. mod_lia. }
  split; [exact Hc|].
  split; [|split].
  - rewrite Hc. unfold to_u64. change (2 ^ 16) with 65536. repeat split; mod_lia.
  - rewrite Hc. unfold to_u64. change (2 ^ 16) with 65536.
    intros x Hx Hcong Hbelow. mod_lia.
  - intros Hearly fuel ack_runlen.
    eexists. split.
    + unfold fpproto_handle_ack. rewrite Hearly. reflexivity.
    + repeat split.
Qed.

Lemma ack_seqno_reconstruction_witness :
  time_before64 (ack_full_seqno sock_100_115 3000)
    (sub64 (next_seqno sock_100_115) FASTPASS_OUTWND_LEN) = true
  /\ exists fp',
       fpproto_handle_ack 0 sock_100_115 3000 0 = Ok fp'
       /\ stat_too_early_ack fp' = 1
       /\ calls fp' = calls sock_100_115.
Proof.
  assert (H : time_before64 (ack_full_seqno sock_100_115 3000)
                (sub64 (next_seqno sock_100_115) FASTPASS_OUTWND_LEN) = true)
    by (vm_compute; reflexivity).
  split; [exact H|].
  destruct (ack_seqno_reconstruction sock_100_115 3000) as (_ & _ & _ & Hearly).
  destruct (Hearly H 0%nat 0) as (fp' & E & -> & Hcalls & _).
  exists (set_stat_too_early_ack sock_100_115
            (add64 (stat_too_early_ack sock_100_115) 1)).
  split; [exact E|]. split; [vm_compute; reflexivity | exact Hcalls].
Defined.

(** ** Protocol resets *)

Section ResetProperties.

Variable jhash_1word : Z -> Z -> Z.

Lemma do_proto_reset_spec fuel fp reset_time :
  outwnd_inv fp -> (256 < fuel)%nat ->
  exists fp',
    do_proto_reset jhash_1word fuel fp reset_time = Ok fp'
    /\ outwnd_inv fp'
    /\ last_reset_time fp' = reset_time
    /\ in_sync fp' = in_sync fp
    /\ ops fp' = ops fp
    /\ tx_num_unacked fp' = 0.
Proof.
  intros Hinv Hfuel. unfold do_proto_reset.
  destruct (outwnd_reset_spec fuel fp Hinv Hfuel)
    as (fp1 & E & Hinv1 & Hsame & Htx & _).
  rewrite E. simpl_result. eexists. split; [reflexivity|].
  split; [revert Hinv1; apply outwnd_inv_window; reflexivity|].
  cbn. repeat split; try assumption; apply Hsame.
Qed.


End ResetProperties.


(** The test of [tstamp_in_window] admits only timestamps of the interval
    [win_middle - win_size/2, win_middle + win_size/2), the halves being
    exact: the lower bound rounds [win_size / 2] down and the upper bound
    rounds it up. *)
Lemma tstamp_in_window_sound tstamp win_middle win_size :
  0 <= tstamp < 2 ^ 64 -> 0 <= win_middle < 2 ^ 64 -> 0 <= win_size < 2 ^ 64 ->
  tstamp_in_window tstamp win_middle win_size = true ->
  2 * win_middle - win_size <= 2 * tstamp < 2 * win_middle + win_size.
Proof.
  intros Ht Hm Hw. unfold tstamp_in_window. rewrite andb_true_iff.
  rewrite Z.geb_leb, Z.leb_le, Z.ltb_lt.
  unfold add64, sub64, to_u64. intros [Hlo Hhi]. mod_lia.
Qed.

Lemma reset_full_tstamp_range now p : 0 <= reset_full_tstamp now p < 2 ^ 64.
Proof. apply Z.mod_pos_bound. lia. Qed.

(** C8. A RESET whose reconstructed timestamp differs from
    [last_reset_time] and lies outside
    [now - rst_win_ns/2, now + rst_win_ns/2) adds one to
    [reset_out_of_window] and changes nothing else; no callback is
    invoked.  The halves of the window are exact (the comparison is stated
    on doubled values), and [now] and [rst_win_ns] are 64-bit values. *)
Theorem fpproto_handle_reset_out_of_window (jhash_1word : Z -> Z -> Z)
    (fuel : nat) (now : Z) (fp : fastpass_sock) (partial_tstamp : Z) :
  0 <= now < 2 ^ 64 -> 0 <= rst_win_ns fp < 2 ^ 64 ->
  reset_full_tstamp now partial_tstamp <> last_reset_time fp ->
  ~ (2 * now - rst_win_ns fp <= 2 * reset_full_tstamp now partial_tstamp
     < 2 * now + rst_win_ns fp) ->
  exists fp',
    fpproto_handle_reset jhash_1word fuel now fp partial_tstamp = Ok fp'
    /\ fp' = set_stat_reset_out_of_window fp
               (add64 (stat_reset_out_of_window fp) 1)
    /\ calls fp' = calls fp
    /\ bin_mask fp' = bin_mask fp /\ bins fp' = bins fp
    /\ tx_num_unacked fp' = tx_num_unacked fp
    /\ next_seqno fp' = next_seqno fp
    /\ last_reset_time fp' = last_reset_time fp
    /\ in_sync fp' = in_sync fp.
Proof.
  intros Hnow Hwin Hne Hout.
  eexists. split.
  - unfold fpproto_handle_reset.
    destruct (Z.eqb_spec (reset_full_tstamp now partial_tstamp) (last_reset_time fp));
      [contradiction|].
    destruct (tstamp_in_window (reset_full_tstamp now partial_tstamp) now
                (rst_win_ns fp)) eqn:E; [|reflexivity].
    elim Hout. apply tstamp_in_window_sound; try assumption.
    apply reset_full_tstamp_range.
  - repeat split.
Qed.

(** The scenario of the specification: a window of one second, the clock at
    ten seconds, a RESET for the instant two seconds. *)
Lemma fpproto_handle_reset_out_of_window_witness :
  reset_full_tstamp 10000000000 2000000000 = 2000000000
  /\ exists fp',
       fpproto_handle_reset (fun _ _ => 0) 0 10000000000
         (set_last_reset_time sock_100_115 9900000000) 2000000000 = Ok fp'
       /\ stat_reset_out_of_window fp' = 1
       /\ calls fp' = []
       /\ next_seqno fp' = 116
       /\ last_reset_time fp' = 9900000000.
Proof.
  split; [vm_compute; reflexivity|].
  destruct (fpproto_handle_reset_out_of_window (fun _ _ => 0) 0 10000000000
              (set_last_reset_time sock_100_115 9900000000) 2000000000)
    as (fp' & E & -> & Hrest).
  - lia.
  - vm_compute. split; [discriminate | reflexivity].
  - vm_compute. discriminate.
  - vm_compute. intros [H1 H2]. apply H1. reflexivity.
  - eexists. split; [exact E|]. vm_compute. repeat split.
Defined.

(** ** The outstanding window *)

(** C4. [outwnd_add], [outwnd_pop] and [outwnd_reset] keep the window
    invariants (a slot holds a descriptor iff its bit is set in the lower
    half of the mask, the upper half mirrors the lower half, and
    [tx_num_unacked] is the number of bits set in the lower half): from a
    state that satisfies them, each operation whose assertions hold returns
    a state that satisfies them, and an operation whose assertion fails
    aborts without returning a state. *)
Theorem outwnd_operations_preserve_invariants (fp : fastpass_sock) :
  outwnd_inv fp ->
  (forall pd,
     (outwnd_is_unacked fp (sub64 (next_seqno fp) FASTPASS_OUTWND_LEN) = false ->
      exists fp', outwnd_add fp (Some pd) = Ok fp' /\ outwnd_inv fp')
     /\ (outwnd_is_unacked fp (sub64 (next_seqno fp) FASTPASS_OUTWND_LEN) = true ->
         outwnd_add fp (Some pd) = Bug))
  /\ (forall s,
        (outwnd_is_unacked fp s = true ->
         exists fp',
           outwnd_pop fp s = Ok (bin_at fp (outwnd_pos s), fp') /\ outwnd_inv fp')
        /\ (outwnd_is_unacked fp s = false -> outwnd_pop fp s = Bug))
  /\ (forall fuel, (256 < fuel)%nat ->
        exists fp',
          outwnd_reset fuel fp = Ok fp' /\ outwnd_inv fp'
          /\ tx_num_unacked fp' = 0).
Proof.
  intros Hinv. split; [|split].
  - intros pd. split.
    + intros Hfree.
      destruct (outwnd_add_spec fp pd Hinv Hfree) as (fp' & E & Hinv' & _).
      exists fp'. split; assumption.
    + intros Hocc. unfold outwnd_add. rewrite Hocc. reflexivity.
  - intros s. split.
    + intros Hocc.
      destruct (outwnd_pop_spec fp s Hinv Hocc) as (fp' & E & Hinv' & _).
      exists fp'. split; assumption.
    + intros Hfree. unfold outwnd_pop. rewrite Hfree. reflexivity.
  - intros fuel Hfuel.
    destruct (outwnd_reset_spec fuel fp Hinv Hfuel) as (fp' & E & Hinv' & _ & Htx & _).
    exists fp'. split; [assumption | split; assumption].
Qed.

Lemma outwnd_operations_preserve_invariants_witness :
  outwnd_inv sock_100_115
  /\ (exists fp', outwnd_add sock_100_115 (Some blank_pktdesc) = Ok fp'
                  /\ outwnd_inv fp')
  /\ (exists fp', outwnd_pop sock_100_115 110
                  = Ok (bin_at sock_100_115 (outwnd_pos 110), fp')
                  /\ outwnd_inv fp')
  /\ (exists fp', outwnd_reset 257 sock_100_115 = Ok fp' /\ outwnd_inv fp'
                  /\ tx_num_unacked fp' = 0).
Proof.
  split; [exact sock_100_115_inv|].
  destruct (outwnd_operations_preserve_invariants sock_100_115 sock_100_115_inv)
    as (Hadd & Hpop & Hreset).
  split; [|split].
  - apply (proj1 (Hadd blank_pktdesc)). vm_compute. reflexivity.
  - apply (proj1 (Hpop 110)). vm_compute. reflexivity.
  - apply Hreset. lia.
Defined.

(** C5. For a state that satisfies the window invariants and a seqno [s] of
    the window ([next_seqno - 256 <= s < next_seqno], read modulo 2^64 as
    [in_outwnd]), [outwnd_at_or_before] returns [s - s'] for the highest
    occupied seqno [s' <= s], and it returns -1 exactly when no seqno of the
    window at or before [s] is occupied.  For seqnos of the window, [t <= s]
    is [behind fp s <= behind fp t]. *)
Theorem outwnd_at_or_before_correct (fp : fastpass_sock) (s : Z) :
  outwnd_inv fp -> in_outwnd fp s ->
  exists r,
    outwnd_at_or_before fp s = Ok r
    /\ (r = -1 <->
        forall t, in_outwnd fp t -> behind fp s <= behind fp t ->
                  outwnd_is_unacked fp t = false)
    /\ (r <> -1 ->
        0 <= r
        /\ in_outwnd fp (sub64 s r)
        /\ behind fp (sub64 s r) = behind fp s + r
        /\ outwnd_is_unacked fp (sub64 s r) = true
        /\ forall t, in_outwnd fp t -> behind fp s <= behind fp t ->
                     outwnd_is_unacked fp t = true ->
                     behind fp (sub64 s r) <= behind fp t).
Proof.
  intros Hinv Hin. pose proof (behind_range fp s) as Hk.
  destruct (outwnd_at_or_before_spec fp s Hinv Hin)
    as [[E Hnone] | (g & Hg & Hkg & E & Hocc & Hgap)].
  - exists (-1). split; [exact E|]. split.
    + split; [|reflexivity]. intros _ t Ht Hle. apply Hnone.
      unfold in_outwnd, FASTPASS_OUTWND_LEN in Ht. lia.
    + intros Hne. contradiction.
  - assert (Hb : behind fp (sub64 s g) = behind fp s + g)
      by (apply behind_sub64; lia).
    exists g. split; [exact E|]. split.
    + split; [lia|]. intros Hall. rewrite Hall in Hocc; [discriminate | | lia].
      unfold in_outwnd, FASTPASS_OUTWND_LEN. lia.
    + intros _. split; [assumption|]. split.
      * unfold in_outwnd, FASTPASS_OUTWND_LEN. lia.
      * split; [assumption|]. split; [assumption|].
        intros t Ht Hle Htocc.
        destruct (Z.lt_ge_cases (behind fp t) (behind fp (sub64 s g))); [|lia].
        rewrite Hgap in Htocc by lia. discriminate.
Qed.

Lemma outwnd_at_or_before_correct_witness :
  outwnd_inv sock_100_115 /\ in_outwnd sock_100_115 20
  /\ exists r, outwnd_at_or_before sock_100_115 20 = Ok r /\ r = -1.
Proof.
  assert (Hin : in_outwnd sock_100_115 20) by (vm_compute; reflexivity).
  split; [exact sock_100_115_inv|]. split; [exact Hin|].
  destruct (outwnd_at_or_before_correct sock_100_115 20 sock_100_115_inv Hin)
    as (r & E & _ & _).
  exists r. split; [exact E|].
  assert (E' : outwnd_at_or_before sock_100_115 20 = Ok (-1))
    by (vm_compute; reflexivity).
  rewrite E' in E. injection E as <-. reflexivity.
Defined.

Lemma reachable_inv fp : reachable fp -> outwnd_inv fp.
Proof.
  induction 1 as [fp Hm Hb Ht | fp pd fp' _ IH E | fp s pd fp' _ IH _ E
                 | fp fp' _ IH _ Hm Hb Ht].
  4: { revert IH. apply outwnd_inv_window; assumption. }
  - split.
    + rewrite Hb. apply length_replicate.
    + intros i Hi. unfold bin_at. rewrite Hm, Hb, Z.bits_0.
      destruct (replicate _ _ !! _) as [x|] eqn:El.
      * apply lookup_replicate in El. destruct El as [-> _].
        split; [intros [? ?]; discriminate | discriminate].
      * split; [intros [? ?]; discriminate | discriminate].
    + intros i Hi. rewrite Hm, !Z.bits_0. reflexivity.
    + rewrite Hm, Ht. symmetry. apply popcount_below_clear.
      intros. apply Z.bits_0.
  - destruct (outwnd_is_unacked fp (sub64 (next_seqno fp) FASTPASS_OUTWND_LEN))
      eqn:Hedge.
    + unfold outwnd_add in E. rewrite Hedge in E. discriminate.
    + destruct (outwnd_add_spec fp pd IH Hedge) as (fp2 & E2 & Hinv2 & _).
      congruence.
  - destruct (outwnd_is_unacked fp s) eqn:Hocc.
    + destruct (outwnd_pop_spec fp s IH Hocc) as (fp2 & E2 & Hinv2 & _).
      congruence.
    + unfold outwnd_pop in E. rewrite Hocc in E. discriminate.
Qed.

(** C6, amended. For every non-empty window reached by adds and pops,
    [outwnd_earliest_unacked] returns the minimum occupied seqno.
    [outwnd_earliest_unacked_hint fp h] returns the smallest occupied seqno
    at or after [h] when [h] is in the window, an occupied slot exists at or
    after [h], and no slot before [h] is occupied; that seqno is then the
    minimum occupied seqno of the window. *)
Theorem outwnd_earliest_unacked_minimum (fp : fastpass_sock) :
  (reachable fp -> outwnd_empty fp = false ->
   exists e,
     outwnd_earliest_unacked fp = Ok e
     /\ in_outwnd fp e /\ outwnd_is_unacked fp e = true
     /\ forall t, in_outwnd fp t -> outwnd_is_unacked fp t = true ->
                  behind fp t <= behind fp e)
  /\ (forall hint occ,
        outwnd_inv fp -> in_outwnd fp hint ->
        behind fp occ <= behind fp hint -> outwnd_is_unacked fp occ = true ->
        (forall t, in_outwnd fp t -> behind fp hint < behind fp t ->
                   outwnd_is_unacked fp t = false) ->
        exists e,
          outwnd_earliest_unacked_hint fp hint = Ok e
          /\ in_outwnd fp e /\ behind fp e <= behind fp hint
          /\ outwnd_is_unacked fp e = true
          /\ forall t, in_outwnd fp t -> outwnd_is_unacked fp t = true ->
                       behind fp t <= behind fp e).
Proof.
  split.
  - intros Hreach Hne. pose proof (reachable_inv fp Hreach) as Hinv.
    unfold outwnd_empty in Hne. apply Z.eqb_neq in Hne.
    destruct (outwnd_earliest_unacked_spec fp Hinv Hne) as (e & E & Hin & Hocc & Hmin).
    exists e. repeat (split; [assumption|]).
    intros t Ht Htocc.
    destruct (Z.le_gt_cases (behind fp t) (behind fp e)); [assumption|].
    rewrite Hmin in Htocc by (try assumption; lia). discriminate.
  - intros hint occ Hinv Hin Hle Hocc Hbefore.
    destruct (outwnd_earliest_unacked_hint_spec fp hint occ Hinv Hin Hle Hocc)
      as (e & He & He_occ & Hbetween & Hok & _).
    unfold in_outwnd, FASTPASS_OUTWND_LEN in *.
    exists e. split.
    + apply Hok. intros t Ht. apply Hbefore; lia.
    + split; [lia|]. split; [lia|]. split; [assumption|].
      intros t Ht Htocc.
      destruct (Z.le_gt_cases (behind fp t) (behind fp e)); [assumption|].
      destruct (Z.le_gt_cases (behind fp t) (behind fp hint)).
      * rewrite Hbetween in Htocc by lia. discriminate.
      * rewrite Hbefore in Htocc by (try assumption; lia). discriminate.
Qed.

Lemma is_unacked_by_distance fp t :
  outwnd_is_unacked fp t
  = Z.testbit (bin_mask fp)
      ((outwnd_pos (sub64 (next_seqno fp) 1) + behind fp t) mod 256).
Proof. unfold outwnd_is_unacked. rewrite (outwnd_pos_behind fp t). reflexivity. Qed.

(** In [sock_100_115] nothing is outstanding before seqno 100. *)
Lemma sock_100_115_free_before_100 t :
  in_outwnd sock_100_115 t -> behind sock_100_115 100 < behind sock_100_115 t ->
  outwnd_is_unacked sock_100_115 t = false.
Proof.
  intros Hin Hlt. pose proof (behind_range sock_100_115 t) as Hr.
  assert (H100 : behind sock_100_115 100 = 15) by (vm_compute; reflexivity).
  unfold in_outwnd, FASTPASS_OUTWND_LEN in Hin.
  assert (Hall : forallb (fun k =>
            negb (Z.testbit (bin_mask sock_100_115)
                    ((outwnd_pos (sub64 (next_seqno sock_100_115) 1) + k) mod 256)))
            (seqZ 16 240) = true) by (vm_compute; reflexivity).
  rewrite forallb_forall in Hall.
  assert (Hk : In (behind sock_100_115 t) (seqZ 16 240))
    by (apply list_elem_of_In, elem_of_seqZ; lia).
  specialize (Hall _ Hk). rewrite is_unacked_by_distance.
  destruct (Z.testbit _ _); [discriminate Hall | reflexivity].
Qed.

Lemma outwnd_earliest_unacked_minimum_witness :
  (reachable sock_one_packet /\ outwnd_empty sock_one_packet = false
   /\ exists e, outwnd_earliest_unacked sock_one_packet = Ok e
                /\ outwnd_is_unacked sock_one_packet e = true)
  /\ (in_outwnd sock_100_115 100
      /\ behind sock_100_115 105 <= behind sock_100_115 100
      /\ outwnd_is_unacked sock_100_115 105 = true
      /\ exists e, outwnd_earliest_unacked_hint sock_100_115 100 = Ok e
                   /\ outwnd_is_unacked sock_100_115 e = true).
Proof.
  assert (Hreach : reachable sock_one_packet).
  { apply (reach_add (fresh_sock 100) blank_pktdesc).
    - apply reach_empty; reflexivity.
    - vm_compute. reflexivity. }
  assert (Hne : outwnd_empty sock_one_packet = false) by (vm_compute; reflexivity).
  assert (Hin : in_outwnd sock_100_115 100) by (vm_compute; reflexivity).
  assert (Hle : behind sock_100_115 105 <= behind sock_100_115 100)
    by (vm_compute; discriminate).
  assert (Hocc : outwnd_is_unacked sock_100_115 105 = true)
    by (vm_compute; reflexivity).
  split.
  - split; [exact Hreach|]. split; [exact Hne|].
    destruct (proj1 (outwnd_earliest_unacked_minimum sock_one_packet) Hreach Hne)
      as (e & E & _ & He & _).
    exists e. split; assumption.
  - split; [exact Hin|]. split; [exact Hle|]. split; [exact Hocc|].
    destruct (proj2 (outwnd_earliest_unacked_minimum sock_100_115) 100 105
                sock_100_115_inv Hin Hle Hocc sock_100_115_free_before_100)
      as (e & E & _ & _ & He & _).
    exists e. split; assumption.
Defined.

(** C6 as stated fails: with seqnos 100..115 outstanding and the hint 105,
    which is in the window and occupied, the function does not return 105;
    its assertion that nothing earlier is outstanding aborts. *)
Lemma outwnd_earliest_unacked_hint_aborts :
  in_outwnd sock_100_115 105
  /\ outwnd_is_unacked sock_100_115 105 = true
  /\ outwnd_earliest_unacked_hint sock_100_115 105 = Bug.
Proof. vm_compute. repeat split. Qed.

(** ** Sending *)

Lemma fpproto_commit_packet_ok fp pd ts :
  outwnd_inv fp ->
  outwnd_is_unacked fp (sub64 (next_seqno fp) FASTPASS_OUTWND_LEN) = false ->
  exists fp', fpproto_commit_packet fp pd ts = Ok fp'.
Proof.
  intros Hinv Hfree. unfold fpproto_commit_packet.
  destruct (outwnd_add_spec fp
              {| seqno := next_seqno fp; sent_timestamp := ts;
                 send_reset := negb (in_sync fp);
                 reset_timestamp := last_reset_time fp; areq := areq pd |}
              Hinv Hfree) as (fp1 & E & _).
  rewrite E. simpl_result.
  destruct (tx_num_unacked fp1 =? 1); eexists; reflexivity.
Qed.

(** Apart from the timer and [earliest_unacked],
    [cancel_and_reset_retrans_timer] leaves the session as it is. *)
Lemma cancel_and_reset_frame fp fp' :
  cancel_and_reset_retrans_timer fp = Ok fp' ->
  next_seqno fp' = next_seqno fp /\ bin_mask fp' = bin_mask fp
  /\ bins fp' = bins fp /\ tx_num_unacked fp' = tx_num_unacked fp
  /\ calls fp' = calls fp /\ ops fp' = ops fp
  /\ send_timeout_us fp' = send_timeout_us fp
  /\ stat_fall_off_outwnd fp' = stat_fall_off_outwnd fp.
Proof.
  unfold cancel_and_reset_retrans_timer.
  destruct (hrtimer_try_to_cancel (retrans_timer fp)) as [ret timer].
  destruct (negb (ret =? 0)); [intros [= <-]; repeat split|].
  destruct (outwnd_empty _); [intros [= <-]; repeat split|].
  destruct (outwnd_earliest_unacked _) as [e| |]; simpl_result; try discriminate.
  destruct (outwnd_timestamp _ e) as [stamp| |]; simpl_result; try discriminate.
  intros [= <-]. repeat split.
Qed.

(** C9. When the slot of seqno [next_seqno - 256] is free,
    [fpproto_prepare_to_send] changes nothing.  When it is occupied, the
    function counts a fall-off, pops that descriptor and hands it to
    [handle_neg_ack] (or frees it when no callback is installed), and the
    slot is free afterwards, so that a commit can follow.  The timer,
    however, is reset only if it was idle: then it is armed for the oldest
    seqno still outstanding, which [earliest_unacked] names, or left idle
    on an empty window.  If the timer was pending, which it is whenever a
    commit armed it and nothing has touched it since, it ends cancelled and
    is not armed again, and [earliest_unacked] keeps its old value; while
    the callback runs nothing is done to the timer. *)
Theorem fpproto_prepare_to_send_outcome (fp : fastpass_sock) :
  outwnd_inv fp ->
  let window_edge := sub64 (next_seqno fp) FASTPASS_OUTWND_LEN in
  (outwnd_is_unacked fp window_edge = false -> fpproto_prepare_to_send fp = Ok fp)
  /\ (outwnd_is_unacked fp window_edge = true ->
      exists fp',
        fpproto_prepare_to_send fp = Ok fp'
        /\ is_Some (bin_at fp (outwnd_pos window_edge))
        /\ calls fp' = calls fp ++ [neg_ack_call fp window_edge]
        /\ stat_fall_off_outwnd fp' = add64 (stat_fall_off_outwnd fp) 1
        /\ tx_num_unacked fp' = tx_num_unacked fp - 1
        /\ (forall i, 0 <= i ->
              bin_at fp' i
              = if outwnd_pos window_edge =? i then None else bin_at fp i)
        /\ (forall t, outwnd_is_unacked fp' t
                      = outwnd_is_unacked fp t
                        && negb (outwnd_pos window_edge =? outwnd_pos t))
        /\ match retrans_timer fp with
           | TimerEnqueued _ =>
               retrans_timer fp' = TimerInactive
               /\ earliest_unacked fp' = earliest_unacked fp
           | TimerCallbackRunning =>
               retrans_timer fp' = TimerCallbackRunning
               /\ earliest_unacked fp' = earliest_unacked fp
           | TimerInactive =>
               if outwnd_empty fp'
               then retrans_timer fp' = TimerInactive
                    /\ earliest_unacked fp' = earliest_unacked fp
               else exists pd,
                      in_outwnd fp' (earliest_unacked fp')
                      /\ outwnd_is_unacked fp' (earliest_unacked fp') = true
                      /\ (forall t, in_outwnd fp' t ->
                            behind fp' (earliest_unacked fp') < behind fp' t ->
                            outwnd_is_unacked fp' t = false)
                      /\ bin_at fp' (outwnd_pos (earliest_unacked fp')) = Some pd
                      /\ retrans_timer fp'
                         = TimerEnqueued
                             (add64 (sent_timestamp pd) (send_timeout_us fp))
           end)
  /\ (exists fp',
        fpproto_prepare_to_send fp = Ok fp'
        /\ outwnd_inv fp'
        /\ next_seqno fp' = next_seqno fp
        /\ outwnd_is_unacked fp' (sub64 (next_seqno fp') FASTPASS_OUTWND_LEN) = false
        /\ forall pd timestamp,
             exists fp'', fpproto_commit_packet fp' pd timestamp = Ok fp'').
Proof.
  intros Hinv window_edge.
  assert (Hfree_case : outwnd_is_unacked fp window_edge = false ->
                       fpproto_prepare_to_send fp = Ok fp).
  { intros Hfree. unfold fpproto_prepare_to_send. fold window_edge.
    rewrite Hfree. reflexivity. }
  assert (Hocc_case : outwnd_is_unacked fp window_edge = true ->
    exists fp1 fp',
      do_neg_ack_seqno
        (set_stat_fall_off_outwnd fp (add64 (stat_fall_off_outwnd fp) 1))
        window_edge = Ok fp1
      /\ cancel_and_reset_retrans_timer fp1 = Ok fp'
      /\ fpproto_prepare_to_send fp = Ok fp'
      /\ outwnd_inv fp1 /\ outwnd_inv fp'
      /\ same_session
           (set_stat_fall_off_outwnd fp (add64 (stat_fall_off_outwnd fp) 1)) fp1
      /\ is_Some (bin_at fp (outwnd_pos window_edge))
      /\ calls fp1 = calls fp ++ [neg_ack_call fp window_edge]
      /\ tx_num_unacked fp1 = tx_num_unacked fp - 1
      /\ (forall i, 0 <= i ->
            bin_at fp1 i
            = if outwnd_pos window_edge =? i then None else bin_at fp i)
      /\ (forall t, outwnd_is_unacked fp1 t
                    = outwnd_is_unacked fp t
                      && negb (outwnd_pos window_edge =? outwnd_pos t))).
  { intros Hocc.
    set (fp0 := set_stat_fall_off_outwnd fp (add64 (stat_fall_off_outwnd fp) 1)).
    assert (Hinv0 : outwnd_inv fp0)
      by (revert Hinv; apply outwnd_inv_window; reflexivity).
    destruct (do_neg_ack_seqno_spec fp0 window_edge Hinv0 Hocc)
      as (fp1 & E1 & Hinv1 & Hsame1 & Hcalls1 & Hsome & Htx1 & Hbins1 & Hbits1).
    destruct (cancel_and_reset_ok fp1 Hinv1) as (fp' & E' & Hinv' & _).
    exists fp1, fp'. split; [exact E1|]. split; [exact E'|]. split.
    { unfold fpproto_prepare_to_send. fold window_edge. rewrite Hocc.
      fold fp0. rewrite E1. simpl_result. exact E'. }
    split; [exact Hinv1|]. split; [exact Hinv'|]. split; [exact Hsame1|].
    split; [exact Hsome|]. split; [exact Hcalls1|]. split; [exact Htx1|].
    split; [exact Hbins1 | exact Hbits1]. }
  split; [exact Hfree_case|]. split.
  - intros Hocc.
    destruct (Hocc_case Hocc)
      as (fp1 & fp' & E1 & E' & E & Hinv1 & Hinv' & Hsame1 & Hsome & Hcalls1
          & Htx1 & Hbins1 & Hbits1).
    destruct (cancel_and_reset_frame fp1 fp' E')
      as (Hnext' & Hmask' & Hbins' & Htx' & Hcalls' & Hops' & Hto' & Hstat').
    destruct Hsame1 as (Hnext1 & Hearliest1 & _ & _ & Hto1 & _ & Htimer1 & _ & _
                        & _ & _ & _ & Hstat1).
    cbn in Hnext1, Hearliest1, Hto1, Htimer1, Hstat1.
    exists fp'. split; [exact E|]. split; [exact Hsome|].
    split; [congruence|]. split; [congruence|]. split; [congruence|].
    split.
    { intros i Hi. unfold bin_at. rewrite Hbins'. apply Hbins1. exact Hi. }
    split.
    { intros t. rewrite (is_unacked_same fp1 fp') by exact Hmask'. apply Hbits1. }
    destruct (retrans_timer fp) as [|expires|] eqn:Htimer.
    + (* idle *)
      unfold outwnd_empty. rewrite Htx'.
      destruct (Z.eqb_spec (tx_num_unacked fp1) 0) as [Hz|Hnz].
      * unfold cancel_and_reset_retrans_timer, outwnd_empty in E'.
        rewrite Htimer1 in E'. cbn in E'. rewrite Hz in E'. cbn in E'.
        injection E' as <-. cbn. split; [reflexivity | exact Hearliest1].
      * destruct (cancel_and_reset_inactive fp1 Hinv1 Htimer1 Hnz)
          as (e & pd & Ee & Hpd & Erearm).
        destruct (outwnd_earliest_unacked_spec fp1 Hinv1 Hnz)
          as (e' & Ee' & Hin & Hocce & Hmin).
        assert (e' = e) by congruence. subst e'.
        rewrite Erearm in E'. injection E' as <-.
        exists pd. cbn [rearmed earliest_unacked set_retrans_timer
                        set_earliest_unacked retrans_timer].
        split; [exact Hin|]. split; [exact Hocce|]. split; [exact Hmin|].
        split; [exact Hpd|]. rewrite Hto1. reflexivity.
    + (* pending *)
      unfold cancel_and_reset_retrans_timer in E'. rewrite Htimer1 in E'.
      cbn in E'. injection E' as <-. cbn. split; [reflexivity | exact Hearliest1].
    + (* the callback is running *)
      unfold cancel_and_reset_retrans_timer in E'. rewrite Htimer1 in E'.
      cbn in E'. injection E' as <-. cbn. split; [reflexivity | exact Hearliest1].
  - destruct (outwnd_is_unacked fp window_edge) eqn:Hedge.
    + destruct (Hocc_case eq_refl)
        as (fp1 & fp' & E1 & E' & E & Hinv1 & Hinv' & Hsame1 & _ & _ & _ & _
            & Hbits1).
      destruct (cancel_and_reset_frame fp1 fp' E') as (Hnext' & Hmask' & _).
      assert (Hnext : next_seqno fp' = next_seqno fp)
        by (rewrite Hnext'; apply Hsame1).
      assert (Hfree' : outwnd_is_unacked fp' window_edge = false).
      { rewrite (is_unacked_same fp1 fp') by exact Hmask'.
        rewrite Hbits1, Z.eqb_refl. apply andb_false_r. }
      exists fp'. split; [exact E|]. split; [exact Hinv'|]. split; [exact Hnext|].
      rewrite Hnext. fold window_edge. split; [exact Hfree'|].
      intros pd ts. apply fpproto_commit_packet_ok; [exact Hinv'|].
      rewrite Hnext. exact Hfree'.
    + exists fp. split; [apply Hfree_case; reflexivity|]. split; [exact Hinv|].
      split; [reflexivity|]. split; [exact Hedge|].
      intros pd ts. apply fpproto_commit_packet_ok; assumption.
Qed.

Lemma sock_full_committed : commit_many 256 0 (fresh_sock 100) = Ok sock_full.
Proof. vm_compute. reflexivity. Qed.

Lemma sock_full_inv : outwnd_inv sock_full.
Proof. apply outwnd_inv_b_sound. vm_compute. reflexivity. Qed.

(** On the full window of seqnos 100..355, sent at times 0..255 with the
    timer pending for 1000: seqno 100 is handed over and the 255 seqnos
    from 101 on stay outstanding, the oldest with its deadline at 1001, but
    the timer ends idle and [earliest_unacked] still names seqno 100. *)
Lemma fpproto_prepare_to_send_outcome_witness :
  outwnd_inv sock_full
  /\ outwnd_is_unacked sock_full
       (sub64 (next_seqno sock_full) FASTPASS_OUTWND_LEN) = true
  /\ retrans_timer sock_full = TimerEnqueued 1000
  /\ (exists fp',
        fpproto_prepare_to_send sock_full = Ok fp'
        /\ calls fp' = [neg_ack_call sock_full 100]
        /\ stat_fall_off_outwnd fp' = 1
        /\ tx_num_unacked fp' = 255
        /\ outwnd_is_unacked fp' 100 = false
        /\ outwnd_is_unacked fp' 101 = true
        /\ outwnd_timestamp fp' 101 = Ok 1
        /\ retrans_timer fp' = TimerInactive
        /\ earliest_unacked fp' = 100)
  /\ outwnd_is_unacked sock_100_115
       (sub64 (next_seqno sock_100_115) FASTPASS_OUTWND_LEN) = false
  /\ fpproto_prepare_to_send sock_100_115 = Ok sock_100_115.
Proof.
  assert (Hocc : outwnd_is_unacked sock_full
            (sub64 (next_seqno sock_full) FASTPASS_OUTWND_LEN) = true)
    by (vm_compute; reflexivity).
  assert (Hfree : outwnd_is_unacked sock_100_115
            (sub64 (next_seqno sock_100_115) FASTPASS_OUTWND_LEN) = false)
    by (vm_compute; reflexivity).
  assert (Htimer : retrans_timer sock_full = TimerEnqueued 1000)
    by (vm_compute; reflexivity).
  split; [exact sock_full_inv|]. split; [exact Hocc|]. split; [exact Htimer|].
  split.
  - destruct (fpproto_prepare_to_send_outcome sock_full sock_full_inv)
      as (_ & Hcase & _).
    destruct (Hcase Hocc)
      as (fp' & E & _ & Hcalls & Hstat & Htx & Hbins & Hbits & Hlost).
    rewrite Htimer in Hlost. destruct Hlost as [Hidle Hstale].
    exists fp'. split; [exact E|]. split; [exact Hcalls|].
    split; [exact Hstat|]. split; [exact Htx|].
    split; [rewrite Hbits; vm_compute; reflexivity|].
    split; [rewrite Hbits; vm_compute; reflexivity|].
    split.
    { pose proof (Hbins (outwnd_pos 101) (proj1 (outwnd_pos_range 101))) as Hb.
      unfold outwnd_timestamp. rewrite Hb. vm_compute. reflexivity. }
    split; [exact Hidle | exact Hstale].
  - split; [exact Hfree|].
    exact (proj1 (fpproto_prepare_to_send_outcome sock_100_115 sock_100_115_inv)
             Hfree).
Defined.

(** ** The ACK processor *)

(** C10. [fpproto_handle_ack] terminates from every state that satisfies
    the window invariants, whatever the payload: the run loop shifts
    nibbles out of the 32-bit field and goes round again only while the
    field is not zero, and every acknowledgement pops an occupied slot, so
    the number of arrivals at a label is at most the occupancy of the
    window plus fourteen.  With that much fuel the model returns, and more
    fuel does not change what it returns. *)
Theorem fpproto_handle_ack_terminates (fp : fastpass_sock)
    (ack_seq ack_runlen : Z) :
  outwnd_inv fp ->
  exists fp',
    outwnd_inv fp'
    /\ tx_num_unacked fp' <= tx_num_unacked fp
    /\ forall fuel, tx_num_unacked fp + 14 <= Z.of_nat fuel ->
                    fpproto_handle_ack fuel fp ack_seq ack_runlen = Ok fp'.
Proof.
  intros Hinv. pose proof (tx_num_unacked_bounds fp Hinv) as Htx.
  destruct (Z.lt_ge_cases (behind fp (ack_full_seqno fp ack_seq)) FASTPASS_OUTWND_LEN)
    as [Hin|Hout].
  - destruct (fpproto_handle_ack_spec (Z.to_nat (tx_num_unacked fp + 14)) fp ack_seq
                ack_runlen Hinv Hin)
      as (fp' & l & E & Hinv' & Hnext & _ & _ & Hbits); [lia|].
    exists fp'. split; [exact Hinv'|]. split.
    + rewrite (inv_count _ Hinv), (inv_count _ Hinv').
      assert (Hmono : forall n, (n <= Z.to_nat FASTPASS_OUTWND_LEN)%nat ->
                popcount_below (bin_mask fp') n <= popcount_below (bin_mask fp) n).
      { induction n as [|n IH]; intros Hn; cbn [popcount_below]; [lia|].
        assert (Hi : 0 <= Z.of_nat n < 256) by (unfold FASTPASS_OUTWND_LEN in Hn; lia).
        destruct (window_covers_mask fp (Z.of_nat n) Hi) as (t & Ht & Epos).
        specialize (Hbits t Ht). unfold outwnd_is_unacked in Hbits.
        rewrite Epos in Hbits. rewrite Hbits.
        specialize (IH ltac:(lia)).
        destruct (Z.testbit (bin_mask fp) (Z.of_nat n)), (negb _); cbn [andb]; lia. }
      apply Hmono. lia.
    + intros fuel Hfuel.
      apply (fpproto_handle_ack_mono (Z.to_nat (tx_num_unacked fp + 14))); [exact E | lia].
  - exists (set_stat_too_early_ack fp (add64 (stat_too_early_ack fp) 1)).
    split; [revert Hinv; apply outwnd_inv_window; reflexivity|].
    split; [cbn; lia|].
    intros fuel _. apply fpproto_handle_ack_early. unfold in_outwnd. lia.
Qed.

Lemma fpproto_handle_ack_terminates_witness :
  outwnd_inv sock_100_115
  /\ exists fp', fpproto_handle_ack 30 sock_100_115 115 0x03480000 = Ok fp'.
Proof.
  split; [exact sock_100_115_inv|].
  destruct (fpproto_handle_ack_terminates sock_100_115 115 0x03480000
              sock_100_115_inv) as (fp' & _ & _ & Hret).
  exists fp'. apply Hret. vm_compute. discriminate.
Defined.

(** C1, amended. The top nibble of the run-length field is shifted out
    unread, and the first nibble processed after that shift is the length
    of a positive run: the occupied seqnos that it covers just below the
    carried seqno are popped and delivered as acknowledgements.  The nibble
    after it is the length of a negative run, whose seqnos are left as they
    were.  With seqnos 100..115 outstanding and the carried seqno 115, the
    runs 3, 4, 8 after the skipped nibble acknowledge 115, 114..112 and
    107..100, and handle_ack is delivered for exactly 115, 111, 110, 109,
    108 when the nibbles after the skipped one are 0, 3, 4, 8. *)
Theorem ack_runlen_first_nibble_positive :
  (forall fuel fp ack_seq R n0,
     fpproto_handle_ack fuel fp ack_seq (R + n0 * 2 ^ 28)
     = fpproto_handle_ack fuel fp ack_seq R)
  /\ acked_seqnos (calls_of (fpproto_handle_ack 30 sock_100_115 115 0x03480000))
     = [115; 114; 113; 112; 107; 106; 105; 104; 103; 102; 101; 100]
  /\ acked_seqnos (calls_of (fpproto_handle_ack 30 sock_100_115 115 0x00348000))
     = [115; 111; 110; 109; 108]
  /\ (forall (fuel : nat) fp ack_seq R,
        outwnd_inv fp -> in_outwnd fp (ack_full_seqno fp ack_seq) ->
        tx_num_unacked fp + 14 <= Z.of_nat fuel ->
        let carried := behind fp (ack_full_seqno fp ack_seq) in
        let first_nibble := Z.shiftr (shl32 R 4) 28 in
        let second_nibble := Z.shiftr (shl32 (shl32 R 4) 4) 28 in
        exists fp',
          fpproto_handle_ack fuel fp ack_seq R = Ok fp'
          /\ (forall t,
                in_outwnd fp t ->
                1 <= behind fp t - carried <= first_nibble ->
                outwnd_is_unacked fp t = true ->
                outwnd_is_unacked fp' t = false
                /\ In (ack_call fp t) (calls fp'))
          /\ (forall t,
                in_outwnd fp t ->
                first_nibble < behind fp t - carried
                  <= first_nibble + second_nibble ->
                outwnd_is_unacked fp' t = outwnd_is_unacked fp t)).
Proof.
  split; [|split; [|split]].
  - intros fuel fp ack_seq R n0. unfold fpproto_handle_ack.
    rewrite shl32_top_nibble. reflexivity.
  - vm_compute. reflexivity.
  - vm_compute. reflexivity.
  - intros fuel fp ack_seq R Hinv Hin Hfuel. cbv zeta.
    destruct (fpproto_handle_ack_spec fuel fp ack_seq R Hinv Hin Hfuel)
      as (fp' & l & E & Hinv' & Hnext & Hcalls & Hl & Hbits).
    exists fp'. split; [exact E|]. split.
    + intros t Ht Hrun Hocc.
      assert (Hsel : ack_selects R
                       (behind fp t - behind fp (ack_full_seqno fp ack_seq))
                     = true).
      { unfold ack_selects. rewrite cov_open by lia. apply orb_true_r. }
      split.
      * rewrite Hbits, Hsel by assumption. apply andb_false_r.
      * rewrite Hcalls. apply in_or_app. right.
        assert (Hnorm : In (to_u64 t) l).
        { apply Hl. assert (Hb : behind fp (to_u64 t) = behind fp t).
          { unfold behind, to_u64. mod_lia. }
          split; [apply Z.mod_pos_bound; lia|]. unfold in_outwnd. rewrite Hb.
          split; [exact Ht|]. split; [|exact Hsel].
          unfold outwnd_is_unacked. rewrite outwnd_pos_to_u64. exact Hocc. }
        apply (in_map (ack_call fp)) in Hnorm.
        unfold ack_call in Hnorm at 1. rewrite outwnd_pos_to_u64 in Hnorm.
        exact Hnorm.
    + intros t Ht Hrun. rewrite Hbits by assumption.
      assert (Hr1 : 0 <= shl32 R 4 < 2 ^ 32) by (apply Z.mod_pos_bound; lia).
      assert (Hr2 : 0 <= shl32 (shl32 R 4) 4 < 2 ^ 32)
        by (apply Z.mod_pos_bound; lia).
      assert (Hr3 : 0 <= shl32 (shl32 (shl32 R 4) 4) 4 < 2 ^ 32)
        by (apply Z.mod_pos_bound; lia).
      pose proof (nibble_range _ Hr1) as Hn1.
      pose proof (nibble_range _ Hr2) as Hn2.
      pose proof (nibble_range _ Hr3) as Hn3.
      assert (Hsel : ack_selects R
                       (behind fp t - behind fp (ack_full_seqno fp ack_seq))
                     = false).
      { unfold ack_selects.
        set (d := behind fp t - behind fp (ack_full_seqno fp ack_seq)) in *.
        destruct (Z.eqb_spec d 0); [lia|]. cbn [orb]. rewrite cov_step.
        destruct (Z.ltb_spec d (1 + Z.shiftr (shl32 R 4) 28)); [lia|].
        rewrite andb_false_r. cbn [orb].
        destruct (shl32 (shl32 R 4) 4 =? 0); [reflexivity|].
        apply cov_below; [apply Z.mod_pos_bound; lia | lia | lia]. }
      rewrite Hsel. apply andb_true_r.
Qed.

Lemma ack_runlen_first_nibble_positive_witness :
  outwnd_inv sock_100_115
  /\ in_outwnd sock_100_115 (ack_full_seqno sock_100_115 115)
  /\ exists fp',
       fpproto_handle_ack 30 sock_100_115 115 0x03480000 = Ok fp'
       /\ (outwnd_is_unacked fp' 114 = false
           /\ In (ack_call sock_100_115 114) (calls fp'))
       /\ outwnd_is_unacked fp' 110 = outwnd_is_unacked sock_100_115 110.
Proof.
  assert (Hin : in_outwnd sock_100_115 (ack_full_seqno sock_100_115 115))
    by (vm_compute; reflexivity).
  split; [exact sock_100_115_inv|]. split; [exact Hin|].
  destruct ack_runlen_first_nibble_positive as (_ & _ & _ & Hgen).
  destruct (Hgen 30%nat sock_100_115 115 0x03480000 sock_100_115_inv Hin)
    as (fp' & E & Hpos & Hneg).
  - vm_compute. discriminate.
  - exists fp'. split; [exact E|]. split.
    + apply Hpos.
      * vm_compute. reflexivity.
      * vm_compute. split; discriminate.
      * vm_compute. reflexivity.
    + apply Hneg.
      * vm_compute. reflexivity.
      * vm_compute. split; [reflexivity | discriminate].
Defined.

(** C1 as stated fails: with seqnos 100..115 outstanding, the carried seqno
    115 and the runs 3, 4, 8 after the skipped nibble, seqno 114 is
    acknowledged, so the acknowledged seqnos are not 115, 111, 110, 109,
    108. *)
Lemma ack_runlen_first_nibble_not_negative :
  ~ (forall s,
       In s (acked_seqnos
               (calls_of (fpproto_handle_ack 30 sock_100_115 115 0x03480000)))
       <-> In s [115; 111; 110; 109; 108]).
Proof.
  assert (E : acked_seqnos
                (calls_of (fpproto_handle_ack 30 sock_100_115 115 0x03480000))
              = [115; 114; 113; 112; 107; 106; 105; 104; 103; 102; 101; 100])
    by (vm_compute; reflexivity).
  rewrite E. intros H.
  destruct (proj1 (H 114)) as [Hc|[Hc|[Hc|[Hc|[Hc|[]]]]]]; try discriminate Hc.
  right. left. reflexivity.
Qed.

(** ** The retransmission timer *)

(** C2 fails on the code. [hrtimer_try_to_cancel] returns 1 when it has
    removed a pending timer, and [cancel_and_reset_retrans_timer] returns
    on every non-zero value: a pending timer is cancelled and not armed
    again, and [earliest_unacked] is not updated, although the window is
    not empty. *)
Theorem cancel_and_reset_loses_pending_timer :
  (forall fp expires,
     cancel_and_reset_retrans_timer (set_retrans_timer fp (TimerEnqueued expires))
     = Ok (set_retrans_timer fp TimerInactive))
  /\ (retrans_timer sock_100_115 = TimerEnqueued 1000
      /\ outwnd_empty sock_100_115 = false
      /\ cancel_and_reset_retrans_timer sock_100_115
         = Ok (set_retrans_timer sock_100_115 TimerInactive)).
Proof.
  split.
  - intros fp expires. reflexivity.
  - vm_compute. repeat split.
Qed.

(** * Further properties of the code *)

(** ** The outstanding window as a store *)

(** X1. A descriptor added to the window is the one that popping its seqno
    returns, and the pop undoes the add: the bitmap, the slots and the
    count are as before the add, and only [next_seqno] has advanced. *)
Theorem outwnd_add_then_pop fp pd :
  outwnd_inv fp ->
  outwnd_is_unacked fp (sub64 (next_seqno fp) FASTPASS_OUTWND_LEN) = false ->
  exists fp1 fp2,
    outwnd_add fp (Some pd) = Ok fp1
    /\ outwnd_pop fp1 (next_seqno fp) = Ok (Some pd, fp2)
    /\ bin_mask fp2 = bin_mask fp
    /\ bins fp2 = bins fp
    /\ tx_num_unacked fp2 = tx_num_unacked fp
    /\ next_seqno fp2 = add64 (next_seqno fp) 1.
Proof.
  intros Hinv Hfree.
  pose proof (tx_num_unacked_bounds fp Hinv) as Htx.
  pose proof (outwnd_pos_range (next_seqno fp)) as Hpos.
  destruct Hinv as [Hlen Hocc Hmir Hcnt].
  unfold outwnd_is_unacked in Hfree. rewrite outwnd_pos_edge in Hfree.
  remember (outwnd_pos (next_seqno fp)) as i eqn:Ei.
  unfold FASTPASS_OUTWND_LEN in *.
  assert (Hslot : bins fp !! Z.to_nat i = Some None).
  { destruct (lookup_lt_is_Some_2 (bins fp) (Z.to_nat i)) as [x Hx]; [lia|].
    destruct x as [d|]; [|exact Hx].
    assert (Hs : is_Some (bin_at fp i)).
    { unfold bin_at. rewrite Hx. eexists; reflexivity. }
    apply Hocc in Hs; [congruence | lia]. }
  eexists _, _. split.
  { unfold outwnd_add, outwnd_is_unacked. rewrite outwnd_pos_edge.
    rewrite <- Ei, Hfree. simpl_result.
    rewrite bool_decide_eq_true_2 by (eexists; reflexivity).
    simpl_result. reflexivity. }
  split.
  { unfold outwnd_pop, outwnd_is_unacked, bin_at. cbn. rewrite <- !Ei.
    unfold FASTPASS_OUTWND_LEN. rewrite Z.setbit_neq by lia. rewrite Z.setbit_eq by lia.
    simpl_result. rewrite list_lookup_insert_eq by lia. reflexivity. }
  cbn. unfold FASTPASS_OUTWND_LEN. rewrite <- ?Ei. split.
  { apply Z.bits_inj'. intros n Hn.
    rewrite !Z.clearbit_eqb, !Z.setbit_eqb by lia.
    destruct (Z.eqb_spec (i + 256) n) as [E1|E1];
      destruct (Z.eqb_spec i n) as [E2|E2]; cbn;
      try (subst n; rewrite ?Hmir, ?Hfree by lia); try lia;
      now destruct (Z.testbit (bin_mask fp) n). }
  split.
  { rewrite list_insert_insert_eq. apply list_insert_id. exact Hslot. }
  split; [|reflexivity].
  unfold_arith. mod_lia.
Qed.

Lemma outwnd_add_then_pop_witness :
  outwnd_inv sock_100_115
  /\ outwnd_is_unacked sock_100_115
       (sub64 (next_seqno sock_100_115) FASTPASS_OUTWND_LEN) = false
  /\ exists fp1 fp2,
       outwnd_add sock_100_115 (Some blank_pktdesc) = Ok fp1
       /\ outwnd_pop fp1 (next_seqno sock_100_115) = Ok (Some blank_pktdesc, fp2)
       /\ bin_mask fp2 = bin_mask sock_100_115
       /\ bins fp2 = bins sock_100_115
       /\ tx_num_unacked fp2 = tx_num_unacked sock_100_115
       /\ next_seqno fp2 = add64 (next_seqno sock_100_115) 1.
Proof.
  split; [exact sock_100_115_inv|].
  split; [vm_compute; reflexivity|].
  apply outwnd_add_then_pop; [exact sock_100_115_inv | vm_compute; reflexivity].
Defined.

(** ** [outwnd_reset] releases the window *)

Lemma sub64_range_u64 a b : 0 <= sub64 a b < 2 ^ 64.
Proof. apply Z.mod_pos_bound. lia. Qed.

Lemma newest_first_same fp fp' l :
  next_seqno fp' = next_seqno fp -> newest_first fp' l -> newest_first fp l.
Proof.
  intros Hn. induction l as [|a l IH]; cbn; [trivial|].
  intros [Ha Hl]. split; [|auto].
  eapply Forall_impl; [exact Ha|]. cbn. intros b.
  rewrite !(behind_same fp fp') by exact Hn. trivial.
Qed.

Lemma clear_next_unacked_frees (fuel : nat) :
  forall fp tslot,
    outwnd_inv fp -> in_outwnd fp tslot ->
    (forall t, behind fp t < behind fp tslot -> outwnd_is_unacked fp t = false) ->
    tx_num_unacked fp < Z.of_nat fuel ->
    exists fp' l,
      clear_next_unacked fuel fp tslot = Ok fp'
      /\ calls fp' = calls fp ++ map (free_call fp) l
      /\ newest_first fp l
      /\ (forall s, In s l <-> outstanding fp s).
Proof.
  induction fuel as [|fuel IH]; intros fp tslot Hinv Hin Hnewer Hfuel.
  - pose proof (tx_num_unacked_bounds fp Hinv). lia.
  - unfold in_outwnd, FASTPASS_OUTWND_LEN in *.
    pose proof (behind_range fp tslot) as Hk.
    cbn [clear_next_unacked].
    destruct (outwnd_at_or_before_spec fp tslot Hinv Hin)
      as [[E Hnone] | (g & Hg & Hkg & E & Hocc & Hgap)]; rewrite E; simpl_result.
    + exists fp, []. split; [reflexivity|]. split; [cbn; now rewrite app_nil_r|].
      split; [exact I|].
      intros s. split; [intros []|]. intros (_ & Hs & Hu).
      unfold in_outwnd, FASTPASS_OUTWND_LEN in Hs.
      pose proof (behind_range fp s).
      destruct (Z.lt_ge_cases (behind fp s) (behind fp tslot)).
      * rewrite Hnewer in Hu by assumption. discriminate.
      * rewrite Hnone in Hu by lia. discriminate.
    + destruct (Z.geb_spec g 0); [|lia].
      set (p := sub64 tslot g) in *.
      assert (Hbp : behind fp p = behind fp tslot + g)
        by (apply behind_sub64; lia).
      destruct (outwnd_pop_spec fp p Hinv Hocc)
        as (fp1 & Epop & Hinv1 & Hsame1 & Hcalls1 & Hsome & Htx1 & Hbins1 & Hbits1).
      rewrite Epop. simpl_result.
      assert (Hnext : next_seqno fp1 = next_seqno fp) by apply Hsame1.
      set (fp2 := fpproto_pktdesc_free fp1 (bin_at fp (outwnd_pos p))).
      assert (Hnext2 : next_seqno fp2 = next_seqno fp) by exact Hnext.
      assert (Hb2 : forall t, behind fp2 t = behind fp t)
        by (intros t; apply behind_same; exact Hnext2).
      assert (Hu2 : forall t, outwnd_is_unacked fp2 t
                = outwnd_is_unacked fp t && negb (outwnd_pos p =? outwnd_pos t)).
      { intros t. rewrite (is_unacked_same fp1 fp2) by reflexivity. apply Hbits1. }
      destruct (IH fp2 p) as (fp' & l & Eloop & Hcalls & Hsorted & Hl).
      * apply outwnd_inv_emit. assumption.
      * unfold in_outwnd, FASTPASS_OUTWND_LEN. rewrite Hb2. lia.
      * intros t. rewrite !Hb2, Hu2. intros Ht.
        pose proof (behind_range fp t).
        destruct (Z.lt_ge_cases (behind fp t) (behind fp tslot)).
        -- rewrite Hnewer by assumption. reflexivity.
        -- rewrite Hgap by lia. reflexivity.
      * cbn. lia.
      * assert (Hold : forall s, In s l ->
                  behind fp p < behind fp s /\ outstanding fp s).
        { intros s Hs. apply Hl in Hs. destruct Hs as (Hr & Hsin & Hsu).
          unfold in_outwnd, FASTPASS_OUTWND_LEN in Hsin. rewrite Hb2 in Hsin.
          rewrite Hu2 in Hsu. apply andb_true_iff in Hsu. destruct Hsu as [Hsu Hne].
          rewrite (outwnd_pos_same_slot fp) in Hne by lia.
          destruct (Z.eqb_spec (behind fp p) (behind fp s)); [discriminate|].
          pose proof (behind_range fp s).
          destruct (Z.lt_ge_cases (behind fp s) (behind fp tslot)) as [Hlt|Hge].
          { rewrite Hnewer in Hsu by assumption. discriminate. }
          destruct (Z.lt_ge_cases (behind fp s) (behind fp p)) as [Hlt'|Hge'].
          { rewrite Hgap in Hsu by lia. discriminate. }
          split; [lia|]. split; [assumption|]. split; [|assumption].
          unfold in_outwnd, FASTPASS_OUTWND_LEN. assumption. }
        exists fp', (p :: l). split; [exact Eloop|]. split; [|split].
        -- rewrite Hcalls. cbn [map]. unfold fp2, fpproto_pktdesc_free.
           cbn. rewrite Hcalls1, <- app_assoc. cbn. f_equal. f_equal.
           apply map_ext_in. intros s Hs. unfold free_call, bin_at. cbn.
           destruct (Hold s Hs) as (Hlt & _ & Hsin & _).
           unfold in_outwnd, FASTPASS_OUTWND_LEN in Hsin.
           pose proof (outwnd_pos_range s).
           fold (bin_at fp1 (outwnd_pos s)). rewrite Hbins1 by lia.
           rewrite (outwnd_pos_same_slot fp) by lia.
           destruct (Z.eqb_spec (behind fp p) (behind fp s)); [lia|]. reflexivity.
        -- split.
           ++ apply List.Forall_forall. intros s Hs. apply (Hold s Hs).
           ++ apply (newest_first_same fp fp2); assumption.
        -- intros s. split.
           ++ intros [<-|Hs].
              ** split; [apply sub64_range_u64|]. split; [|assumption].
                 unfold in_outwnd, FASTPASS_OUTWND_LEN. lia.
              ** apply (Hold s Hs).
           ++ intros (Hr & Hsin & Hsu).
              unfold in_outwnd, FASTPASS_OUTWND_LEN in Hsin.
              destruct (Z.eq_dec (behind fp s) (behind fp p)) as [Heq|Hne].
              ** left. apply behind_inj in Heq. unfold to_u64 in Heq.
                 pose proof (sub64_range_u64 tslot g). fold p in H.
                 rewrite !Z.mod_small in Heq by lia. congruence.
              ** right. apply Hl. split; [assumption|]. split.
                 { unfold in_outwnd, FASTPASS_OUTWND_LEN. rewrite Hb2. assumption. }
                 rewrite Hu2, Hsu. rewrite (outwnd_pos_same_slot fp) by lia.
                 destruct (Z.eqb_spec (behind fp p) (behind fp s)); [lia|]. reflexivity.
Qed.

Lemma outwnd_reset_released fuel fp :
  outwnd_inv fp -> (256 < fuel)%nat ->
  exists fp' l,
    outwnd_reset fuel fp = Ok fp'
    /\ outwnd_inv fp'
    /\ same_session fp fp'
    /\ tx_num_unacked fp' = 0
    /\ (forall t, outwnd_is_unacked fp' t = false)
    /\ calls fp' = calls fp ++ map (free_call fp) l
    /\ newest_first fp l
    /\ (forall s, In s l <-> outstanding fp s).
Proof.
  intros Hinv Hfuel.
  pose proof (tx_num_unacked_bounds fp Hinv) as Htx.
  destruct (outwnd_reset_spec fuel fp Hinv Hfuel)
    as (fp' & E & Hinv' & Hsame & Hzero & Hfree).
  destruct (clear_next_unacked_frees fuel fp (sub64 (next_seqno fp) 1))
    as (fp'' & l & E' & Hcalls & Hsorted & Hl).
  - assumption.
  - unfold in_outwnd. rewrite behind_newest. unfold FASTPASS_OUTWND_LEN. lia.
  - intros t. rewrite behind_newest. pose proof (behind_range fp t). lia.
  - lia.
  - unfold outwnd_reset in E. rewrite E in E'. injection E' as <-.
    exists fp', l. split; [exact E|]. repeat (split; [assumption|]). assumption.
Qed.

(** X2. [outwnd_reset] on a window that satisfies the invariants returns
    with the window empty, having released every outstanding descriptor
    through [fpproto_pktdesc_free] exactly once, from the newest seqno to
    the oldest, and having made no other call. *)
Theorem outwnd_reset_frees_all fuel fp :
  outwnd_inv fp -> (256 < fuel)%nat ->
  exists fp' l,
    outwnd_reset fuel fp = Ok fp'
    /\ calls fp' = calls fp ++ map (free_call fp) l
    /\ newest_first fp l
    /\ (forall s, In s l <-> outstanding fp s)
    /\ outwnd_empty fp' = true
    /\ (forall t, outwnd_is_unacked fp' t = false).
Proof.
  intros Hinv Hfuel.
  destruct (outwnd_reset_released fuel fp Hinv Hfuel)
    as (fp' & l & E & _ & _ & Hzero & Hfree & Hcalls & Hsorted & Hl).
  exists fp', l. split; [exact E|]. split; [assumption|]. split; [assumption|].
  split; [assumption|]. split; [|assumption].
  unfold outwnd_empty. rewrite Hzero. reflexivity.
Qed.

Lemma outwnd_reset_frees_all_witness :
  outwnd_inv sock_100_115 /\ (256 < 257)%nat
  /\ exists fp' l,
       outwnd_reset 257 sock_100_115 = Ok fp'
       /\ calls fp' = calls sock_100_115 ++ map (free_call sock_100_115) l
       /\ newest_first sock_100_115 l
       /\ (forall s, In s l <-> outstanding sock_100_115 s)
       /\ outwnd_empty fp' = true
       /\ (forall t, outwnd_is_unacked fp' t = false).
Proof.
  split; [exact sock_100_115_inv|]. split; [lia|].
  apply outwnd_reset_frees_all; [exact sock_100_115_inv | lia].
Defined.

(** ** The deferred task of the retransmission timer *)

Lemma outstanding_slot fp s :
  outwnd_inv fp -> outwnd_is_unacked fp s = true ->
  exists pd, bin_at fp (outwnd_pos s) = Some pd.
Proof.
  intros Hinv Hu. pose proof (outwnd_pos_range s) as Hr.
  apply (inv_occupied _ Hinv). { unfold FASTPASS_OUTWND_LEN. lia. } exact Hu.
Qed.

Lemma empty_window_free fp s :
  outwnd_inv fp -> tx_num_unacked fp = 0 -> outwnd_is_unacked fp s = false.
Proof.
  intros Hinv Hz. destruct (outwnd_is_unacked fp s) eqn:Hu; [|reflexivity].
  pose proof (inv_count_pos fp (outwnd_pos s) Hinv (outwnd_pos_range s) Hu). lia.
Qed.

Lemma hint_result_range fp hint e :
  outwnd_earliest_unacked_hint fp hint = Ok e -> 0 <= e < 2 ^ 64.
Proof.
  unfold outwnd_earliest_unacked_hint. cbv zeta.
  set (e0 := add64 hint _). intros H.
  assert (E : e = e0).
  { destruct (negb (e0 =? _)).
    - destruct (outwnd_at_or_before fp (sub64 e0 1)) as [g| |]; cbn in H;
        [destruct (negb (g =? -1)); cbn in H|..]; congruence.
    - cbn in H. congruence. }
  subst e. apply Z.mod_pos_bound. lia.
Qed.

(** Two 64-bit seqnos at the same distance are the same. *)
Lemma behind_eq_same fp s t :
  0 <= s < 2 ^ 64 -> 0 <= t < 2 ^ 64 -> behind fp s = behind fp t -> s = t.
Proof.
  intros Hs Ht E. apply behind_inj in E. unfold to_u64 in E.
  rewrite !Z.mod_small in E by lia. exact E.
Qed.

Lemma oldest_first_same fp fp' l :
  next_seqno fp' = next_seqno fp -> oldest_first fp' l -> oldest_first fp l.
Proof.
  intros Hn. induction l as [|a l IH]; cbn; [trivial|].
  intros [Ha Hl]. split; [|auto].
  eapply Forall_impl; [exact Ha|]. cbn. intros b.
  rewrite !(behind_same fp fp') by exact Hn. trivial.
Qed.

Section Tasklet.

Variable now : Z.

Lemma retrans_expire_spec (fuel : nat) :
  forall fp hint,
    outwnd_inv fp -> in_outwnd fp hint ->
    (forall t, in_outwnd fp t -> behind fp hint < behind fp t ->
               outwnd_is_unacked fp t = false) ->
    tx_num_unacked fp < Z.of_nat fuel ->
    exists fp' l,
      retrans_expire fuel now fp hint = Ok fp'
      /\ outwnd_inv fp'
      /\ next_seqno fp' = next_seqno fp
      /\ calls fp' = calls fp ++ map (neg_ack_call fp) l
      /\ oldest_first fp l
      /\ (forall s, In s l -> expired fp now s = true)
      /\ ((outwnd_empty fp' = true
           /\ retrans_timer fp' = retrans_timer fp
           /\ earliest_unacked fp' = earliest_unacked fp
           /\ forall s, In s l <-> outstanding fp s)
          \/ (exists e pd,
                outstanding fp e
                /\ bin_at fp (outwnd_pos e) = Some pd
                /\ expired fp now e = false
                /\ retrans_timer fp'
                   = TimerEnqueued (add64 (sent_timestamp pd) (send_timeout_us fp))
                /\ earliest_unacked fp' = e
                /\ (forall s, In s l <->
                      outstanding fp s /\ behind fp e < behind fp s)
                /\ (forall t, in_outwnd fp t ->
                      outwnd_is_unacked fp' t
                      = outwnd_is_unacked fp t
                        && (behind fp t <=? behind fp e)))).
Proof.
  induction fuel as [|fuel IH]; intros fp hint Hinv Hin Holder Hfuel.
  { pose proof (tx_num_unacked_bounds fp Hinv). lia. }
  cbn [retrans_expire]. unfold outwnd_empty.
  destruct (Z.eqb_spec (tx_num_unacked fp) 0) as [Hz|Hnz].
  { exists fp, []. split; [reflexivity|]. split; [assumption|].
    split; [reflexivity|]. split; [cbn; now rewrite app_nil_r|].
    split; [exact I|]. split; [intros s []|]. left.
    split; [apply Z.eqb_eq; assumption|]. split; [reflexivity|].
    split; [reflexivity|]. intros s. split; [intros []|].
    intros (_ & _ & Hu). rewrite (empty_window_free fp s Hinv Hz) in Hu.
    discriminate. }
  destruct (outwnd_nonempty_occupied fp Hinv Hnz) as (occ & Hoccin & Hoccu).
  assert (Hocc_le : behind fp occ <= behind fp hint).
  { destruct (Z.le_gt_cases (behind fp occ) (behind fp hint)); [assumption|].
    rewrite Holder in Hoccu by (assumption || lia). discriminate. }
  destruct (outwnd_earliest_unacked_hint_spec fp hint occ Hinv Hin Hocc_le Hoccu)
    as (e & Hrange & Heu & Hbetween & Hok & _).
  assert (Ee : outwnd_earliest_unacked_hint fp hint = Ok e).
  { apply Hok. intros t Ht. apply Holder; [|lia].
    unfold in_outwnd, FASTPASS_OUTWND_LEN. lia. }
  rewrite Ee. simpl_result.
  pose proof (hint_result_range fp hint e Ee) as Her.
  unfold in_outwnd, FASTPASS_OUTWND_LEN in *.
  assert (Hein : behind fp e < 256) by lia.
  assert (Hfree_older : forall t, behind fp t < 256 -> behind fp e < behind fp t ->
                                  outwnd_is_unacked fp t = false).
  { intros t Ht Hlt.
    destruct (Z.le_gt_cases (behind fp t) (behind fp hint)).
    - apply Hbetween. lia.
    - apply Holder; [assumption | lia]. }
  destruct (outstanding_slot fp e Hinv Heu) as (pd & Hpd).
  unfold outwnd_timestamp. rewrite Hpd. simpl_result.
  assert (Hexp : expired fp now e
                 = negb (time_after64
                           (add64 (sent_timestamp pd) (send_timeout_us fp)) now)).
  { unfold expired. rewrite Hpd. reflexivity. }
  destruct (time_after64 (add64 (sent_timestamp pd) (send_timeout_us fp)) now)
    eqn:Hta.
  { eexists _, []. split; [reflexivity|]. cbn.
    split; [revert Hinv; apply outwnd_inv_window; reflexivity|].
    split; [reflexivity|]. split; [now rewrite app_nil_r|].
    split; [exact I|]. split; [intros s []|]. right.
    exists e, pd. split; [repeat split; assumption || lia|].
    split; [assumption|]. split; [assumption|]. split; [reflexivity|].
    split; [reflexivity|]. split.
    - intros s. split; [intros []|]. intros ((_ & Hs & Hu) & Hlt).
      unfold in_outwnd, FASTPASS_OUTWND_LEN in Hs.
      rewrite Hfree_older in Hu by assumption. discriminate.
    - intros t Ht. unfold outwnd_is_unacked. cbn.
      fold (outwnd_is_unacked fp t).
      destruct (Z.leb_spec (behind fp t) (behind fp e)).
      + now rewrite andb_true_r.
      + rewrite Hfree_older by assumption. reflexivity. }
  destruct (do_neg_ack_seqno_spec fp e Hinv Heu)
    as (fp1 & E1 & Hinv1 & Hsame1 & Hcalls1 & _ & Htx1 & Hbins1 & Hbits1).
  rewrite E1. simpl_result.
  assert (Hnext1 : next_seqno fp1 = next_seqno fp) by apply Hsame1.
  assert (Hb1 : forall t, behind fp1 t = behind fp t)
    by (intros t; apply behind_same; exact Hnext1).
  assert (Hout1 : forall s, outstanding fp1 s <->
                            outstanding fp s /\ behind fp s < behind fp e).
  { intros s. unfold outstanding, in_outwnd, FASTPASS_OUTWND_LEN.
    rewrite Hb1, Hbits1. split.
    - intros (Hr & Hs & Hu). apply andb_true_iff in Hu. destruct Hu as [Hu Hne].
      rewrite (outwnd_pos_same_slot fp) in Hne by lia.
      destruct (Z.eqb_spec (behind fp e) (behind fp s)); [discriminate|].
      destruct (Z.lt_ge_cases (behind fp s) (behind fp e)).
      + repeat split; assumption || lia.
      + rewrite Hfree_older in Hu by lia. discriminate.
    - intros ((Hr & Hs & Hu) & Hlt). split; [assumption|]. split; [assumption|].
      rewrite Hu, (outwnd_pos_same_slot fp) by lia.
      destruct (Z.eqb_spec (behind fp e) (behind fp s)); [lia | reflexivity]. }
  assert (Hbin1 : forall s, behind fp s < behind fp e ->
                            bin_at fp1 (outwnd_pos s) = bin_at fp (outwnd_pos s)).
  { intros s Hs. pose proof (behind_range fp s).
    rewrite Hbins1 by apply outwnd_pos_range.
    rewrite (outwnd_pos_same_slot fp) by lia.
    destruct (Z.eqb_spec (behind fp e) (behind fp s)); [lia | reflexivity]. }
  assert (Hops1 : ops fp1 = ops fp) by apply Hsame1.
  assert (Hto1 : send_timeout_us fp1 = send_timeout_us fp) by apply Hsame1.
  destruct (IH fp1 e) as (fp' & l & Eloop & Hinv' & Hnext' & Hcalls' & Hsorted
                          & Hexpired & Hend).
  { assumption. }
  { unfold in_outwnd, FASTPASS_OUTWND_LEN. rewrite Hb1. assumption. }
  { unfold in_outwnd, FASTPASS_OUTWND_LEN. intros t. rewrite !Hb1, Hbits1.
    intros Ht Hlt. rewrite Hfree_older by assumption. reflexivity. }
  { lia. }
  assert (Hl_newer : forall s, In s l -> behind fp s < behind fp e).
  { intros s Hs. destruct Hend as [(_ & _ & _ & Hl) | (e' & pd' & _ & _ & _ & _ & _ & Hl & _)];
      apply Hl in Hs; [|destruct Hs as [Hs _]]; apply Hout1 in Hs; apply Hs. }
  exists fp', (e :: l). split; [exact Eloop|]. split; [assumption|].
  split; [congruence|]. split.
  { rewrite Hcalls', Hcalls1, <- app_assoc. cbn. f_equal. f_equal.
    apply map_ext_in. intros s Hs. unfold neg_ack_call.
    rewrite Hops1, (Hbin1 s) by (apply Hl_newer; assumption). reflexivity. }
  split.
  { split.
    - apply List.Forall_forall. exact Hl_newer.
    - apply (oldest_first_same fp fp1); assumption. }
  split.
  { intros s [<-|Hs].
    - rewrite Hexp. reflexivity.
    - rewrite <- (Hexpired s Hs). unfold expired.
      rewrite Hto1, (Hbin1 s) by (apply Hl_newer; assumption). reflexivity. }
  assert (He_out : outstanding fp e) by (repeat split; assumption || lia).
  destruct Hend as [(Hempty & Htimer & Hearliest & Hl)
                   | (e' & pd' & He' & Hpd' & Hexp' & Htimer & Hearliest & Hl & Hleft)].
  - left. split; [assumption|]. split; [rewrite Htimer; apply Hsame1|].
    split; [rewrite Hearliest; apply Hsame1|].
    intros s. split.
    + intros [<-|Hs]; [assumption|]. apply Hl, Hout1 in Hs. apply Hs.
    + intros Hs. destruct (Z.eq_dec (behind fp s) (behind fp e)) as [Heq|Hne].
      * left. symmetry. apply (behind_eq_same fp); [apply Hs | lia | assumption].
      * right. apply Hl, Hout1. split; [assumption|].
        destruct Hs as (_ & Hs & Hu). unfold in_outwnd, FASTPASS_OUTWND_LEN in Hs.
        destruct (Z.lt_ge_cases (behind fp s) (behind fp e)); [assumption|].
        rewrite Hfree_older in Hu by lia. discriminate.
  - right. apply Hout1 in He'. destruct He' as [He' Hlt'].
    assert (Hl2 : forall s, In s l <->
              outstanding fp1 s /\ behind fp e' < behind fp s)
      by (intros s; rewrite <- !Hb1; apply Hl).
    clear Hl. rename Hl2 into Hl.
    exists e', pd'. split; [assumption|].
    split; [rewrite <- (Hbin1 e') by assumption; assumption|].
    split.
    { rewrite <- Hexp'. unfold expired.
      rewrite Hto1, (Hbin1 e') by assumption. reflexivity. }
    split; [rewrite Htimer, Hto1; reflexivity|]. split; [assumption|].
    split.
    + intros s. split.
      * intros [<-|Hs]; [split; assumption|].
        apply Hl in Hs. destruct Hs as [Hs Hlt]. apply Hout1 in Hs.
        split; [apply Hs | assumption].
      * intros [Hs Hlt].
        destruct (Z.eq_dec (behind fp s) (behind fp e)) as [Heq|Hne].
        -- left. symmetry. apply (behind_eq_same fp); [apply Hs | lia | assumption].
        -- right. apply Hl. split; [|assumption]. apply Hout1. split; [assumption|].
           destruct Hs as (_ & Hs & Hu). unfold in_outwnd, FASTPASS_OUTWND_LEN in Hs.
           destruct (Z.lt_ge_cases (behind fp s) (behind fp e)); [assumption|].
           rewrite Hfree_older in Hu by lia. discriminate.
    + intros t Ht. rewrite Hleft by (rewrite Hb1; assumption).
      rewrite !Hb1, Hbits1. rewrite (outwnd_pos_same_slot fp) by lia.
      destruct (Z.leb_spec (behind fp t) (behind fp e')).
      * destruct (Z.eqb_spec (behind fp e) (behind fp t)); [lia|].
        cbn. now rewrite !andb_true_r.
      * now rewrite !andb_false_r.
Qed.

End Tasklet.

(** X3. With the qdisc locked, a window that satisfies the invariants and
    a hint [earliest_unacked] inside the window with nothing outstanding
    before it, [retrans_tasklet] returns.  It hands to [handle_neg_ack]
    (or frees) outstanding descriptors from the oldest on, each with its
    deadline passed, and stops at the first descriptor whose deadline is
    after [now]: every older outstanding seqno has been handed over, this
    one and the newer ones stay, [earliest_unacked] names it and the timer
    is armed at its deadline.  When no such descriptor exists the window
    ends empty and the timer is left as it was. *)
Theorem retrans_tasklet_spec fuel now fp :
  outwnd_inv fp -> in_outwnd fp (earliest_unacked fp) ->
  (forall t, in_outwnd fp t -> behind fp (earliest_unacked fp) < behind fp t ->
             outwnd_is_unacked fp t = false) ->
  tx_num_unacked fp < Z.of_nat fuel ->
  exists fp' l,
    retrans_tasklet fuel now true fp = Ok fp'
    /\ outwnd_inv fp'
    /\ calls fp' = calls fp ++ map (neg_ack_call fp) l
    /\ oldest_first fp l
    /\ (forall s, In s l -> expired fp now s = true)
    /\ ((outwnd_empty fp' = true
         /\ retrans_timer fp' = retrans_timer fp
         /\ forall s, In s l <-> outstanding fp s)
        \/ (exists e pd,
              outstanding fp e
              /\ bin_at fp (outwnd_pos e) = Some pd
              /\ expired fp now e = false
              /\ retrans_timer fp'
                 = TimerEnqueued (add64 (sent_timestamp pd) (send_timeout_us fp))
              /\ earliest_unacked fp' = e
              /\ (forall s, In s l <->
                    outstanding fp s /\ behind fp e < behind fp s)
              /\ (forall t, in_outwnd fp t ->
                    outwnd_is_unacked fp' t
                    = outwnd_is_unacked fp t && (behind fp t <=? behind fp e)))).
Proof.
  intros Hinv Hin Holder Hfuel. unfold retrans_tasklet. cbn [negb].
  destruct (retrans_expire_spec now fuel fp (earliest_unacked fp)
              Hinv Hin Holder Hfuel)
    as (fp' & l & E & Hinv' & _ & Hcalls & Hsorted & Hexp & Hend).
  exists fp', l. split; [exact E|]. split; [assumption|]. split; [assumption|].
  split; [assumption|]. split; [assumption|].
  destruct Hend as [(He & Ht & _ & Hl) | Hend]; [left | right; exact Hend].
  split; [assumption|]. split; assumption.
Qed.

Lemma retrans_tasklet_spec_witness :
  outwnd_inv sock_100_115
  /\ in_outwnd sock_100_115 (earliest_unacked sock_100_115)
  /\ tx_num_unacked sock_100_115 < Z.of_nat 17
  /\ exists fp' l,
       retrans_tasklet 17 1005 true sock_100_115 = Ok fp'
       /\ calls fp' = calls sock_100_115 ++ map (neg_ack_call sock_100_115) l
       /\ oldest_first sock_100_115 l
       /\ (forall s, In s l -> expired sock_100_115 1005 s = true).
Proof.
  assert (Hin : in_outwnd sock_100_115 (earliest_unacked sock_100_115))
    by (vm_compute; reflexivity).
  assert (Hfuel : tx_num_unacked sock_100_115 < Z.of_nat 17)
    by (vm_compute; reflexivity).
  split; [exact sock_100_115_inv|]. split; [exact Hin|]. split; [exact Hfuel|].
  destruct (retrans_tasklet_spec 17 1005 sock_100_115 sock_100_115_inv Hin
              sock_100_115_free_before_100 Hfuel)
    as (fp' & l & E & _ & Hcalls & Hsorted & Hexp & _).
  exists fp', l. split; [exact E|]. split; [exact Hcalls|].
  split; [exact Hsorted | exact Hexp].
Defined.

(** ** Tear-down *)

Lemma outwnd_reset_empty fuel fp :
  outwnd_inv fp -> tx_num_unacked fp = 0 -> (0 < fuel)%nat ->
  outwnd_reset fuel fp = Ok fp.
Proof.
  intros Hinv Hz Hfuel. destruct fuel as [|fuel]; [lia|].
  unfold outwnd_reset. cbn [clear_next_unacked].
  destruct (outwnd_at_or_before_spec fp (sub64 (next_seqno fp) 1) Hinv)
    as [[E _] | (g & _ & _ & _ & Hocc & _)].
  - unfold in_outwnd. rewrite behind_newest. unfold FASTPASS_OUTWND_LEN. lia.
  - rewrite E. reflexivity.
  - rewrite (empty_window_free fp _ Hinv Hz) in Hocc. discriminate.
Qed.

(** X4. [fpproto_destroy_sock] on a window that satisfies the invariants
    returns with the window empty and the timer inactive, and tearing the
    socket down a second time changes nothing: no descriptor is released
    twice. *)
Theorem fpproto_destroy_sock_spec fuel fp :
  outwnd_inv fp -> (256 < fuel)%nat ->
  exists fp',
    fpproto_destroy_sock fuel fp = Ok fp'
    /\ outwnd_inv fp'
    /\ outwnd_empty fp' = true
    /\ (forall t, outwnd_is_unacked fp' t = false)
    /\ retrans_timer fp' = TimerInactive
    /\ fpproto_destroy_sock fuel fp' = Ok fp'.
Proof.
  intros Hinv Hfuel. unfold fpproto_destroy_sock.
  destruct (outwnd_reset_spec fuel fp Hinv Hfuel)
    as (fp1 & E & Hinv1 & _ & Hzero & Hfree).
  rewrite E. simpl_result.
  set (fp' := set_retrans_timer fp1 TimerInactive).
  assert (Hinv' : outwnd_inv fp')
    by (revert Hinv1; apply outwnd_inv_window; reflexivity).
  exists fp'. split; [reflexivity|]. split; [assumption|].
  split; [unfold outwnd_empty; cbn; rewrite Hzero; reflexivity|].
  split; [exact Hfree|]. split; [reflexivity|].
  rewrite (outwnd_reset_empty fuel fp' Hinv' Hzero) by lia.
  reflexivity.
Qed.

Lemma fpproto_destroy_sock_spec_witness :
  outwnd_inv sock_100_115 /\ (256 < 257)%nat
  /\ exists fp',
       fpproto_destroy_sock 257 sock_100_115 = Ok fp'
       /\ outwnd_inv fp'
       /\ outwnd_empty fp' = true
       /\ (forall t, outwnd_is_unacked fp' t = false)
       /\ retrans_timer fp' = TimerInactive
       /\ fpproto_destroy_sock 257 fp' = Ok fp'.
Proof.
  split; [exact sock_100_115_inv|]. split; [lia|].
  apply fpproto_destroy_sock_spec; [exact sock_100_115_inv | lia].
Defined.

(** ** Committing a packet *)

Lemma fpproto_commit_packet_effect fp pd ts :
  outwnd_inv fp ->
  outwnd_is_unacked fp (sub64 (next_seqno fp) FASTPASS_OUTWND_LEN) = false ->
  let pd' := {| seqno := next_seqno fp; sent_timestamp := ts;
                send_reset := negb (in_sync fp);
                reset_timestamp := last_reset_time fp; areq := areq pd |} in
  exists fp',
    fpproto_commit_packet fp pd ts = Ok fp'
    /\ outwnd_inv fp'
    /\ next_seqno fp' = add64 (next_seqno fp) 1
    /\ tx_num_unacked fp' = tx_num_unacked fp + 1
    /\ calls fp' = calls fp
    /\ ops fp' = ops fp
    /\ (forall i, 0 <= i ->
          bin_at fp' i = if outwnd_pos (next_seqno fp) =? i then Some pd'
                         else bin_at fp i)
    /\ (forall t, outwnd_is_unacked fp' t
                  = (outwnd_pos (next_seqno fp) =? outwnd_pos t)
                    || outwnd_is_unacked fp t)
    /\ (if outwnd_empty fp
        then retrans_timer fp' = TimerEnqueued (add64 ts (send_timeout_us fp))
             /\ earliest_unacked fp' = next_seqno fp
        else retrans_timer fp' = retrans_timer fp
             /\ earliest_unacked fp' = earliest_unacked fp).
Proof.
  intros Hinv Hfree pd'. unfold fpproto_commit_packet. cbv zeta. fold pd'.
  pose proof (tx_num_unacked_bounds fp Hinv) as Htx.
  destruct (outwnd_add_spec fp pd' Hinv Hfree)
    as (fp1 & E & Hinv1 & Hnext1 & Htx1 & Hcalls1 & Htimer1 & Hbins1 & Hbits1).
  assert (Hrest : earliest_unacked fp1 = earliest_unacked fp
                  /\ send_timeout_us fp1 = send_timeout_us fp
                  /\ ops fp1 = ops fp).
  { unfold outwnd_add in E. rewrite Hfree in E. simpl_result_in E.
    rewrite bool_decide_eq_true_2 in E by (eexists; reflexivity).
    simpl_result_in E. injection E as <-. repeat split. }
  destruct Hrest as (Hearliest1 & Hto1 & Hops1).
  rewrite E. simpl_result. rewrite Htx1. unfold outwnd_empty.
  destruct (Z.eqb_spec (tx_num_unacked fp) 0) as [Hz|Hnz].
  - rewrite Hz. cbn [Z.add Z.eqb Pos.eqb].
    eexists. split; [reflexivity|].
    split; [revert Hinv1; apply outwnd_inv_window; reflexivity|].
    split; [exact Hnext1|]. split; [cbn; lia|].
    split; [exact Hcalls1|]. split; [exact Hops1|].
    split; [exact Hbins1|]. split; [exact Hbits1|].
    cbn. rewrite Hto1. split; reflexivity.
  - destruct (Z.eqb_spec (tx_num_unacked fp + 1) 1); [lia|].
    exists fp1. split; [reflexivity|]. split; [assumption|].
    split; [assumption|]. split; [assumption|]. split; [assumption|].
    split; [assumption|]. split; [assumption|]. split; [assumption|].
    split; assumption.
Qed.

(** X5. [fpproto_commit_packet] on a window whose edge slot is free stamps
    the descriptor with the seqno, the send time and the reset state of the
    session and stores it under that seqno, so that [outwnd_timestamp]
    returns the send time; the seqno advances by one.  The timer is armed,
    at the send time plus the timeout, exactly when the window was empty;
    otherwise the timer and [earliest_unacked] are left alone. *)
Theorem fpproto_commit_packet_spec fp pd ts :
  outwnd_inv fp ->
  outwnd_is_unacked fp (sub64 (next_seqno fp) FASTPASS_OUTWND_LEN) = false ->
  exists fp',
    fpproto_commit_packet fp pd ts = Ok fp'
    /\ outwnd_inv fp'
    /\ next_seqno fp' = add64 (next_seqno fp) 1
    /\ tx_num_unacked fp' = tx_num_unacked fp + 1
    /\ bin_at fp' (outwnd_pos (next_seqno fp))
       = Some {| seqno := next_seqno fp; sent_timestamp := ts;
                 send_reset := negb (in_sync fp);
                 reset_timestamp := last_reset_time fp; areq := areq pd |}
    /\ outwnd_timestamp fp' (next_seqno fp) = Ok ts
    /\ (if outwnd_empty fp
        then retrans_timer fp' = TimerEnqueued (add64 ts (send_timeout_us fp))
             /\ earliest_unacked fp' = next_seqno fp
        else retrans_timer fp' = retrans_timer fp
             /\ earliest_unacked fp' = earliest_unacked fp).
Proof.
  intros Hinv Hfree.
  destruct (fpproto_commit_packet_effect fp pd ts Hinv Hfree)
    as (fp' & E & Hinv' & Hnext & Htx & _ & _ & Hbins & _ & Htimer).
  assert (Hbin : bin_at fp' (outwnd_pos (next_seqno fp))
                 = Some {| seqno := next_seqno fp; sent_timestamp := ts;
                           send_reset := negb (in_sync fp);
                           reset_timestamp := last_reset_time fp;
                           areq := areq pd |}).
  { rewrite Hbins by apply outwnd_pos_range. rewrite Z.eqb_refl. reflexivity. }
  exists fp'. split; [exact E|]. split; [assumption|]. split; [assumption|].
  split; [assumption|]. split; [exact Hbin|].
  split; [unfold outwnd_timestamp; rewrite Hbin; reflexivity | exact Htimer].
Qed.

Lemma fpproto_commit_packet_spec_witness :
  outwnd_inv sock_100_115
  /\ outwnd_is_unacked sock_100_115
       (sub64 (next_seqno sock_100_115) FASTPASS_OUTWND_LEN) = false
  /\ exists fp',
       fpproto_commit_packet sock_100_115 blank_pktdesc 16 = Ok fp'
       /\ outwnd_timestamp fp' (next_seqno sock_100_115) = Ok 16
       /\ retrans_timer fp' = retrans_timer sock_100_115.
Proof.
  assert (Hfree : outwnd_is_unacked sock_100_115
            (sub64 (next_seqno sock_100_115) FASTPASS_OUTWND_LEN) = false)
    by (vm_compute; reflexivity).
  split; [exact sock_100_115_inv|]. split; [exact Hfree|].
  destruct (fpproto_commit_packet_spec sock_100_115 blank_pktdesc 16
              sock_100_115_inv Hfree)
    as (fp' & E & _ & _ & _ & _ & Hts & Htimer).
  exists fp'. split; [exact E|]. split; [exact Hts|].
  assert (Hne : outwnd_empty sock_100_115 = false) by (vm_compute; reflexivity).
  rewrite Hne in Htimer. apply Htimer.
Defined.

(** ** Protocol resets *)

(** X6. The 64-bit timestamp that [fpproto_handle_reset] rebuilds from the
    56 bits on the wire is the one value that agrees with them on its low
    56 bits and lies in the 2^56 nanoseconds that start 2^55 before [now]:
    it always has these two properties, and every timestamp [T] of that
    range is recovered from [T mod 2^56]. *)
Theorem reset_full_tstamp_recovers now p :
  (reset_full_tstamp now p mod 2 ^ 56 = p mod 2 ^ 56
   /\ sub64 (reset_full_tstamp now p) (sub64 now (2 ^ 55)) < 2 ^ 56)
  /\ forall T, 0 <= T < 2 ^ 64 -> T mod 2 ^ 56 = p mod 2 ^ 56 ->
               sub64 T (sub64 now (2 ^ 55)) < 2 ^ 56 ->
               reset_full_tstamp now p = T.
Proof.
  unfold reset_full_tstamp. cbv zeta.
  change (Z.shiftl 1 55) with (2 ^ 55).
  change (Z.shiftl 1 56 - 1) with (Z.ones 56).
  rewrite Z.land_ones by lia. unfold add64, sub64, to_u64.
  change (2 ^ 64) with 18446744073709551616.
  change (2 ^ 56) with 72057594037927936.
  change (2 ^ 55) with 36028797018963968.
  split; [split|]; intros; mod_lia.
Qed.

Lemma reset_full_tstamp_recovers_witness :
  0 <= 2 ^ 60 + 5 < 2 ^ 64 /\ (2 ^ 60 + 5) mod 2 ^ 56 = 5 mod 2 ^ 56
  /\ sub64 (2 ^ 60 + 5) (sub64 (2 ^ 60 + 100) (2 ^ 55)) < 2 ^ 56
  /\ reset_full_tstamp (2 ^ 60 + 100) 5 = 2 ^ 60 + 5.
Proof.
  split; [lia|]. split; [reflexivity|]. split; [reflexivity|].
  apply (proj2 (reset_full_tstamp_recovers (2 ^ 60 + 100) 5) (2 ^ 60 + 5));
    [lia | reflexivity | reflexivity].
Defined.

Lemma scan_up_blank n i size : scan_up 0 n i size = size.
Proof.
  revert i. induction n as [|n IH]; intros i; cbn [scan_up]; [reflexivity|].
  rewrite Z.testbit_0_l. apply IH.
Qed.

(** With no bit set in the bitmap the search from the newest seqno finds
    nothing, whatever the slots hold. *)
Lemma outwnd_at_or_before_blank fp :
  bin_mask fp = 0 ->
  outwnd_at_or_before fp (sub64 (next_seqno fp) 1) = Ok (-1).
Proof.
  intros Hm. unfold outwnd_at_or_before.
  rewrite before_next_behind, behind_newest. cbn [Z.leb Z.compare]. simpl_result.
  change (2 ^ 63 <=? 0) with false. simpl_result.
  rewrite before_edge_behind by (rewrite behind_newest; lia).
  rewrite behind_newest. change (256 <=? 0) with false. cbv zeta.
  rewrite Hm. unfold find_next_bit. rewrite scan_up_blank.
  assert (Hid : forall x, to_u32 (to_u32 x) = to_u32 x)
    by (intros x; unfold to_u32; apply Z.mod_mod; lia).
  rewrite Hid, Z.eqb_refl. reflexivity.
Qed.

Section SocketProperties.

Variable jhash_1word : Z -> Z -> Z.

(** X7. [fpproto_sk_init] never aborts and makes no call, whatever the
    memory of the socket holds: it leaves a bitmap without outstanding
    seqnos, an inactive timer, [in_sync] unset, the reset time [now], and
    the first seqno that a peer derives from a RESET carrying [now].  On
    zeroed memory (all slots NULL, count 0) the window it leaves is empty
    and satisfies the invariants. *)
Theorem fpproto_sk_init_spec fuel now fp :
  (0 < fuel)%nat ->
  exists fp',
    fpproto_sk_init jhash_1word fuel now fp = Ok fp'
    /\ bin_mask fp' = 0
    /\ bins fp' = bins fp
    /\ tx_num_unacked fp' = tx_num_unacked fp
    /\ calls fp' = calls fp
    /\ retrans_timer fp' = TimerInactive
    /\ in_sync fp' = false
    /\ last_reset_time fp' = now
    /\ next_seqno fp' = reset_seqno jhash_1word now
    /\ (bins fp = replicate (Z.to_nat FASTPASS_OUTWND_LEN) None ->
        tx_num_unacked fp = 0 ->
        outwnd_inv fp' /\ outwnd_empty fp' = true).
Proof.
  intros Hfuel. destruct fuel as [|fuel]; [lia|].
  unfold fpproto_sk_init, do_proto_reset, outwnd_reset. cbv zeta.
  cbn [clear_next_unacked].
  rewrite outwnd_at_or_before_blank by reflexivity. simpl_result.
  change (-1 >=? 0) with false. cbv iota. simpl_result.
  eexists. split; [reflexivity|]. cbn.
  repeat (split; [reflexivity|]).
  intros Hbins Hz. split; [|unfold outwnd_empty; cbn; rewrite Hz; reflexivity].
  apply (outwnd_inv_window (fresh_sock 0));
    [reflexivity | exact Hbins | exact Hz |].
  apply outwnd_inv_b_sound. vm_compute. reflexivity.
Qed.

End SocketProperties.

Lemma fpproto_sk_init_spec_witness :
  (0 < 1)%nat
  /\ exists fp',
       fpproto_sk_init (fun _ _ => 7) 1 5000 sock_100_115 = Ok fp'
       /\ bin_mask fp' = 0
       /\ calls fp' = calls sock_100_115
       /\ next_seqno fp' = reset_seqno (fun _ _ => 7) 5000.
Proof.
  split; [lia|].
  destruct (fpproto_sk_init_spec (fun _ _ => 7) 1 5000 sock_100_115)
    as (fp' & E & Hm & _ & _ & Hc & _ & _ & _ & Hn & _); [lia|].
  exists fp'. split; [exact E|]. split; [exact Hm|]. split; [exact Hc | exact Hn].
Defined.

Section ResetHandling.

Variable jhash_1word : Z -> Z -> Z.

(** X8. On a window that satisfies the invariants [fpproto_handle_reset]
    returns and keeps the invariants.  Either it leaves the window, the
    seqno, the reset time and the log of calls alone, or it accepts the
    reset: then the rebuilt timestamp differs from [last_reset_time], lies
    in the reset window around [now], and is later than [last_reset_time]
    if that one lies in the window too; every outstanding descriptor has
    been released, the window is empty, the session is in sync, its reset
    time is the rebuilt timestamp and its seqno the one derived from it;
    [handle_reset] is called last, if installed. *)
Theorem fpproto_handle_reset_spec fuel now fp partial_tstamp :
  outwnd_inv fp -> (256 < fuel)%nat ->
  exists fp',
    fpproto_handle_reset jhash_1word fuel now fp partial_tstamp = Ok fp'
    /\ outwnd_inv fp'
    /\ ((same_window fp fp' /\ last_reset_time fp' = last_reset_time fp)
        \/ (reset_full_tstamp now partial_tstamp <> last_reset_time fp
            /\ tstamp_in_window (reset_full_tstamp now partial_tstamp) now
                 (rst_win_ns fp) = true
            /\ (tstamp_in_window (last_reset_time fp) now (rst_win_ns fp) = true ->
                last_reset_time fp < reset_full_tstamp now partial_tstamp)
            /\ last_reset_time fp' = reset_full_tstamp now partial_tstamp
            /\ in_sync fp' = true
            /\ next_seqno fp'
               = reset_seqno jhash_1word (reset_full_tstamp now partial_tstamp)
            /\ outwnd_empty fp' = true
            /\ exists l,
                 calls fp'
                 = calls fp ++ map (free_call fp) l
                   ++ (if has_handle_reset (ops fp) then [CallHandleReset] else [])
                 /\ newest_first fp l
                 /\ (forall s, In s l <-> outstanding fp s))).
Proof.
  intros Hinv Hfuel. unfold fpproto_handle_reset. cbv zeta.
  set (T := reset_full_tstamp now partial_tstamp).
  assert (Hkeep : forall fp', bin_mask fp' = bin_mask fp -> bins fp' = bins fp ->
            tx_num_unacked fp' = tx_num_unacked fp ->
            next_seqno fp' = next_seqno fp -> calls fp' = calls fp ->
            last_reset_time fp' = last_reset_time fp ->
            outwnd_inv fp'
            /\ ((same_window fp fp' /\ last_reset_time fp' = last_reset_time fp)
                \/ (T <> last_reset_time fp
            /\ tstamp_in_window T now (rst_win_ns fp) = true
            /\ (tstamp_in_window (last_reset_time fp) now (rst_win_ns fp) = true ->
                last_reset_time fp < T)
            /\ last_reset_time fp' = T
            /\ in_sync fp' = true
            /\ next_seqno fp' = reset_seqno jhash_1word T
            /\ outwnd_empty fp' = true
            /\ exists l,
                 calls fp'
                 = calls fp ++ map (free_call fp) l
                   ++ (if has_handle_reset (ops fp) then [CallHandleReset] else [])
                 /\ newest_first fp l
                 /\ (forall s, In s l <-> outstanding fp s)))).
  { intros fp' Hm Hb Ht Hn Hc Hl. split.
    - revert Hinv. apply outwnd_inv_window; assumption.
    - left. split; [|assumption]. repeat split; assumption. }
  destruct (Z.eqb_spec T (last_reset_time fp)) as [Heq|Hne].
  { destruct (in_sync fp); cbn [negb]; eexists; (split; [reflexivity|]);
      apply Hkeep; reflexivity. }
  destruct (tstamp_in_window T now (rst_win_ns fp)) eqn:Hwin; cbn [negb].
  2:{ eexists. split; [reflexivity|]. apply Hkeep; reflexivity. }
  destruct (tstamp_in_window (last_reset_time fp) now (rst_win_ns fp)
            && (T <? last_reset_time fp)) eqn:Hold.
  { eexists. split; [reflexivity|]. apply Hkeep; reflexivity. }
  unfold do_proto_reset. cbv zeta.
  destruct (outwnd_reset_released fuel fp Hinv Hfuel)
    as (fp1 & l & E & Hinv1 & Hsame & Hzero & Hfree & Hcalls & Hsorted & Hl).
  rewrite E. simpl_result.
  assert (Hops : ops fp1 = ops fp) by apply Hsame.
  match goal with
  | |- exists fp', (if ?c then _ else _) = _ /\ _ =>
      change c with (has_handle_reset (ops fp1))
  end.
  rewrite Hops.
  assert (Hlater : tstamp_in_window (last_reset_time fp) now (rst_win_ns fp) = true ->
                   last_reset_time fp < T).
  { intros Hw. rewrite Hw in Hold. cbn in Hold.
    destruct (Z.ltb_spec T (last_reset_time fp)); [discriminate | lia]. }
  destruct (has_handle_reset (ops fp)); eexists; (split; [reflexivity|]);
    (split; [revert Hinv1; apply outwnd_inv_window; reflexivity|]);
    right; (split; [assumption|]); (split; [reflexivity|]);
    (split; [assumption|]); (split; [reflexivity|]); (split; [reflexivity|]);
    (split; [reflexivity|]);
    (split; [unfold outwnd_empty; cbn; rewrite Hzero; reflexivity|]);
    exists l; cbn; rewrite Hcalls, ?app_nil_r, <- ?app_assoc;
    (split; [reflexivity|]); split; assumption.
Qed.

End ResetHandling.

Lemma fpproto_handle_reset_spec_witness :
  outwnd_inv sock_100_115 /\ (256 < 257)%nat
  /\ exists fp',
       fpproto_handle_reset (fun _ _ => 7) 257 10000000000 sock_100_115 10000000000
       = Ok fp'
       /\ outwnd_inv fp'.
Proof.
  split; [exact sock_100_115_inv|]. split; [lia|].
  destruct (fpproto_handle_reset_spec (fun _ _ => 7) 257 10000000000 sock_100_115
              10000000000 sock_100_115_inv)
    as (fp' & E & Hinv' & _); [lia|].
  exists fp'. split; [exact E | exact Hinv'].
Defined.

(** ** Duplicate acknowledgements *)

(** An ACK payload that selects no outstanding seqno leaves the session
    alone. *)
Lemma fpproto_handle_ack_idle fuel fp ack_seq R :
  outwnd_inv fp -> in_outwnd fp (ack_full_seqno fp ack_seq) ->
  tx_num_unacked fp + 14 <= Z.of_nat fuel ->
  (forall s, in_outwnd fp s -> outwnd_is_unacked fp s = true ->
     ack_selects R (behind fp s - behind fp (ack_full_seqno fp ack_seq)) = false) ->
  exists fp',
    fpproto_handle_ack fuel fp ack_seq R = Ok fp'
    /\ outwnd_inv fp'
    /\ same_session fp fp'
    /\ calls fp' = calls fp
    /\ (forall t, in_outwnd fp t -> outwnd_is_unacked fp' t = outwnd_is_unacked fp t).
Proof.
  intros Hinv Hin Hfuel Hnone.
  unfold fpproto_handle_ack. rewrite ack_too_early_test.
  set (c := ack_full_seqno fp ack_seq) in *.
  pose proof (behind_range fp c) as Hbc.
  unfold in_outwnd, FASTPASS_OUTWND_LEN in Hin.
  destruct (Z.leb_spec 256 (behind fp c)); [lia|].
  assert (Hrun : runlen_at R 1 (shl32 R 4)).
  { split; [lia|]. rewrite shl32_nibble. reflexivity. }
  assert (Hfree : outwnd_is_unacked fp c = false).
  { destruct (outwnd_is_unacked fp c) eqn:Hocc; [|reflexivity].
    specialize (Hnone c Hin Hocc). rewrite Z.sub_diag in Hnone. discriminate. }
  rewrite Hfree. simpl_result.
  destruct (proj2 (ack_goto_ok fuel) 3%nat fp
              {| cur_seqno := c; end_seqno := sub64 c 1;
                 ack_runlen := shl32 R 4; n_acked := 0 |} R 1)
    as (fp2 & v2 & Eloop & Hpost); cbn [cur_seqno end_seqno ack_runlen n_acked].
  - assumption.
  - assumption.
  - rewrite behind_sub64 by lia. lia.
  - lia.
  - change (Z.min 8 (1 + 1)) with 2. lia.
  - rewrite Eloop. simpl_result.
    cbn [cur_seqno end_seqno ack_runlen n_acked] in Hpost.
    rewrite behind_sub64 in Hpost by lia.
    apply (ack_post_ext _ (fun _ => false)) in Hpost.
    + destruct Hpost as (l & Hinv2 & Hsame2 & Hcalls2 & Hn2 & Hin2 & Hbits2).
      assert (El : l = []).
      { destruct l as [|s l]; [reflexivity|].
        destruct (proj1 (Hin2 s) (or_introl eq_refl)) as (_ & _ & _ & Hf).
        discriminate. }
      subst l. cbn in Hn2, Hcalls2. rewrite app_nil_r in Hcalls2.
      rewrite Hn2. change (0 + 0 >? 0) with false. cbv iota.
      exists fp2. split; [reflexivity|]. split; [assumption|].
      split; [assumption|]. split; [assumption|].
      intros t Ht. rewrite Hbits2 by assumption. apply andb_true_r.
    + intros t Ht Hocc.
      unfold in_outwnd, FASTPASS_OUTWND_LEN in Ht.
      assert (Hk : behind fp t <> behind fp c).
      { intros E.
        assert (Epos : outwnd_pos c = outwnd_pos t).
        { apply Z.eqb_eq. rewrite (outwnd_pos_same_slot fp) by lia.
          apply Z.eqb_eq. congruence. }
        unfold outwnd_is_unacked in *. rewrite Epos in Hfree. congruence. }
      rewrite <- (Hnone t Ht Hocc). unfold ack_selects.
      destruct (Z.eqb_spec (behind fp t - behind fp c) 0); [lia|]. cbn [orb].
      rewrite <- (cov_shift 3 (behind fp c) 1 _ _ (behind fp t - behind fp c)).
      f_equal; lia.
Qed.

(** X9. An ACK payload processed a second time is harmless: the second
    pass returns without calling back, acknowledges nothing, and leaves
    the outstanding seqnos, their count, the timer and [earliest_unacked]
    as the first pass left them. *)
Theorem fpproto_handle_ack_duplicate fuel fp ack_seq R :
  outwnd_inv fp -> in_outwnd fp (ack_full_seqno fp ack_seq) ->
  (270 <= fuel)%nat ->
  exists fp1 fp2,
    fpproto_handle_ack fuel fp ack_seq R = Ok fp1
    /\ fpproto_handle_ack fuel fp1 ack_seq R = Ok fp2
    /\ calls fp2 = calls fp1
    /\ same_session fp1 fp2
    /\ tx_num_unacked fp2 = tx_num_unacked fp1
    /\ (forall t, outwnd_is_unacked fp2 t = outwnd_is_unacked fp1 t).
Proof.
  intros Hinv Hin Hfuel.
  pose proof (tx_num_unacked_bounds fp Hinv) as Htx.
  destruct (fpproto_handle_ack_spec fuel fp ack_seq R Hinv Hin)
    as (fp1 & l & E1 & Hinv1 & Hnext1 & _ & _ & Hbits1); [lia|].
  pose proof (tx_num_unacked_bounds fp1 Hinv1) as Htx1.
  assert (Hc1 : ack_full_seqno fp1 ack_seq = ack_full_seqno fp ack_seq)
    by (unfold ack_full_seqno; rewrite Hnext1; reflexivity).
  assert (Hb1 : forall t, behind fp1 t = behind fp t)
    by (intros t; apply behind_same; exact Hnext1).
  destruct (fpproto_handle_ack_idle fuel fp1 ack_seq R Hinv1)
    as (fp2 & E2 & Hinv2 & Hsame2 & Hcalls2 & Hbits2).
  { unfold in_outwnd. rewrite Hc1, Hb1. exact Hin. }
  { lia. }
  { intros s Hs Hocc. rewrite Hc1, !Hb1.
    unfold in_outwnd in Hs. rewrite Hb1 in Hs.
    rewrite Hbits1 in Hocc by exact Hs.
    apply andb_true_iff in Hocc. destruct Hocc as [_ Hocc].
    destruct (ack_selects R _); [discriminate | reflexivity]. }
  assert (Hall : forall t, outwnd_is_unacked fp2 t = outwnd_is_unacked fp1 t).
  { intros t.
    destruct (window_covers_mask fp1 (outwnd_pos t) (outwnd_pos_range t))
      as (t' & Ht' & Epos).
    unfold outwnd_is_unacked. rewrite <- Epos. apply Hbits2. exact Ht'. }
  exists fp1, fp2. split; [exact E1|]. split; [exact E2|].
  split; [assumption|]. split; [assumption|]. split; [|exact Hall].
  rewrite (inv_count _ Hinv2), (inv_count _ Hinv1).
  apply popcount_below_ext. intros j Hj.
  destruct (window_covers_mask fp1 j) as (t & _ & Epos);
    [unfold FASTPASS_OUTWND_LEN in Hj; lia|].
  specialize (Hall t). unfold outwnd_is_unacked in Hall.
  rewrite Epos in Hall. exact Hall.
Qed.

Lemma fpproto_handle_ack_duplicate_witness :
  outwnd_inv sock_100_115
  /\ in_outwnd sock_100_115 (ack_full_seqno sock_100_115 115)
  /\ (270 <= 270)%nat
  /\ exists fp1 fp2,
       fpproto_handle_ack 270 sock_100_115 115 0x03480000 = Ok fp1
       /\ fpproto_handle_ack 270 fp1 115 0x03480000 = Ok fp2
       /\ calls fp2 = calls fp1
       /\ same_session fp1 fp2
       /\ tx_num_unacked fp2 = tx_num_unacked fp1
       /\ (forall t, outwnd_is_unacked fp2 t = outwnd_is_unacked fp1 t).
Proof.
  assert (Hin : in_outwnd sock_100_115 (ack_full_seqno sock_100_115 115))
    by (vm_compute; reflexivity).
  split; [exact sock_100_115_inv|]. split; [exact Hin|]. split; [lia|].
  apply fpproto_handle_ack_duplicate; [exact sock_100_115_inv | exact Hin | lia].
Defined.

(** ** The receive path *)

Lemma lor_shiftl_add a b k :
  0 <= k -> 0 <= b < 2 ^ k -> Z.lor (Z.shiftl a k) b = a * 2 ^ k + b.
Proof.
  intros Hk Hb.
  assert (Hland : Z.land (Z.shiftl a k) b = 0).
  { apply Z.bits_inj'. intros n Hn. rewrite Z.land_spec, Z.bits_0.
    destruct (Z.lt_ge_cases n k).
    - rewrite Z.shiftl_spec_low by assumption. reflexivity.
    - rewrite <- (Z.mod_small b (2 ^ k)) by assumption.
      rewrite Z.mod_pow2_bits_high by lia. apply andb_false_r. }
  rewrite <- Z.lxor_lor by assumption.
  rewrite <- Z.add_nocarry_lxor by assumption.
  rewrite Z.shiftl_mul_pow2 by assumption. reflexivity.
Qed.

Lemma to_u8_range x : 0 <= to_u8 x < 256.
Proof. apply Z.mod_pos_bound. reflexivity. Qed.

Lemma load_u8_ok data i :
  (i < length data)%nat -> exists b, load_u8 data i = Ok b /\ 0 <= b < 256.
Proof.
  intros Hi. unfold load_u8.
  destruct (lookup_lt_is_Some_2 data i Hi) as [x ->].
  eexists. split; [reflexivity | apply to_u8_range].
Qed.

Lemma load_be16_ok data :
  (2 <= length data)%nat -> exists x, load_be16 data = Ok x /\ 0 <= x < 2 ^ 16.
Proof.
  intros Hlen. unfold load_be16.
  destruct (load_u8_ok data 0) as (b0 & -> & H0); [lia|].
  destruct (load_u8_ok data 1) as (b1 & -> & H1); [lia|].
  simpl_result. eexists. split; [reflexivity|].
  rewrite lor_shiftl_add by lia. lia.
Qed.

Lemma be32_value b0 b1 b2 b3 :
  0 <= b1 < 256 -> 0 <= b2 < 256 -> 0 <= b3 < 256 ->
  Z.lor (Z.lor (Z.lor (Z.shiftl b0 24) (Z.shiftl b1 16)) (Z.shiftl b2 8)) b3
  = b0 * 2 ^ 24 + b1 * 2 ^ 16 + b2 * 2 ^ 8 + b3.
Proof.
  intros H1 H2 H3.
  rewrite (Z.shiftl_mul_pow2 b1), (Z.shiftl_mul_pow2 b2) by lia.
  rewrite (lor_shiftl_add b0 (b1 * 2 ^ 16) 24) by lia.
  replace (b0 * 2 ^ 24 + b1 * 2 ^ 16) with (Z.shiftl (b0 * 2 ^ 8 + b1) 16)
    by (rewrite Z.shiftl_mul_pow2 by lia; lia).
  rewrite (lor_shiftl_add _ (b2 * 2 ^ 8) 16) by lia.
  replace ((b0 * 2 ^ 8 + b1) * 2 ^ 16 + b2 * 2 ^ 8)
    with (Z.shiftl ((b0 * 2 ^ 8 + b1) * 2 ^ 8 + b2) 8)
    by (rewrite Z.shiftl_mul_pow2 by lia; lia).
  rewrite (lor_shiftl_add _ b3 8) by lia.
  rewrite ?Z.shiftl_mul_pow2 by lia. ring.
Qed.

Lemma load_be32_ok data :
  (4 <= length data)%nat -> exists x, load_be32 data = Ok x /\ 0 <= x < 2 ^ 32.
Proof.
  intros Hlen. unfold load_be32.
  destruct (load_u8_ok data 0) as (b0 & -> & H0); [lia|].
  destruct (load_u8_ok data 1) as (b1 & -> & H1); [lia|].
  destruct (load_u8_ok data 2) as (b2 & -> & H2); [lia|].
  destruct (load_u8_ok data 3) as (b3 & -> & H3); [lia|].
  simpl_result. eexists. split; [reflexivity|].
  rewrite be32_value by lia. lia.
Qed.

Lemma rcv_reset_tstamp_ok data :
  (8 <= length data)%nat -> exists t, rcv_reset_tstamp data = Ok t.
Proof.
  intros Hlen. unfold rcv_reset_tstamp.
  destruct (load_be32_ok data) as (hi & -> & _); [lia|].
  destruct (load_be32_ok (drop 4 data)) as (lo & -> & _);
    [rewrite length_drop; lia|].
  simpl_result. eexists. reflexivity.
Qed.

Lemma rcv_alloc_dst_ok n :
  forall data, (2 * n <= length data)%nat ->
    exists ds, rcv_alloc_dst n data = Ok ds /\ length ds = n.
Proof.
  induction n as [|n IH]; intros data Hlen; cbn [rcv_alloc_dst].
  - exists []. split; reflexivity.
  - destruct (load_be16_ok data) as (d & -> & _); [lia|]. simpl_result.
    destruct (IH (drop 2 data)) as (ds & -> & Hds); [rewrite length_drop; lia|].
    simpl_result. exists (d :: ds). split; [reflexivity | cbn; lia].
Qed.

Lemma land_low_range x k : 0 <= k -> 0 <= Z.land x (Z.ones k) < 2 ^ k.
Proof. intros Hk. rewrite Z.land_ones by assumption. apply Z.mod_pos_bound. lia. Qed.

Section ReceiveSafety.

Variable jhash_1word : Z -> Z -> Z.
Variable clock : nat -> Z.
Variable has_handle_alloc : bool.

Lemma fpproto_handle_reset_ok fuel now fp partial_tstamp :
  outwnd_inv fp -> (256 < fuel)%nat ->
  exists fp',
    fpproto_handle_reset jhash_1word fuel now fp partial_tstamp = Ok fp'
    /\ outwnd_inv fp'.
Proof.
  intros Hinv Hfuel. unfold fpproto_handle_reset. cbv zeta.
  assert (Hkeep : forall fp', bin_mask fp' = bin_mask fp -> bins fp' = bins fp ->
            tx_num_unacked fp' = tx_num_unacked fp -> outwnd_inv fp')
    by (intros fp' Hm Hb Ht; revert Hinv; apply outwnd_inv_window; assumption).
  destruct (_ =? last_reset_time fp).
  { destruct (negb (in_sync fp)); eexists; (split; [reflexivity|]);
      apply Hkeep; reflexivity. }
  destruct (negb (tstamp_in_window _ now (rst_win_ns fp))).
  { eexists. split; [reflexivity|]. apply Hkeep; reflexivity. }
  destruct (tstamp_in_window (last_reset_time fp) now (rst_win_ns fp) && _).
  { eexists. split; [reflexivity|]. apply Hkeep; reflexivity. }
  destruct (do_proto_reset_spec jhash_1word fuel fp
              (reset_full_tstamp now partial_tstamp) Hinv Hfuel)
    as (fp1 & E & Hinv1 & _). rewrite E. simpl_result.
  destruct (has_handle_reset _); eexists; (split; [reflexivity|]);
    revert Hinv1; apply outwnd_inv_window; reflexivity.
Qed.

Lemma fpproto_handle_ack_ok fuel fp ack_seq ack_runlen :
  outwnd_inv fp -> (270 <= fuel)%nat ->
  exists fp',
    fpproto_handle_ack fuel fp ack_seq ack_runlen = Ok fp' /\ outwnd_inv fp'.
Proof.
  intros Hinv Hfuel. pose proof (tx_num_unacked_bounds fp Hinv).
  destruct (Z.lt_ge_cases (behind fp (ack_full_seqno fp ack_seq)) FASTPASS_OUTWND_LEN)
    as [Hin|Hout].
  - destruct (fpproto_handle_ack_spec fuel fp ack_seq ack_runlen Hinv Hin)
      as (fp' & _ & E & Hinv' & _); [lia|].
    exists fp'. split; assumption.
  - rewrite fpproto_handle_ack_early by (unfold in_outwnd; lia).
    eexists. split; [reflexivity|].
    revert Hinv. apply outwnd_inv_window; reflexivity.
Qed.

Lemma handle_payload_safe (inner : nat) :
  (270 <= inner)%nat ->
  forall fuel st data,
    outwnd_inv (rx_fp st) -> (0 < length data <= fuel)%nat ->
    exists st' new,
      handle_payload jhash_1word clock has_handle_alloc fuel inner st data = Ok st'
      /\ outwnd_inv (rx_fp st')
      /\ stat_rx_pkts (rx_stats st') = stat_rx_pkts (rx_stats st)
      /\ rx_allocs st' = rx_allocs st ++ new
      /\ Forall alloc_ok new.
Proof.
  intros Hinner. induction fuel as [|fuel IH]; intros st data Hinv Hlen; [lia|].
  assert (Hstop : forall st1 : rx_state,
            outwnd_inv (rx_fp st1) ->
            stat_rx_pkts (rx_stats st1) = stat_rx_pkts (rx_stats st) ->
            rx_allocs st1 = rx_allocs st ->
            exists st' new,
              Ok st1 = Ok st'
              /\ outwnd_inv (rx_fp st')
              /\ stat_rx_pkts (rx_stats st') = stat_rx_pkts (rx_stats st)
              /\ rx_allocs st' = rx_allocs st ++ new
              /\ Forall alloc_ok new).
  { intros st1 H1 H2 H3. exists st1, []. split; [reflexivity|].
    split; [assumption|]. split; [assumption|].
    split; [rewrite app_nil_r; assumption | constructor]. }
  assert (Hnext : forall (st1 : rx_state) k new1,
            outwnd_inv (rx_fp st1) ->
            stat_rx_pkts (rx_stats st1) = stat_rx_pkts (rx_stats st) ->
            rx_allocs st1 = rx_allocs st ++ new1 -> Forall alloc_ok new1 ->
            (0 < k <= length data)%nat ->
            exists st' new,
              (if more_payloads (drop k data)
               then handle_payload jhash_1word clock has_handle_alloc fuel inner
                      st1 (drop k data)
               else Ok st1) = Ok st'
              /\ outwnd_inv (rx_fp st')
              /\ stat_rx_pkts (rx_stats st') = stat_rx_pkts (rx_stats st)
              /\ rx_allocs st' = rx_allocs st ++ new
              /\ Forall alloc_ok new).
  { intros st1 k new1 H1 H2 H3 H4 Hk. unfold more_payloads.
    destruct (Nat.ltb_spec 0 (length (drop k data))) as [Hmore|_].
    - destruct (IH st1 (drop k data) H1) as (st' & new & E & Hi & Hs & Ha & Hf).
      { rewrite length_drop in *. lia. }
      exists st', (new1 ++ new). split; [exact E|]. split; [assumption|].
      split; [congruence|]. split; [rewrite Ha, H3, app_assoc; reflexivity|].
      apply Forall_app. split; assumption.
    - exists st1, new1. split; [reflexivity|]. split; [assumption|].
      split; [assumption|]. split; assumption. }
  cbn [handle_payload].
  destruct (load_u8_ok data 0) as (b & -> & Hb); [lia|]. simpl_result. cbv zeta.
  destruct (Z.shiftr b 4 =? FASTPASS_PTYPE_RESET).
  { destruct (Nat.ltb_spec (length data) 8) as [Hshort|Hlong].
    - apply Hstop; [assumption | reflexivity | reflexivity].
    - destruct (rcv_reset_tstamp_ok data Hlong) as (t & ->). simpl_result.
      destruct (fpproto_handle_reset_ok inner (clock fuel) (rx_fp st) t Hinv)
        as (fp' & -> & Hinv'); [lia|]. simpl_result.
      apply (Hnext (rx_with_fp st fp') 8%nat []);
        [assumption | reflexivity | cbn; now rewrite app_nil_r | constructor | lia]. }
  destruct (Z.shiftr b 4 =? FASTPASS_PTYPE_ALLOC).
  { destruct (Nat.ltb_spec (length data) 2) as [Hshort|Hlong].
    - apply Hstop; [assumption | reflexivity | reflexivity].
    - destruct (load_be16_ok data Hlong) as (x & -> & Hx). simpl_result.
      pose proof (land_low_range (Z.shiftr x 8) 4 ltac:(lia)) as Hnd.
      pose proof (land_low_range x 6 ltac:(lia)) as Hnt.
      change (Z.ones 4) with 15 in Hnd. change (Z.ones 6) with 63 in Hnt.
      change (2 ^ 4) with 16 in Hnd. change (2 ^ 6) with 64 in Hnt.
      set (nd := Z.land (Z.shiftr x 8) 15) in *.
      set (nt := Z.land x 63) in *.
      destruct (Z.ltb_spec (Z.of_nat (length (drop 2 data))) (2 + 2 * nd + 2 * nt))
        as [Hshort2|Hlong2].
      + apply Hstop; [assumption | reflexivity | reflexivity].
      + rewrite length_drop in Hlong2.
        destruct (load_be16_ok (drop 2 data)) as (base & -> & Hbase);
          [rewrite length_drop; lia|]. simpl_result.
        destruct (rcv_alloc_dst_ok (Z.to_nat nd) (drop 2 (drop 2 data)))
          as (ds & -> & Hds); [rewrite !length_drop; lia|]. simpl_result.
        rewrite !drop_drop.
        assert (Hcall : alloc_ok
                  {| alloc_base_tslot := to_u32 (Z.shiftl base 4);
                     alloc_dst := ds;
                     alloc_tslots := take (Z.to_nat (2 * nt))
                                       (drop (2 + 2 + Z.to_nat (2 * nd)) data) |}).
        { split; [cbn; lia|]. split; [cbn; rewrite length_take; lia|]. cbn.
          rewrite Z.shiftl_mul_pow2 by lia. unfold to_u32.
          rewrite Z.mod_small by lia. lia. }
        destruct has_handle_alloc.
        * eapply (Hnext _ _ [_]);
            [assumption | reflexivity | reflexivity
            | constructor; [exact Hcall | constructor] | lia].
        * apply (Hnext st _ []);
            [assumption | reflexivity | now rewrite app_nil_r | constructor | lia]. }
  destruct (Z.shiftr b 4 =? FASTPASS_PTYPE_ACK).
  { destruct (Nat.ltb_spec (length data) 6) as [Hshort|Hlong].
    - apply Hstop; [assumption | reflexivity | reflexivity].
    - destruct (load_be32_ok data) as (R & -> & _); [lia|]. simpl_result.
      destruct (load_be16_ok (drop 4 data)) as (seq & -> & _);
        [rewrite length_drop; lia|]. simpl_result.
      destruct (fpproto_handle_ack_ok inner (rx_fp st) seq R Hinv Hinner)
        as (fp' & -> & Hinv'). simpl_result.
      apply (Hnext (rx_with_fp st fp') 6%nat []);
        [assumption | reflexivity | cbn; now rewrite app_nil_r | constructor | lia]. }
  apply Hstop; [assumption | reflexivity | reflexivity].
Qed.

End ReceiveSafety.

(** X10. Whatever bytes arrive, [fpproto_rcv] on a session whose window
    satisfies the invariants returns without aborting and without reading
    past the end of the packet, and the window satisfies the invariants
    afterwards.  The packet is counted once in [stat_rx_pkts] when the
    socket was found and the qdisc locked, and not at all otherwise; every
    call of [handle_alloc] gets at most 15 destinations, at most 126 bytes
    of timeslots and a base timeslot below 2^20. *)
Theorem fpproto_rcv_safe jhash_1word clock has_handle_alloc fuel inner
    sk_found qdisc_locked st skb :
  outwnd_inv (rx_fp st) -> (length skb <= fuel)%nat -> (270 <= inner)%nat ->
  exists st' new,
    fpproto_rcv jhash_1word clock has_handle_alloc fuel inner
      sk_found qdisc_locked st skb = Ok st'
    /\ outwnd_inv (rx_fp st')
    /\ stat_rx_pkts (rx_stats st')
       = (if sk_found && qdisc_locked
          then add64 (stat_rx_pkts (rx_stats st)) 1
          else stat_rx_pkts (rx_stats st))
    /\ rx_allocs st' = rx_allocs st ++ new
    /\ Forall alloc_ok new.
Proof.
  intros Hinv Hfuel Hinner. unfold fpproto_rcv.
  destruct sk_found; cbn [negb andb].
  2:{ exists st, []. rewrite app_nil_r. split; [reflexivity|].
      split; [assumption|]. split; [reflexivity|]. split; [reflexivity|].
      constructor. }
  destruct qdisc_locked; cbn [negb].
  2:{ exists st, []. rewrite app_nil_r. split; [reflexivity|].
      split; [assumption|]. split; [reflexivity|]. split; [reflexivity|].
      constructor. }
  destruct (Nat.ltb_spec (length skb) 5) as [Hshort|Hlong].
  { eexists _, []. split; [reflexivity|]. cbn. rewrite app_nil_r.
    split; [assumption|]. split; [reflexivity|]. split; [reflexivity|].
    constructor. }
  destruct (handle_payload_safe jhash_1word clock has_handle_alloc inner Hinner
              fuel (rx_with_stats st (count_rx_pkts (rx_stats st))) (drop 4 skb))
    as (st' & new & E & Hinv' & Hpkts & Hallocs & Hok).
  { exact Hinv. }
  { rewrite length_drop. lia. }
  exists st', new. split; [exact E|]. split; [assumption|].
  split; [rewrite Hpkts; reflexivity|]. split; assumption.
Qed.

Lemma fpproto_rcv_safe_witness :
  outwnd_inv (rx_fp rx_100_115)
  /\ (length ack_then_garbage <= 13)%nat /\ (270 <= 270)%nat
  /\ exists st',
       fpproto_rcv (fun _ _ => 7) (fun _ => 20) true 13 270 true true
         rx_100_115 ack_then_garbage = Ok st'
       /\ outwnd_inv (rx_fp st')
       /\ stat_rx_pkts (rx_stats st') = 1.
Proof.
  split; [exact sock_100_115_inv|]. split; [vm_compute; lia|]. split; [lia|].
  destruct (fpproto_rcv_safe (fun _ _ => 7) (fun _ => 20) true 13 270 true true
              rx_100_115 ack_then_garbage sock_100_115_inv)
    as (st' & new & E & Hinv' & Hpkts & _); [vm_compute; lia | lia |].
  exists st'. split; [exact E|]. split; [exact Hinv' | exact Hpkts].
Defined.

(** ** The wire codec *)

Lemma to_u8_small x : 0 <= x < 256 -> to_u8 x = x.
Proof. intros H. apply Z.mod_small. exact H. Qed.

Lemma load_be16_put x rest :
  0 <= x < 2 ^ 16 -> load_be16 (put_be16 x ++ rest) = Ok x.
Proof.
  intros Hx. unfold load_be16, put_be16, load_u8. cbn [app lookup list_lookup].
  simpl_result. rewrite !to_u8_small by apply to_u8_range.
  rewrite lor_shiftl_add by (try apply to_u8_range; lia).
  f_equal. unfold to_u8. rewrite Z.shiftr_div_pow2 by lia.
  change (2 ^ 8) with 256 in *. change (2 ^ 16) with 65536 in *. mod_lia.
Qed.

Lemma load_be32_put x rest :
  0 <= x < 2 ^ 32 -> load_be32 (put_be32 x ++ rest) = Ok x.
Proof.
  intros Hx. unfold load_be32, put_be32, load_u8. cbn [app lookup list_lookup].
  simpl_result. rewrite !to_u8_small by apply to_u8_range.
  rewrite be32_value by apply to_u8_range.
  f_equal. unfold to_u8. rewrite !Z.shiftr_div_pow2 by lia.
  change (2 ^ 8) with 256 in *. change (2 ^ 16) with 65536 in *.
  change (2 ^ 24) with 16777216 in *. change (2 ^ 32) with 4294967296 in *.
  mod_lia.
Qed.

Lemma first_byte_put_be32 x rest :
  0 <= x < 2 ^ 32 ->
  load_u8 (put_be32 x ++ rest) 0 = Ok (Z.shiftr x 24).
Proof.
  intros Hx. unfold load_u8, put_be32. cbn [app lookup list_lookup].
  f_equal. rewrite to_u8_small; [apply to_u8_small|apply to_u8_range].
  rewrite Z.shiftr_div_pow2 by lia. change (2 ^ 24) with 16777216.
  change (2 ^ 32) with 4294967296 in Hx. mod_lia.
Qed.

Section ReceiveDecoding.

Variable jhash_1word : Z -> Z -> Z.
Variable clock : nat -> Z.
Variable has_handle_alloc : bool.

(** X11. An ACK payload, a 32-bit word whose top nibble is the payload
    type followed by a 16-bit seqno, both in network byte order, makes
    [fpproto_rcv] call [fpproto_handle_ack] with that seqno and the whole
    word, type nibble included, whatever the four header bytes are; the
    payloads that follow are processed next. *)
Theorem fpproto_rcv_ack fuel inner st hdr R ack_seq rest :
  length hdr = 4%nat -> 0 <= R < 2 ^ 32 ->
  Z.shiftr R 28 = FASTPASS_PTYPE_ACK -> 0 <= ack_seq < 2 ^ 16 ->
  fpproto_rcv jhash_1word clock has_handle_alloc (S fuel) inner true true st
    (hdr ++ put_be32 R ++ put_be16 ack_seq ++ rest)
  = (fp ← fpproto_handle_ack inner (rx_fp st) ack_seq R;
     let st' := rx_with_fp (rx_with_stats st (count_rx_pkts (rx_stats st))) fp in
     if more_payloads rest
     then handle_payload jhash_1word clock has_handle_alloc fuel inner st' rest
     else Ok st').
Proof.
  intros Hhdr HR Htype Hseq. unfold fpproto_rcv. cbn [negb].
  destruct (Nat.ltb_spec (length (hdr ++ put_be32 R ++ put_be16 ack_seq ++ rest)) 5)
    as [Hshort|_].
  { rewrite !length_app in Hshort. cbn in Hshort. lia. }
  rewrite drop_app_length' by (symmetry; exact Hhdr).
  cbn [handle_payload]. rewrite first_byte_put_be32 by exact HR. simpl_result.
  cbv zeta.
  replace (Z.shiftr (Z.shiftr R 24) 4) with (Z.shiftr R 28)
    by (rewrite Z.shiftr_shiftr by lia; reflexivity).
  rewrite Htype.
  change (FASTPASS_PTYPE_ACK =? FASTPASS_PTYPE_RESET) with false.
  change (FASTPASS_PTYPE_ACK =? FASTPASS_PTYPE_ALLOC) with false.
  change (FASTPASS_PTYPE_ACK =? FASTPASS_PTYPE_ACK) with true. cbv iota.
  destruct (Nat.ltb_spec (length (put_be32 R ++ put_be16 ack_seq ++ rest)) 6)
    as [Hshort|_].
  { rewrite !length_app in Hshort. cbn in Hshort. lia. }
  rewrite load_be32_put by exact HR. simpl_result.
  change (drop 4 (put_be32 R ++ put_be16 ack_seq ++ rest))
    with (put_be16 ack_seq ++ rest).
  rewrite load_be16_put by exact Hseq. simpl_result.
  reflexivity.
Qed.

End ReceiveDecoding.

Lemma fpproto_rcv_ack_witness :
  length [0; 0; 0; 0] = 4%nat /\ 0 <= 0x23480000 < 2 ^ 32
  /\ Z.shiftr 0x23480000 28 = FASTPASS_PTYPE_ACK /\ 0 <= 115 < 2 ^ 16
  /\ fpproto_rcv (fun _ _ => 7) (fun _ => 20) true 1 270 true true rx_100_115
       ([0; 0; 0; 0] ++ put_be32 0x23480000 ++ put_be16 115 ++ [])
     = (fp ← fpproto_handle_ack 270 sock_100_115 115 0x23480000;
        Ok (rx_with_fp
              (rx_with_stats rx_100_115 (count_rx_pkts blank_stats)) fp)).
Proof.
  split; [reflexivity|]. split; [lia|]. split; [reflexivity|]. split; [lia|].
  apply (fpproto_rcv_ack (fun _ _ => 7) (fun _ => 20) true 0 270 rx_100_115
           [0; 0; 0; 0] 0x23480000 115 []); [reflexivity | lia | reflexivity | lia].
Defined.

Lemma put_be16_bytes x : Forall (fun b => 0 <= b < 256) (put_be16 x).
Proof. repeat constructor; apply to_u8_range. Qed.

Lemma put_be32_bytes x : Forall (fun b => 0 <= b < 256) (put_be32 x).
Proof. repeat constructor; apply to_u8_range. Qed.

Lemma send_areq_bytes_length areq :
  length (send_areq_bytes areq) = (4 * length areq)%nat.
Proof.
  unfold send_areq_bytes. induction areq as [|a areq IH]; [reflexivity|].
  cbn [flat_map]. rewrite length_app, IH. cbn. lia.
Qed.

Lemma send_areq_bytes_range areq :
  Forall (fun b => 0 <= b < 256) (send_areq_bytes areq).
Proof.
  unfold send_areq_bytes. induction areq as [|a areq IH]; [constructor|].
  cbn [flat_map]. repeat (apply Forall_app; split);
    [apply put_be16_bytes | apply put_be16_bytes | exact IH].
Qed.

Lemma checksum_field_length (cks : list Z) : length (take 2 (cks ++ [0; 0])) = 2%nat.
Proof.
  rewrite length_take, length_app. change (length [0; 0]) with 2%nat. lia.
Qed.

(** X12. When the buffer is allocated, the packet that
    [fpproto_send_packet] hands to the transport has exactly the length
    [payload_len] computed before the allocation, 4 + 8 * send_reset + 2 +
    4 * n_areq: the writes fill the reserved bytes and stop there.  It
    starts with the low 16 bits of the seqno in network byte order, and
    every byte after the header is below 256.  [stat_xmit_errors] is
    counted exactly when the transport reports an error.  When the
    allocation fails no packet is handed over and only
    [stat_skb_alloc_error] is counted. *)
Theorem fpproto_send_packet_spec skb_alloc_ok xmit_err egress_checksum s pd :
  match fpproto_send_packet skb_alloc_ok xmit_err egress_checksum s pd with
  | (s', Some skb) =>
      skb_alloc_ok = true
      /\ Z.of_nat (length skb)
         = 4 + 8 * (if send_reset pd then 1 else 0) + 2
           + 4 * Z.of_nat (length (areq pd))
      /\ take 2 skb = put_be16 (to_u16 (seqno pd))
      /\ Forall (fun b => 0 <= b < 256) (drop 4 skb)
      /\ s' = (if xmit_err =? 0 then s else count_xmit_errors s)
  | (s', None) => skb_alloc_ok = false /\ s' = count_skb_alloc_error s
  end.
Proof.
  unfold fpproto_send_packet. destruct skb_alloc_ok; cbn [negb];
    [|split; reflexivity].
  split; [reflexivity|].
  set (data := send_packet_bytes pd).
  set (cks := take 2 (egress_checksum (seqno pd) data ++ [0; 0])).
  assert (Hcks : length cks = 2%nat) by apply checksum_field_length.
  assert (Hrest : drop 4 data
                  = (if send_reset pd
                     then put_be32 (to_u32 (Z.lor (Z.shiftl FASTPASS_PTYPE_RSTREQ 28)
                            (Z.land (Z.shiftr (reset_timestamp pd) 32) 16777215)))
                          ++ put_be32 (to_u32 (reset_timestamp pd))
                     else [])
                    ++ put_be16 (to_u16 (Z.lor (Z.shiftl FASTPASS_PTYPE_AREQ 12)
                                   (Z.land (Z.of_nat (length (areq pd))) 63)))
                    ++ send_areq_bytes (areq pd)) by reflexivity.
  assert (Hhead : take 2 data = put_be16 (to_u16 (seqno pd))) by reflexivity.
  split.
  { rewrite !length_app, Hcks, Hhead, Hrest, !length_app, send_areq_bytes_length.
    destruct (send_reset pd); cbn; lia. }
  split; [rewrite Hhead; reflexivity|].
  split.
  { replace (drop 4 (take 2 data ++ cks ++ drop 4 data)) with (drop 4 data).
    - rewrite Hrest. repeat (apply Forall_app; split);
        [destruct (send_reset pd);
           [apply Forall_app; split; apply put_be32_bytes | constructor]
        | apply put_be16_bytes | apply send_areq_bytes_range].
    - rewrite app_assoc. symmetry. apply drop_app_length'.
      rewrite length_app, Hcks, Hhead. reflexivity. }
  destruct (xmit_err =? 0); reflexivity.
Qed.

Lemma reset_words_value T :
  0 <= T < 2 ^ 64 ->
  let hi := to_u32 (Z.lor (Z.shiftl FASTPASS_PTYPE_RSTREQ 28)
                          (Z.land (Z.shiftr T 32) 16777215)) in
  0 <= hi < 2 ^ 24
  /\ Z.lor (to_u64 (Z.shiftl (Z.land hi (Z.shiftl 1 24 - 1)) 32)) (to_u32 T)
     = T mod 2 ^ 56.
Proof.
  intros HT. cbv zeta.
  change (Z.shiftl FASTPASS_PTYPE_RSTREQ 28) with 0. rewrite Z.lor_0_l.
  change 16777215 with (Z.ones 24). change (Z.shiftl 1 24 - 1) with (Z.ones 24).
  rewrite Z.land_ones by lia. rewrite Z.shiftr_div_pow2 by lia.
  assert (Hhi : 0 <= (T / 2 ^ 32) mod 2 ^ 24 < 2 ^ 24)
    by (apply Z.mod_pos_bound; lia).
  rewrite (to_u32_small ((T / 2 ^ 32) mod 2 ^ 24)) by lia.
  split; [exact Hhi|].
  rewrite Z.land_ones by lia. rewrite Z.mod_mod by lia.
  assert (Hlo : 0 <= to_u32 T < 2 ^ 32) by (apply Z.mod_pos_bound; lia).
  rewrite Z.shiftl_mul_pow2 by lia.
  rewrite to_u64_small by lia.
  rewrite <- Z.shiftl_mul_pow2 by lia.
  rewrite lor_shiftl_add by lia. unfold to_u32.
  change (2 ^ 24) with 16777216 in *. change (2 ^ 32) with 4294967296 in *.
  change (2 ^ 56) with 72057594037927936. change (2 ^ 64) with 18446744073709551616 in *.
  mod_lia.
Qed.

Section Loopback.

Variable jhash_1word : Z -> Z -> Z.
Variable clock : nat -> Z.
Variable has_handle_alloc : bool.

Lemma handle_payload_reset_step fuel inner st data :
  handle_payload jhash_1word clock has_handle_alloc (S fuel) inner st data
  = (b ← load_u8 data 0;
     let payload_type := Z.shiftr b 4 in
     if payload_type =? FASTPASS_PTYPE_RESET then
       if (length data <? 8)%nat then
         Ok (rx_with_stats st (count_rx_incomplete_reset (rx_stats st)))
       else
         rst_tstamp ← rcv_reset_tstamp data;
         fp ← fpproto_handle_reset jhash_1word inner (clock fuel) (rx_fp st)
                rst_tstamp;
         if more_payloads (drop 8 data)
         then handle_payload jhash_1word clock has_handle_alloc fuel inner
                (rx_with_fp st fp) (drop 8 data)
         else Ok (rx_with_fp st fp)
     else if (payload_type =? FASTPASS_PTYPE_ALLOC)
             || (payload_type =? FASTPASS_PTYPE_ACK)
     then handle_payload jhash_1word clock has_handle_alloc (S fuel) inner st data
     else Ok (rx_with_stats st (count_rx_unknown_payload (rx_stats st)))).
Proof.
  cbn [handle_payload]. destruct (load_u8 data 0) as [b| |]; try reflexivity.
  simpl_result. cbv zeta.
  destruct (Z.shiftr b 4 =? FASTPASS_PTYPE_RESET); [reflexivity|].
  destruct (Z.shiftr b 4 =? FASTPASS_PTYPE_ALLOC); [reflexivity|].
  destruct (Z.shiftr b 4 =? FASTPASS_PTYPE_ACK); reflexivity.
Qed.

(** X13. The RESET payload that [fpproto_send_packet] writes is read back
    by [fpproto_rcv] as a RESET carrying the low 56 bits of
    [reset_timestamp]: on a packet built with [send_reset] set,
    [fpproto_rcv] calls [fpproto_handle_reset] with [reset_timestamp mod
    2^56] and then stops at the A-REQ payload, which it counts as an
    unknown payload type. *)
Theorem fpproto_send_reset_received fuel inner st xmit_err egress_checksum s pd :
  send_reset pd = true -> 0 <= reset_timestamp pd < 2 ^ 64 ->
  exists s' skb,
    fpproto_send_packet true xmit_err egress_checksum s pd = (s', Some skb)
    /\ fpproto_rcv jhash_1word clock has_handle_alloc (S (S fuel)) inner
         true true st skb
       = (fp ← fpproto_handle_reset jhash_1word inner (clock (S fuel)) (rx_fp st)
                 (reset_timestamp pd mod 2 ^ 56);
          let st1 := rx_with_fp (rx_with_stats st (count_rx_pkts (rx_stats st))) fp in
          Ok (rx_with_stats st1 (count_rx_unknown_payload (rx_stats st1)))).
Proof.
  intros Hreset HT. unfold fpproto_send_packet. cbn [negb].
  eexists _, _. split; [reflexivity|].
  set (data := send_packet_bytes pd).
  set (cks := take 2 (egress_checksum (seqno pd) data ++ [0; 0])).
  assert (Hcks : length cks = 2%nat) by apply checksum_field_length.
  destruct (reset_words_value (reset_timestamp pd) HT) as [Hhi Hval].
  set (hi := to_u32 (Z.lor (Z.shiftl FASTPASS_PTYPE_RSTREQ 28)
                 (Z.land (Z.shiftr (reset_timestamp pd) 32) 16777215))) in *.
  set (w := to_u16 (Z.lor (Z.shiftl FASTPASS_PTYPE_AREQ 12)
                 (Z.land (Z.of_nat (length (areq pd))) 63))).
  assert (Hrest : drop 4 data
                  = put_be32 hi ++ put_be32 (to_u32 (reset_timestamp pd))
                    ++ put_be16 w ++ send_areq_bytes (areq pd)).
  { unfold data, send_packet_bytes. rewrite Hreset. cbn [app drop put_be16].
    rewrite <- app_assoc. reflexivity. }
  assert (Hhead : length (take 2 data) = 2%nat) by reflexivity.
  assert (Hlo : 0 <= to_u32 (reset_timestamp pd) < 2 ^ 32)
    by (apply Z.mod_pos_bound; lia).
  assert (Hw : Z.shiftr w 8 = 64).
  { unfold w, to_u16. change (Z.shiftl FASTPASS_PTYPE_AREQ 12) with (Z.shiftl 4 12).
    pose proof (land_low_range (Z.of_nat (length (areq pd))) 6 ltac:(lia)) as Hn.
    change (Z.ones 6) with 63 in Hn. change (2 ^ 6) with 64 in Hn.
    rewrite lor_shiftl_add by lia. rewrite Z.shiftr_div_pow2 by lia.
    change (2 ^ 12) with 4096. change (2 ^ 16) with 65536. change (2 ^ 8) with 256.
    mod_lia. }
  unfold fpproto_rcv. cbn [negb].
  destruct (Nat.ltb_spec (length (take 2 data ++ cks ++ drop 4 data)) 5)
    as [Hshort|_].
  { rewrite !length_app, Hcks, Hhead, Hrest, !length_app in Hshort.
    cbn in Hshort. lia. }
  replace (drop 4 (take 2 data ++ cks ++ drop 4 data)) with (drop 4 data)
    by (rewrite app_assoc; symmetry; apply drop_app_length';
        rewrite length_app, Hcks, Hhead; reflexivity).
  rewrite Hrest. rewrite handle_payload_reset_step.
  rewrite first_byte_put_be32 by lia. simpl_result. cbv zeta.
  replace (Z.shiftr (Z.shiftr hi 24) 4) with 0.
  2:{ rewrite Z.shiftr_shiftr by lia. symmetry. apply Z.shiftr_eq_0; [lia|].
      destruct (Z.eq_dec hi 0) as [->|]; [reflexivity|].
      apply Z.log2_lt_pow2; lia. }
  change (0 =? FASTPASS_PTYPE_RESET) with true. cbv iota.
  destruct (Nat.ltb_spec (length (put_be32 hi
              ++ put_be32 (to_u32 (reset_timestamp pd))
              ++ put_be16 w ++ send_areq_bytes (areq pd))) 8) as [Hshort|_].
  { rewrite !length_app in Hshort. cbn in Hshort. lia. }
  unfold rcv_reset_tstamp. rewrite load_be32_put by lia. simpl_result.
  change (drop 4 (put_be32 hi ++ put_be32 (to_u32 (reset_timestamp pd))
                  ++ put_be16 w ++ send_areq_bytes (areq pd)))
    with (put_be32 (to_u32 (reset_timestamp pd))
          ++ put_be16 w ++ send_areq_bytes (areq pd)).
  rewrite load_be32_put by lia. simpl_result. rewrite Hval.
  change (rx_fp (rx_with_stats st (count_rx_pkts (rx_stats st)))) with (rx_fp st).
  destruct (fpproto_handle_reset jhash_1word inner (clock (S fuel)) (rx_fp st)
              (reset_timestamp pd mod 2 ^ 56)) as [fp| |];
    simpl_result; [|reflexivity|reflexivity].
  change (drop 8 (put_be32 hi ++ put_be32 (to_u32 (reset_timestamp pd))
                  ++ put_be16 w ++ send_areq_bytes (areq pd)))
    with (put_be16 w ++ send_areq_bytes (areq pd)).
  change (more_payloads (put_be16 w ++ send_areq_bytes (areq pd))) with true.
  cbv iota. rewrite handle_payload_reset_step.
  unfold load_u8, put_be16. cbn [app lookup list_lookup]. simpl_result.
  rewrite Hw. change (to_u8 (to_u8 64)) with 64.
  reflexivity.
Qed.

End Loopback.

Lemma fpproto_send_reset_received_witness :
  send_reset {| seqno := 116; sent_timestamp := 16; send_reset := true;
                reset_timestamp := 2 ^ 60 + 5; areq := [(3, 2)] |} = true
  /\ 0 <= 2 ^ 60 + 5 < 2 ^ 64
  /\ exists s' skb,
       fpproto_send_packet true 0 (fun _ _ => [171; 205]) blank_stats
         {| seqno := 116; sent_timestamp := 16; send_reset := true;
            reset_timestamp := 2 ^ 60 + 5; areq := [(3, 2)] |}
       = (s', Some skb)
       /\ fpproto_rcv (fun _ _ => 7) (fun _ => 2 ^ 60 + 100) true 2 270
            true true rx_100_115 skb
          = (fp ← fpproto_handle_reset (fun _ _ => 7) 270 (2 ^ 60 + 100)
                    sock_100_115 ((2 ^ 60 + 5) mod 2 ^ 56);
             let st1 := rx_with_fp
                          (rx_with_stats rx_100_115 (count_rx_pkts blank_stats))
                          fp in
             Ok (rx_with_stats st1 (count_rx_unknown_payload (rx_stats st1)))).
Proof.
  split; [reflexivity|]. split; [lia|].
  apply (fpproto_send_reset_received (fun _ _ => 7) (fun _ => 2 ^ 60 + 100) true
           0 270 rx_100_115 0 (fun _ _ => [171; 205]) blank_stats
           {| seqno := 116; sent_timestamp := 16; send_reset := true;
              reset_timestamp := 2 ^ 60 + 5; areq := [(3, 2)] |});
    [reflexivity | cbn; lia].
Defined.

(** ** A sender that gets no acknowledgement *)

Lemma cancel_and_reset_ops fp fp' :
  cancel_and_reset_retrans_timer fp = Ok fp' -> ops fp' = ops fp.
Proof.
  unfold cancel_and_reset_retrans_timer.
  destruct (hrtimer_try_to_cancel (retrans_timer fp)) as [ret timer].
  destruct (negb (ret =? 0)); [intros [= <-]; reflexivity|].
  destruct (outwnd_empty _); [intros [= <-]; reflexivity|].
  destruct (outwnd_earliest_unacked _) as [e| |]; simpl_result; try discriminate.
  destruct (outwnd_timestamp _ e) as [stamp| |]; simpl_result; try discriminate.
  intros [= <-]. reflexivity.
Qed.

Lemma behind_after_add fp fp' t :
  next_seqno fp' = add64 (next_seqno fp) 1 ->
  behind fp' t = to_u64 (behind fp t + 1).
Proof. intros Hn. unfold behind. rewrite Hn. unfold add64, to_u64. mod_lia. Qed.

Lemma nacked_seqnos_app cs1 cs2 :
  nacked_seqnos (cs1 ++ cs2) = nacked_seqnos cs1 ++ nacked_seqnos cs2.
Proof. apply omap_app. Qed.

(** The commit of a packet into a window that holds the [k] newest seqnos,
    [k] below 256. *)
Lemma commit_newest fp k pd ts :
  newest_outstanding fp k -> k < 256 ->
  exists fp',
    fpproto_commit_packet fp pd ts = Ok fp'
    /\ newest_outstanding fp' (k + 1)
    /\ next_seqno fp' = add64 (next_seqno fp) 1
    /\ ops fp' = ops fp
    /\ calls fp' = calls fp.
Proof.
  intros (Hinv & Hnr & Htx & Hk & Hbits & Hdesc) Hlt.
  unfold FASTPASS_OUTWND_LEN in *.
  assert (Hfree : outwnd_is_unacked fp (sub64 (next_seqno fp) FASTPASS_OUTWND_LEN)
                  = false).
  { rewrite Hbits by (unfold in_outwnd; rewrite behind_edge;
                      unfold FASTPASS_OUTWND_LEN; lia).
    rewrite behind_edge. apply Z.ltb_ge. lia. }
  destruct (fpproto_commit_packet_effect fp pd ts Hinv Hfree)
    as (fp' & E & Hinv' & Hnext & Htx' & Hcalls & Hops & Hbins & Hbits' & _).
  assert (Hb : forall t, behind fp' t = to_u64 (behind fp t + 1))
    by (intros t; apply behind_after_add; exact Hnext).
  assert (Hnew : behind fp' (next_seqno fp) = 0).
  { rewrite Hb. unfold behind, to_u64. mod_lia. }
  assert (Hslot : forall t, behind fp' t < 256 ->
            (outwnd_pos (next_seqno fp) =? outwnd_pos t) = (0 =? behind fp' t)).
  { intros t Ht. rewrite (outwnd_pos_same_slot fp') by (rewrite ?Hnew; lia).
    rewrite Hnew. reflexivity. }
  exists fp'. split; [exact E|]. split; [|repeat split; assumption].
  split; [assumption|]. split; [rewrite Hnext; apply Z.mod_pos_bound; lia|].
  split; [lia|]. split; [unfold FASTPASS_OUTWND_LEN; lia|]. split.
  - intros t Ht. unfold in_outwnd, FASTPASS_OUTWND_LEN in Ht.
    rewrite Hbits', (Hslot t Ht).
    pose proof (behind_range fp t) as Hr. pose proof (behind_range fp' t) as Hr'.
    specialize (Hb t).
    destruct (Z.eqb_spec 0 (behind fp' t)) as [H0|Hn0]; cbn [orb].
    + symmetry. apply Z.ltb_lt. lia.
    + assert (Hprev : behind fp t = behind fp' t - 1)
        by (unfold to_u64 in Hb; mod_lia).
      rewrite Hbits by (unfold in_outwnd, FASTPASS_OUTWND_LEN; lia).
      rewrite Hprev.
      destruct (Z.ltb_spec (behind fp' t - 1) k),
               (Z.ltb_spec (behind fp' t) (k + 1)); try reflexivity; lia.
  - intros t Ht.
    pose proof (behind_range fp t) as Hr. pose proof (behind_range fp' t) as Hr'.
    rewrite Hbins by apply outwnd_pos_range. rewrite (Hslot t) by lia.
    specialize (Hb t).
    destruct (Z.eqb_spec 0 (behind fp' t)) as [H0|Hn0].
    + eexists. split; [reflexivity|]. cbn [seqno].
      rewrite Hb in H0. unfold behind, to_u64 in H0. unfold to_u64. mod_lia.
    + apply Hdesc. unfold to_u64 in Hb. mod_lia.
Qed.

(** [fpproto_prepare_to_send] on a full window of the 256 newest seqnos. *)
Lemma prepare_full fp :
  newest_outstanding fp 256 -> has_handle_neg_ack (ops fp) = true ->
  exists fp',
    fpproto_prepare_to_send fp = Ok fp'
    /\ newest_outstanding fp' 255
    /\ next_seqno fp' = next_seqno fp
    /\ ops fp' = ops fp
    /\ nacked_seqnos (calls fp')
       = nacked_seqnos (calls fp) ++ [sub64 (next_seqno fp) 256].
Proof.
  intros (Hinv & Hnr & Htx & Hk & Hbits & Hdesc) Hnack.
  unfold FASTPASS_OUTWND_LEN in *.
  set (edge := sub64 (next_seqno fp) 256).
  assert (Hbe : behind fp edge = 255) by apply behind_edge.
  assert (Hocc : outwnd_is_unacked fp edge = true).
  { rewrite Hbits by (unfold in_outwnd, FASTPASS_OUTWND_LEN; lia).
    rewrite Hbe. reflexivity. }
  unfold fpproto_prepare_to_send. cbv zeta.
  change (sub64 (next_seqno fp) FASTPASS_OUTWND_LEN) with edge. rewrite Hocc.
  set (fp0 := set_stat_fall_off_outwnd fp (add64 (stat_fall_off_outwnd fp) 1)).
  assert (Hinv0 : outwnd_inv fp0)
    by (revert Hinv; apply outwnd_inv_window; reflexivity).
  destruct (do_neg_ack_seqno_spec fp0 edge Hinv0 Hocc)
    as (fp1 & E1 & Hinv1 & Hsame1 & Hcalls1 & _ & Htx1 & Hbins1 & Hbits1).
  rewrite E1. simpl_result.
  destruct (cancel_and_reset_ok fp1 Hinv1)
    as (fp' & E' & Hinv' & Hmask' & Hbins' & Htx' & Hnext' & Hcalls').
  pose proof (cancel_and_reset_ops fp1 fp' E') as Hops'.
  assert (Hnext1 : next_seqno fp1 = next_seqno fp) by apply Hsame1.
  assert (Hops1 : ops fp1 = ops fp) by apply Hsame1.
  assert (Hb : forall t, behind fp' t = behind fp t)
    by (intros t; apply behind_same; congruence).
  assert (Hslot : forall t, behind fp t < 256 ->
            (outwnd_pos edge =? outwnd_pos t) = (255 =? behind fp t)).
  { intros t Ht. rewrite (outwnd_pos_same_slot fp) by lia. rewrite Hbe.
    reflexivity. }
  exists fp'. split; [exact E'|]. split.
  { split; [assumption|]. split; [congruence|]. split; [cbn in Htx1; lia|].
    split; [unfold FASTPASS_OUTWND_LEN; lia|]. split.
    - intros t Ht. unfold in_outwnd, FASTPASS_OUTWND_LEN in Ht.
      rewrite Hb in *. rewrite (is_unacked_same fp1 fp') by exact Hmask'.
      rewrite Hbits1, (Hslot t Ht).
      change (outwnd_is_unacked fp0 t) with (outwnd_is_unacked fp t).
      rewrite Hbits by (unfold in_outwnd, FASTPASS_OUTWND_LEN; lia).
      pose proof (behind_range fp t).
      destruct (Z.ltb_spec (behind fp t) 256), (Z.eqb_spec 255 (behind fp t)),
               (Z.ltb_spec (behind fp t) 255); try reflexivity; lia.
    - intros t. rewrite Hb. intros Ht. pose proof (behind_range fp t).
      unfold bin_at. rewrite Hbins'. fold (bin_at fp1 (outwnd_pos t)).
      rewrite Hbins1 by apply outwnd_pos_range. rewrite (Hslot t) by lia.
      destruct (Z.eqb_spec 255 (behind fp t)); [lia|].
      change (bin_at fp0 (outwnd_pos t)) with (bin_at fp (outwnd_pos t)).
      apply Hdesc. lia. }
  split; [congruence|]. split; [congruence|].
  rewrite Hcalls', Hcalls1, nacked_seqnos_app. f_equal.
  unfold neg_ack_call. change (ops fp0) with (ops fp). rewrite Hnack.
  change (bin_at fp0 (outwnd_pos edge)) with (bin_at fp (outwnd_pos edge)).
  destruct (Hdesc edge) as (d & -> & Hd); [lia|].
  cbn. rewrite Hd. unfold edge, sub64, to_u64. rewrite Z.mod_mod by lia.
  reflexivity.
Qed.

Lemma send_one_newest fp m pd ts :
  newest_outstanding fp m -> has_handle_neg_ack (ops fp) = true ->
  exists fp',
    send_one fp pd ts = Ok fp'
    /\ newest_outstanding fp' (Z.min (m + 1) 256)
    /\ next_seqno fp' = add64 (next_seqno fp) 1
    /\ ops fp' = ops fp
    /\ nacked_seqnos (calls fp')
       = nacked_seqnos (calls fp)
         ++ (if m =? 256 then [sub64 (next_seqno fp) 256] else []).
Proof.
  intros Hnew Hnack. unfold send_one.
  assert (Hm : 0 <= m <= 256) by (unfold FASTPASS_OUTWND_LEN in Hnew; apply Hnew).
  destruct (Z.eqb_spec m 256) as [->|Hne].
  - destruct (prepare_full fp Hnew Hnack) as (fp1 & E1 & Hnew1 & Hn1 & Ho1 & Hc1).
    rewrite E1. simpl_result.
    destruct (commit_newest fp1 255 pd ts Hnew1) as (fp' & E & Hnew' & Hn & Ho & Hc);
      [lia|].
    exists fp'. split; [exact E|]. split; [exact Hnew'|].
    split; [congruence|]. split; [congruence|]. rewrite Hc. exact Hc1.
  - assert (Hfree : outwnd_is_unacked fp
                      (sub64 (next_seqno fp) FASTPASS_OUTWND_LEN) = false).
    { destruct Hnew as (_ & _ & _ & _ & Hbits & _).
      rewrite Hbits by (unfold in_outwnd; rewrite behind_edge;
                        unfold FASTPASS_OUTWND_LEN; lia).
      rewrite behind_edge. apply Z.ltb_ge. lia. }
    unfold fpproto_prepare_to_send. cbv zeta. rewrite Hfree. simpl_result.
    destruct (commit_newest fp m pd ts Hnew) as (fp' & E & Hnew' & Hn & Ho & Hc);
      [lia|].
    exists fp'. split; [exact E|].
    split; [rewrite Z.min_l by lia; exact Hnew'|].
    split; [assumption|]. split; [assumption|].
    rewrite Hc, app_nil_r. reflexivity.
Qed.

Lemma send_all_newest l :
  forall fp m,
    newest_outstanding fp m -> has_handle_neg_ack (ops fp) = true ->
    exists fp',
      send_all l fp = Ok fp'
      /\ newest_outstanding fp' (Z.min (m + Z.of_nat (length l)) 256)
      /\ next_seqno fp' = add64 (next_seqno fp) (Z.of_nat (length l))
      /\ nacked_seqnos (calls fp')
         = nacked_seqnos (calls fp)
           ++ seqnos_from (sub64 (next_seqno fp) m)
                (Z.to_nat (m + Z.of_nat (length l) - 256)).
Proof.
  induction l as [|[pd ts] l IH]; intros fp m Hnew Hnack.
  - assert (Hm : 0 <= m <= 256) by (unfold FASTPASS_OUTWND_LEN in Hnew; apply Hnew).
    assert (Hnr : 0 <= next_seqno fp < 2 ^ 64) by apply Hnew.
    exists fp. split; [reflexivity|]. cbn [length Z.of_nat].
    rewrite Z.add_0_r, Z.min_l by lia. split; [assumption|].
    split; [unfold add64, to_u64; rewrite Z.add_0_r, Z.mod_small by lia; reflexivity|].
    replace (Z.to_nat (m - 256)) with 0%nat by lia. cbn. now rewrite app_nil_r.
  - assert (Hm : 0 <= m <= 256) by (unfold FASTPASS_OUTWND_LEN in Hnew; apply Hnew).
    cbn [send_all length].
    destruct (send_one_newest fp m pd ts Hnew Hnack)
      as (fp1 & E1 & Hnew1 & Hn1 & Ho1 & Hc1).
    rewrite E1. simpl_result.
    destruct (IH fp1 (Z.min (m + 1) 256) Hnew1) as (fp' & E & Hnew' & Hn & Hc);
      [congruence|].
    exists fp'. split; [exact E|]. split.
    { replace (Z.min (m + Z.of_nat (S (length l))) 256)
        with (Z.min (Z.min (m + 1) 256 + Z.of_nat (length l)) 256) by lia.
      exact Hnew'. }
    split.
    { rewrite Hn, Hn1. unfold add64, to_u64. mod_lia. }
    rewrite Hc, Hc1, <- app_assoc. f_equal.
    destruct (Z.eqb_spec m 256) as [->|Hne].
    + replace (Z.to_nat (256 + Z.of_nat (S (length l)) - 256))
        with (S (length l)) by lia.
      rewrite Z.min_r by lia.
      replace (Z.to_nat (256 + Z.of_nat (length l) - 256)) with (length l) by lia.
      cbn [seqnos_from app]. f_equal. f_equal.
      rewrite Hn1. unfold add64, sub64, to_u64. mod_lia.
    + rewrite Z.min_l by lia. cbn [app].
      replace (Z.to_nat (m + 1 + Z.of_nat (length l) - 256))
        with (Z.to_nat (m + Z.of_nat (S (length l)) - 256)) by lia.
      f_equal. rewrite Hn1. unfold add64, sub64, to_u64. mod_lia.
Qed.

(** X14. A sender that starts on an empty window and gets no
    acknowledgement never aborts: after [n] rounds of
    [fpproto_prepare_to_send] and [fpproto_commit_packet] the seqno has
    advanced by [n], the window holds exactly the [min n 256] newest
    seqnos, and the descriptors handed to [handle_neg_ack] are those of
    the first [n - 256] seqnos, oldest first, each when the packet 256
    seqnos later was prepared. *)
Theorem send_all_sliding_window l fp :
  outwnd_inv fp -> tx_num_unacked fp = 0 -> 0 <= next_seqno fp < 2 ^ 64 ->
  has_handle_neg_ack (ops fp) = true ->
  let n := Z.of_nat (length l) in
  exists fp',
    send_all l fp = Ok fp'
    /\ outwnd_inv fp'
    /\ next_seqno fp' = add64 (next_seqno fp) n
    /\ tx_num_unacked fp' = Z.min n 256
    /\ (forall t, in_outwnd fp' t ->
          outwnd_is_unacked fp' t = (behind fp' t <? Z.min n 256))
    /\ nacked_seqnos (calls fp')
       = nacked_seqnos (calls fp) ++ seqnos_from (next_seqno fp) (Z.to_nat (n - 256)).
Proof.
  intros Hinv Hz Hnr Hnack n.
  assert (Hnew : newest_outstanding fp 0).
  { split; [assumption|]. split; [assumption|]. split; [assumption|].
    split; [unfold FASTPASS_OUTWND_LEN; lia|]. split.
    - intros t _. rewrite (empty_window_free fp t Hinv Hz).
      pose proof (behind_range fp t). symmetry. apply Z.ltb_ge. lia.
    - intros t Ht. pose proof (behind_range fp t). lia. }
  destruct (send_all_newest l fp 0 Hnew Hnack) as (fp' & E & Hnew' & Hn & Hc).
  rewrite Z.add_0_l in *. fold n in Hnew', Hn, Hc.
  destruct Hnew' as (Hinv' & _ & Htx' & _ & Hbits' & _).
  exists fp'. split; [exact E|]. split; [assumption|]. split; [assumption|].
  split; [assumption|]. split; [assumption|].
  rewrite Hc. f_equal. f_equal.
  unfold sub64, to_u64. rewrite Z.sub_0_r. apply Z.mod_small. exact Hnr.
Qed.

Lemma send_all_sliding_window_witness :
  outwnd_inv (fresh_sock 100) /\ tx_num_unacked (fresh_sock 100) = 0
  /\ 0 <= next_seqno (fresh_sock 100) < 2 ^ 64
  /\ has_handle_neg_ack (ops (fresh_sock 100)) = true
  /\ exists fp',
       send_all (replicate 300 (blank_pktdesc, 0)) (fresh_sock 100) = Ok fp'
       /\ tx_num_unacked fp' = 256
       /\ nacked_seqnos (calls fp') = seqnos_from 100 44.
Proof.
  assert (Hinv : outwnd_inv (fresh_sock 100))
    by (apply outwnd_inv_b_sound; vm_compute; reflexivity).
  assert (Hr : 0 <= next_seqno (fresh_sock 100) < 2 ^ 64) by (cbn; lia).
  split; [exact Hinv|]. split; [reflexivity|]. split; [exact Hr|].
  split; [reflexivity|].
  destruct (send_all_sliding_window (replicate 300 (blank_pktdesc, 0))
              (fresh_sock 100) Hinv eq_refl Hr eq_refl)
    as (fp' & E & _ & _ & Htx & _ & Hc).
  exists fp'. split; [exact E|]. split; [exact Htx | exact Hc].
Defined.

(** ** What the window operations refuse *)

(** X15. Outside the window [outwnd_at_or_before] does not look at the
    bitmap: asked about a seqno at or after [next_seqno] it aborts, and
    asked about a seqno older than the window it answers -1. *)
Theorem outwnd_at_or_before_outside fp s :
  (2 ^ 63 <= behind fp s -> outwnd_at_or_before fp s = Bug)
  /\ (256 <= behind fp s < 2 ^ 63 -> outwnd_at_or_before fp s = Ok (-1)).
Proof.
  split.
  - intros H. unfold outwnd_at_or_before. rewrite before_next_behind.
    destruct (Z.leb_spec (2 ^ 63) (behind fp s)); [reflexivity | lia].
  - apply outwnd_at_or_before_far.
Qed.

Lemma outwnd_at_or_before_outside_witness :
  2 ^ 63 <= behind sock_100_115 116 /\ outwnd_at_or_before sock_100_115 116 = Bug
  /\ 256 <= behind sock_100_115 (sub64 100 300) < 2 ^ 63
  /\ outwnd_at_or_before sock_100_115 (sub64 100 300) = Ok (-1).
Proof.
  assert (H1 : 2 ^ 63 <= behind sock_100_115 116) by (vm_compute; discriminate).
  assert (H2 : 256 <= behind sock_100_115 (sub64 100 300) < 2 ^ 63)
    by (vm_compute; split; [discriminate | reflexivity]).
  split; [exact H1|].
  split; [exact (proj1 (outwnd_at_or_before_outside sock_100_115 116) H1)|].
  split; [exact H2|].
  exact (proj2 (outwnd_at_or_before_outside sock_100_115 (sub64 100 300)) H2).
Defined.

(** X16. [do_ack_seqno] returns exactly for the outstanding seqnos of the
    window and aborts for every other seqno.  [do_neg_ack_seqno] only
    tests the slot: it returns whenever the slot of the seqno is occupied,
    also for a seqno outside the window, and aborts exactly when the slot
    is free. *)
Theorem ack_abort_conditions fp s :
  outwnd_inv fp ->
  (do_ack_seqno fp s = Bug <->
   ~ (in_outwnd fp s /\ outwnd_is_unacked fp s = true))
  /\ (do_neg_ack_seqno fp s = Bug <-> outwnd_is_unacked fp s = false).
Proof.
  intros Hinv. split.
  - split.
    + intros Hbug [Hin Hocc].
      destruct (do_ack_seqno_spec fp s Hinv Hin Hocc) as (fp' & E & _).
      congruence.
    + intros Hnot. unfold do_ack_seqno. rewrite before_next_behind.
      pose proof (behind_range fp s) as Hr.
      destruct (Z.leb_spec (2 ^ 63) (behind fp s)); [reflexivity|]. simpl_result.
      rewrite before_edge_behind by assumption.
      destruct (Z.leb_spec 256 (behind fp s)); [reflexivity|]. simpl_result.
      destruct (outwnd_is_unacked fp s) eqn:Hocc; [|reflexivity].
      exfalso. apply Hnot. split; [|reflexivity].
      unfold in_outwnd, FASTPASS_OUTWND_LEN. assumption.
  - split.
    + intros Hbug. destruct (outwnd_is_unacked fp s) eqn:Hocc; [|reflexivity].
      destruct (do_neg_ack_seqno_spec fp s Hinv Hocc) as (fp' & E & _).
      congruence.
    + intros Hfree. unfold do_neg_ack_seqno, outwnd_pop. rewrite Hfree.
      reflexivity.
Qed.

Lemma ack_abort_conditions_witness :
  outwnd_inv sock_100_115
  /\ do_ack_seqno sock_100_115 (105 + 256) = Bug
  /\ outwnd_is_unacked sock_100_115 (105 + 256) = true
  /\ do_neg_ack_seqno sock_100_115 (105 + 256) <> Bug.
Proof.
  assert (Hocc : outwnd_is_unacked sock_100_115 (105 + 256) = true)
    by (vm_compute; reflexivity).
  split; [exact sock_100_115_inv|].
  destruct (ack_abort_conditions sock_100_115 (105 + 256) sock_100_115_inv)
    as [Hack Hnack].
  split; [|split; [exact Hocc|]].
  - apply Hack. intros [Hin _]. vm_compute in Hin. discriminate Hin.
  - intros E. apply Hnack in E. congruence.
Defined.

(** ** The runtime test *)

(** X17. On every socket whose window is blank (bitmap zero, all slots
    NULL, count zero), whatever the rest of the socket holds, none of the
    [BUG_ON]s of [outwnd_test] fires, and the test hands the socket back
    with an empty window that satisfies the invariants, the seqno advanced
    to 10007 + 256 and no call made. *)
Theorem outwnd_test_on_zeroed_socket fp :
  bin_mask fp = 0 ->
  bins fp = replicate (Z.to_nat FASTPASS_OUTWND_LEN) None ->
  tx_num_unacked fp = 0 ->
  exists fp',
    outwnd_test fp = Ok fp'
    /\ outwnd_inv fp'
    /\ outwnd_empty fp' = true
    /\ next_seqno fp' = 10007 + 256
    /\ calls fp' = calls fp.
Proof.
  destruct fp as [n m b tx e lr sync sto rw timer o s1 s2 s3 s4 s5 cs].
  cbn [bin_mask bins tx_num_unacked]. intros -> -> ->.
  eexists. split; [vm_compute; reflexivity|].
  split; [apply outwnd_inv_b_sound; vm_compute; reflexivity|].
  split; [reflexivity|]. split; reflexivity.
Qed.

Lemma outwnd_test_on_zeroed_socket_witness :
  bin_mask (fresh_sock 0) = 0
  /\ bins (fresh_sock 0) = replicate (Z.to_nat FASTPASS_OUTWND_LEN) None
  /\ tx_num_unacked (fresh_sock 0) = 0
  /\ exists fp',
       outwnd_test (fresh_sock 0) = Ok fp'
       /\ outwnd_inv fp'
       /\ outwnd_empty fp' = true
       /\ next_seqno fp' = 10007 + 256
       /\ calls fp' = calls (fresh_sock 0).
Proof.
  split; [reflexivity|]. split; [reflexivity|]. split; [reflexivity|].
  apply outwnd_test_on_zeroed_socket; reflexivity.
Defined.

(** ** The timer when it is not pending *)

(** X18. While the callback of the timer runs,
    [cancel_and_reset_retrans_timer] leaves everything to the deferred
    task.  On an idle timer it leaves an empty window alone, and otherwise
    arms the timer for the oldest outstanding seqno, at the send time of
    its descriptor plus the timeout, and records that seqno in
    [earliest_unacked]; the window and the log of calls stay as they
    are. *)
Theorem cancel_and_reset_when_not_pending fp :
  outwnd_inv fp ->
  (retrans_timer fp = TimerCallbackRunning ->
   cancel_and_reset_retrans_timer fp
   = Ok (set_retrans_timer fp TimerCallbackRunning))
  /\ (retrans_timer fp = TimerInactive ->
      if outwnd_empty fp
      then cancel_and_reset_retrans_timer fp
           = Ok (set_retrans_timer fp TimerInactive)
      else exists e pd,
             outstanding fp e
             /\ (forall t, in_outwnd fp t -> behind fp e < behind fp t ->
                           outwnd_is_unacked fp t = false)
             /\ bin_at fp (outwnd_pos e) = Some pd
             /\ cancel_and_reset_retrans_timer fp
                = Ok (rearmed fp e (sent_timestamp pd))).
Proof.
  intros Hinv. split.
  - intros Htimer. unfold cancel_and_reset_retrans_timer. rewrite Htimer.
    reflexivity.
  - intros Htimer. unfold outwnd_empty.
    destruct (Z.eqb_spec (tx_num_unacked fp) 0) as [Hz|Hnz].
    + unfold cancel_and_reset_retrans_timer, outwnd_empty. rewrite Htimer.
      cbn. rewrite Hz. reflexivity.
    + destruct (cancel_and_reset_inactive fp Hinv Htimer Hnz)
        as (e & pd & Ee & Hpd & E).
      destruct (outwnd_earliest_unacked_spec fp Hinv Hnz)
        as (e' & Ee' & Hin & Hocc & Hmin).
      assert (e' = e) by congruence. subst e'.
      exists e, pd. split.
      { split; [|split; assumption].
        unfold outwnd_earliest_unacked in Ee.
        apply (hint_result_range fp _ e Ee). }
      split; [exact Hmin|]. split; assumption.
Qed.

Lemma cancel_and_reset_when_not_pending_witness :
  outwnd_inv (set_retrans_timer sock_100_115 TimerInactive)
  /\ exists e pd,
       outstanding (set_retrans_timer sock_100_115 TimerInactive) e
       /\ bin_at (set_retrans_timer sock_100_115 TimerInactive) (outwnd_pos e)
          = Some pd
       /\ cancel_and_reset_retrans_timer
            (set_retrans_timer sock_100_115 TimerInactive)
          = Ok (rearmed (set_retrans_timer sock_100_115 TimerInactive) e
                  (sent_timestamp pd)).
Proof.
  assert (Hinv : outwnd_inv (set_retrans_timer sock_100_115 TimerInactive))
    by (apply outwnd_inv_b_sound; vm_compute; reflexivity).
  split; [exact Hinv|].
  pose proof (proj2 (cancel_and_reset_when_not_pending
                       (set_retrans_timer sock_100_115 TimerInactive) Hinv)
                eq_refl) as H.
  assert (Hne : outwnd_empty (set_retrans_timer sock_100_115 TimerInactive) = false)
    by (vm_compute; reflexivity).
  rewrite Hne in H. destruct H as (e & pd & Hout & _ & Hpd & E).
  exists e, pd. split; [exact Hout|]. split; [exact Hpd | exact E].
Defined.

(** ** From the commit to the timeout *)

(** X19. A packet committed into an empty window arms the timer at its
    send time plus the timeout, and the deferred task that runs next treats
    it by that deadline alone: if the deadline is after [now] the packet
    stays outstanding, no call is made and the timer is armed at the same
    deadline again; otherwise the stamped descriptor is handed to
    [handle_neg_ack] (or freed when no callback is installed), once, and
    the window is empty. *)
Theorem commit_then_timeout fp pd ts now fuel :
  outwnd_inv fp -> tx_num_unacked fp = 0 -> 0 <= next_seqno fp < 2 ^ 64 ->
  (2 <= fuel)%nat ->
  let pd' := {| seqno := next_seqno fp; sent_timestamp := ts;
                send_reset := negb (in_sync fp);
                reset_timestamp := last_reset_time fp; areq := areq pd |} in
  let deadline := add64 ts (send_timeout_us fp) in
  exists fp1 fp2,
    fpproto_commit_packet fp pd ts = Ok fp1
    /\ retrans_timer fp1 = TimerEnqueued deadline
    /\ retrans_tasklet fuel now true fp1 = Ok fp2
    /\ (if time_after64 deadline now
        then calls fp2 = calls fp
             /\ outwnd_is_unacked fp2 (next_seqno fp) = true
             /\ retrans_timer fp2 = TimerEnqueued deadline
        else calls fp2
             = calls fp ++ [if has_handle_neg_ack (ops fp)
                            then CallHandleNegAck (Some pd')
                            else CallPktdescFree (Some pd')]
             /\ outwnd_empty fp2 = true).
Proof.
  intros Hinv Hz Hnr Hfuel pd' deadline.
  assert (Hfree : outwnd_is_unacked fp (sub64 (next_seqno fp) FASTPASS_OUTWND_LEN)
                  = false) by (apply empty_window_free; assumption).
  destruct (fpproto_commit_packet_effect fp pd ts Hinv Hfree)
    as (fp1 & E1 & Hinv1 & Hnext1 & Htx1 & Hcalls1 & Hops1 & Hbins1 & Hbits1 & Htimer1).
  fold pd' in Hbins1.
  unfold outwnd_empty in Htimer1. rewrite Hz in Htimer1. cbn in Htimer1.
  destruct Htimer1 as [Htimer1 Hearliest1].
  assert (Hto1 : send_timeout_us fp1 = send_timeout_us fp).
  { unfold fpproto_commit_packet in E1. cbv zeta in E1.
    unfold outwnd_add in E1. rewrite Hfree in E1. simpl_result_in E1.
    rewrite bool_decide_eq_true_2 in E1 by (eexists; reflexivity).
    simpl_result_in E1. cbn in E1. rewrite Hz in E1. cbn in E1.
    injection E1 as <-. reflexivity. }
  set (e := next_seqno fp) in *.
  assert (Hbe : behind fp1 e = 0).
  { unfold behind. rewrite Hnext1. unfold add64, to_u64. fold e. mod_lia. }
  assert (Hocc : outwnd_is_unacked fp1 e = true).
  { rewrite Hbits1, Z.eqb_refl. reflexivity. }
  assert (Hpd : bin_at fp1 (outwnd_pos e) = Some pd').
  { rewrite Hbins1 by apply outwnd_pos_range. rewrite Z.eqb_refl. reflexivity. }
  assert (Hothers : forall t, behind fp1 t < 256 -> behind fp1 e < behind fp1 t ->
                              outwnd_is_unacked fp1 t = false).
  { intros t Ht Hlt. rewrite Hbits1, (empty_window_free fp t Hinv Hz), orb_false_r.
    rewrite (outwnd_pos_same_slot fp1) by lia.
    apply Z.eqb_neq. lia. }
  assert (Hin : in_outwnd fp1 e)
    by (unfold in_outwnd, FASTPASS_OUTWND_LEN; lia).
  destruct (outwnd_earliest_unacked_hint_spec fp1 e e Hinv1 Hin (Z.le_refl _) Hocc)
    as (e' & Hrange & _ & _ & Hok & _).
  assert (Ee : outwnd_earliest_unacked_hint fp1 e = Ok e').
  { apply Hok. intros t Ht. apply Hothers; lia. }
  assert (e' = e).
  { apply (behind_eq_same fp1);
      [apply (hint_result_range fp1 e e' Ee) | exact Hnr | lia]. }
  subst e'.
  exists fp1. destruct fuel as [|[|fuel]]; try lia.
  unfold retrans_tasklet. cbn [negb]. rewrite Hearliest1.
  cbn [retrans_expire]. unfold outwnd_empty. rewrite Htx1, Hz. cbn [Z.add Z.eqb Pos.eqb].
  rewrite Ee. simpl_result. unfold outwnd_timestamp. rewrite Hpd. simpl_result.
  cbn [sent_timestamp pd']. rewrite Hto1. fold deadline.
  destruct (time_after64 deadline now).
  - eexists. split; [exact E1|]. split; [exact Htimer1|]. split; [reflexivity|].
    cbn. split; [exact Hcalls1|]. split; [exact Hocc | reflexivity].
  - destruct (do_neg_ack_seqno_spec fp1 e Hinv1 Hocc)
      as (fp2 & E2 & Hinv2 & Hsame2 & Hcalls2 & _ & Htx2 & _ & _).
    rewrite E2. simpl_result.
    assert (Hz2 : tx_num_unacked fp2 = 0) by lia. rewrite Hz2. cbn [Z.eqb].
    exists fp2. split; [exact E1|]. split; [exact Htimer1|]. split; [reflexivity|].
    split; [|unfold outwnd_empty; rewrite Hz2; reflexivity].
    rewrite Hcalls2, Hcalls1. unfold neg_ack_call. rewrite Hpd, Hops1. reflexivity.
Qed.

Lemma commit_then_timeout_witness :
  outwnd_inv (fresh_sock 100) /\ tx_num_unacked (fresh_sock 100) = 0
  /\ 0 <= next_seqno (fresh_sock 100) < 2 ^ 64 /\ (2 <= 2)%nat
  /\ exists fp1 fp2,
       fpproto_commit_packet (fresh_sock 100) blank_pktdesc 50 = Ok fp1
       /\ retrans_timer fp1 = TimerEnqueued 1050
       /\ retrans_tasklet 2 1050 true fp1 = Ok fp2
       /\ outwnd_empty fp2 = true.
Proof.
  assert (Hinv : outwnd_inv (fresh_sock 100))
    by (apply outwnd_inv_b_sound; vm_compute; reflexivity).
  assert (Hr : 0 <= next_seqno (fresh_sock 100) < 2 ^ 64) by (cbn; lia).
  split; [exact Hinv|]. split; [reflexivity|]. split; [exact Hr|].
  split; [lia|].
  destruct (commit_then_timeout (fresh_sock 100) blank_pktdesc 50 1050 2
              Hinv eq_refl Hr (le_n 2))
    as (fp1 & fp2 & E1 & Htimer & E2 & Hend).
  exists fp1, fp2. split; [exact E1|]. split; [exact Htimer|].
  split; [exact E2|].
  assert (Hlate : time_after64 (add64 50 (send_timeout_us (fresh_sock 100))) 1050
                  = false) by (vm_compute; reflexivity).
  rewrite Hlate in Hend. apply Hend.
Defined.
